(** * Agent session streaming: a shallow embedding of
      [server/routers/agent.py] and [server/services/agent.py]

    The development follows the two Python modules function by function.
    Python values are a small dynamically typed universe ([pyval]); the
    async generators are run to exhaustion and their observable behaviour
    (frames yielded, collaborator calls, log records) is collected in an
    ordered trace; storage is an explicit state that is threaded through
    a state/exception/writer monad. *)

From Stdlib Require Import ZArith String Ascii List Bool Lia.
From stdpp Require Import base tactics option list strings gmap pretty.

Set Warnings "-register-all".
Open Scope string_scope.
Open Scope list_scope.

(* ===================================================================== *)
(** ** Python values *)
(* ===================================================================== *)

Module Py.

(** The values that flow through the event dictionaries.  A [string] is
    read as a sequence of code points below 256; dictionaries keep their
    insertion order, as Python's do. *)
Inductive pyval : Type :=
| VNone
| VBool (b : bool)
| VInt (z : Z)
| VStr (s : string)
| VList (l : list pyval)
| VDict (d : list (string * pyval)).

Definition pydict : Type := list (string * pyval).

(** [bool(v)] *)
Definition truthy (v : pyval) : bool :=
  match v with
  | VNone => false
  | VBool b => b
  | VInt z => negb (z =? 0)%Z
  | VStr s => negb (String.eqb s "")
  | VList l => match l with [] => false | _ => true end
  | VDict d => match d with [] => false | _ => true end
  end.

(** [v is not None] *)
Definition is_not_none (v : pyval) : bool :=
  match v with VNone => false | _ => true end.

(** [d.get(key, default)] on a dict *)
Fixpoint dict_get (d : pydict) (key : string) (default : pyval) : pyval :=
  match d with
  | [] => default
  | (k, v) :: rest => if String.eqb k key then v else dict_get rest key default
  end.

(** [v == s] for a string literal [s]: only a [str] compares equal. *)
Definition eq_str (v : pyval) (s : string) : bool :=
  match v with
  | VStr t => String.eqb t s
  | _ => false
  end.

(** [type(v).__name__] *)
Definition type_name (v : pyval) : string :=
  match v with
  | VNone => "NoneType"
  | VBool _ => "bool"
  | VInt _ => "int"
  | VStr _ => "str"
  | VList _ => "list"
  | VDict _ => "dict"
  end.

Definition hex_digit (n : N) : ascii :=
  match n with
  | 0 => "0" | 1 => "1" | 2 => "2" | 3 => "3" | 4 => "4" | 5 => "5"
  | 6 => "6" | 7 => "7" | 8 => "8" | 9 => "9" | 10 => "a" | 11 => "b"
  | 12 => "c" | 13 => "d" | 14 => "e" | _ => "f"
  end%N%char.

(** two lowercase hexadecimal digits of a code point below 256 *)
Definition hex2 (c : ascii) : string :=
  let n := N_of_ascii c in
  String (hex_digit (n / 16)) (String (hex_digit (n mod 16)) "").

Fixpoint string_mem (c : ascii) (s : string) : bool :=
  match s with
  | EmptyString => false
  | String c' s' => Ascii.eqb c c' || string_mem c s'
  end.

(** [str.isprintable] on one code point below 256 *)
Definition printable (c : ascii) : bool :=
  let n := N_of_ascii c in
  ((32 <=? n) && (n <? 127) || (161 <=? n) && negb (n =? 173))%N.

Definition dquote : ascii := "034"%char.
Definition squote : ascii := "039"%char.
Definition backslash : ascii := "092"%char.
Definition nl : string := String "010"%char "".

Definition repr_char (quote c : ascii) : string :=
  if Ascii.eqb c quote || Ascii.eqb c backslash then String backslash (String c "")
  else if Ascii.eqb c "009"%char then "\t"
  else if Ascii.eqb c "010"%char then "\n"
  else if Ascii.eqb c "013"%char then "\r"
  else if printable c then String c ""
  else "\x" +:+ hex2 c.

Fixpoint repr_chars (quote : ascii) (s : string) : string :=
  match s with
  | EmptyString => ""
  | String c s' => repr_char quote c +:+ repr_chars quote s'
  end.

(** [repr(s)] of a [str]: single quotes unless the text holds a single
    quote and no double quote. *)
Definition repr_str (s : string) : string :=
  let quote :=
    if string_mem squote s && negb (string_mem dquote s)
    then dquote else squote in
  String quote (repr_chars quote s +:+ String quote "").

Fixpoint join (sep : string) (l : list string) : string :=
  match l with
  | [] => ""
  | [x] => x
  | x :: rest => x +:+ sep +:+ join sep rest
  end.

(** [repr(v)] *)
Fixpoint repr (v : pyval) : string :=
  match v with
  | VNone => "None"
  | VBool true => "True"
  | VBool false => "False"
  | VInt z => pretty z
  | VStr s => repr_str s
  | VList l => "[" +:+ join ", " (map repr l) +:+ "]"
  | VDict d =>
      "{" +:+ join ", " (map (fun kv => repr_str (fst kv) +:+ ": " +:+ repr (snd kv)) d) +:+ "}"
  end.

(** [str(v)], which is what an f-string field prints *)
Definition str (v : pyval) : string :=
  match v with
  | VStr s => s
  | _ => repr v
  end.

(** One character of [json.dumps] output with [ensure_ascii=True]. *)
Definition json_char (c : ascii) : string :=
  if Ascii.eqb c dquote then String backslash (String dquote "")
  else if Ascii.eqb c backslash then String backslash (String backslash "")
  else if Ascii.eqb c "010"%char then "\n"
  else if Ascii.eqb c "013"%char then "\r"
  else if Ascii.eqb c "009"%char then "\t"
  else if Ascii.eqb c "008"%char then "\b"
  else if Ascii.eqb c "012"%char then "\f"
  else
    let n := N_of_ascii c in
    if ((32 <=? n) && (n <? 127))%N then String c ""
    else "\u00" +:+ hex2 c.

Fixpoint json_chars (s : string) : string :=
  match s with
  | EmptyString => ""
  | String c s' => json_char c +:+ json_chars s'
  end.

Definition json_str (s : string) : string :=
  String dquote (json_chars s +:+ String dquote "").

(** [json.dumps(v)] with the default separators *)
Fixpoint json_dumps (v : pyval) : string :=
  match v with
  | VNone => "null"
  | VBool true => "true"
  | VBool false => "false"
  | VInt z => pretty z
  | VStr s => json_str s
  | VList l => "[" +:+ join ", " (map json_dumps l) +:+ "]"
  | VDict d =>
      "{" +:+ join ", " (map (fun kv => json_str (fst kv) +:+ ": " +:+ json_dumps (snd kv)) d) +:+ "}"
  end.

(** Exceptions are identified with what [str(e)] prints. *)
Inductive exn : Type := Exception (msg : string).

Definition str_exn (e : exn) : string :=
  match e with Exception msg => msg end.

(** [s[:n]] *)
Definition slice_to (n : nat) (s : string) : string := String.substring 0 n s.

End Py.
Export Py.

(* ===================================================================== *)
(** ** Observable behaviour and the effect monad *)
(* ===================================================================== *)

Module Effects.

Inductive LogLevel : Type := INFO | WARNING | ERROR.

(** [ClaudeCodeOptions(...)] as [stream_agent_response] fills it in. *)
Record ClaudeCodeOptions : Type := {
  cwd : string;
  allowed_tools : list string;
  permission_mode : string;
  resume : pyval;
  mcp_servers : pyval;
  system_prompt : string;
}.

(** Calls made on collaborators, with their arguments. *)
Inductive Call : Type :=
| CGetCurrentUser
| CProjectGet (project_id : string)
| CConversationCreate (title : string)
| CConversationGet (conversation_id : string)
| CAddMessage (conversation_id role content : string) (is_error : bool)
| CUpdateSessionId (conversation_id : string) (session_id : pyval)
| CUpdateClusterId (conversation_id cluster_id : string)
| CMarkForBackup (project_id : string)
| CEnsureProjectDirectory (project_id : string)
| CGetMcpConfig
| CGetMcpTools
| CGetSystemPrompt (cluster_id : option string)
| CQuery (prompt : string) (options : ClaudeCodeOptions).

(** One observable step of a generator that yields values of type [Y]. *)
Inductive Obs (Y : Type) : Type :=
| Log (level : LogLevel) (msg : string)
| Called (c : Call)
| Yield (y : Y).

Arguments Log {Y} level msg.
Arguments Called {Y} c.
Arguments Yield {Y} y.

(** A computation over a state [S] that may raise, and that leaves an
    ordered record of what it logged, called and yielded. *)
Definition Eff (S Y A : Type) : Type := S -> (exn + A) * S * list (Obs Y).

Definition eff_ret {S Y A} (a : A) : Eff S Y A :=
  fun s => (inr a, s, []).

Definition eff_bind {S Y A B} (f : A -> Eff S Y B) (m : Eff S Y A) : Eff S Y B :=
  fun s =>
    match m s with
    | (inl e, s1, o1) => (inl e, s1, o1)
    | (inr a, s1, o1) =>
        match f a s1 with
        | (r, s2, o2) => (r, s2, o1 ++ o2)
        end
    end.

#[global] Instance Eff_ret {S Y} : MRet (Eff S Y) := @eff_ret S Y.
#[global] Instance Eff_bind {S Y} : MBind (Eff S Y) := @eff_bind S Y.

Definition raise {S Y A} (e : exn) : Eff S Y A :=
  fun s => (inl e, s, []).

(** [try: body  except Exception as e: handler(e)] *)
Definition try_except {S Y A} (body : Eff S Y A) (handler : exn -> Eff S Y A) : Eff S Y A :=
  fun s =>
    match body s with
    | (inl e, s1, o1) =>
        match handler e s1 with
        | (r, s2, o2) => (r, s2, o1 ++ o2)
        end
    | (inr a, s1, o1) => (inr a, s1, o1)
    end.

Definition tell {S Y} (o : list (Obs Y)) : Eff S Y unit :=
  fun s => (inr tt, s, o).

Definition logger {S Y} (level : LogLevel) (msg : string) : Eff S Y unit :=
  tell [Log level msg].

Definition yield {S Y} (y : Y) : Eff S Y unit :=
  tell [Yield y].

(** A call whose outcome [r] the environment fixes. *)
Definition invoke {S Y A} (c : Call) (r : exn + A) : Eff S Y A :=
  fun s => (r, s, [Called c]).

Definition when {S Y} (b : bool) (m : Eff S Y unit) : Eff S Y unit :=
  if b then m else mret tt.

Fixpoint yield_all {S Y} (ys : list Y) : Eff S Y unit :=
  match ys with
  | [] => mret tt
  | y :: rest => yield y;; yield_all rest
  end.

End Effects.
Export Effects.

(* ===================================================================== *)
(** ** The agent runtime's message types ([claude_code_sdk.types]) *)
(* ===================================================================== *)

Module Sdk.

(** Content blocks of an assistant message.  The text of a [TextBlock] is
    a [str]; the fields the service only copies are arbitrary values.
    [OtherBlock] stands for an object of none of the four classes. *)
Inductive ContentBlock : Type :=
| TextBlock (text : string)
| ThinkingBlock (thinking : pyval)
| ToolUseBlock (id name input : pyval)
| ToolResultBlock (tool_use_id content is_error : pyval)
| OtherBlock.

(** Messages produced by [query].  [data] is the dict of a system
    message, [None] when the object has no such attribute.
    [OtherMessage] stands for an object of none of the five classes. *)
Inductive Message : Type :=
| AssistantMessage (content : list ContentBlock)
| ResultMessage (session_id duration_ms total_cost_usd is_error num_turns : pyval)
| SystemMessage (subtype : pyval) (data : option pydict)
| UserMessage
| StreamEvent (event session_id : pyval)
| OtherMessage.

End Sdk.

(* ===================================================================== *)
(** ** [server/db/models.py] and the storage collaborator *)
(* ===================================================================== *)

Module Models.

(** The columns the orchestrator reads or writes; identifiers of message
    rows and the time stamps, which the database fills in, are left out. *)
Record Project : Type := {
  p_id : string;
  p_name : string;
  p_user_email : string;
}.

Record Conversation : Type := {
  c_id : string;
  c_project_id : string;
  c_title : string;
  c_session_id : pyval;
  c_cluster_id : option string;
}.

Record Message : Type := {
  m_conversation_id : string;
  m_role : string;
  m_content : string;
  m_is_error : bool;
}.

End Models.
Export Models.

Module Storage.

Record Store : Type := {
  projects : gmap string Project;
  conversations : gmap string Conversation;
  messages : list Models.Message;
}.

Section Ops.

Context {Y : Type}.

(** What decides whether a storage write raises: the call itself. *)
Variable storage_fault : Call -> option exn.

(** Modelled from the spec: [ProjectStorage(user_email).get(project_id)]
    of the absent [services/storage.py]; the project with this id when
    it belongs to the user, else [None]. *)
Definition find_project (st : Store) (user_email project_id : string) : option Project :=
  match projects st !! project_id with
  | Some p => if String.eqb (p_user_email p) user_email then Some p else None
  | None => None
  end.

Definition project_get (user_email project_id : string)
    : Eff Store Y (option Project) :=
  fun st => (inr (find_project st user_email project_id), st, [Called (CProjectGet project_id)]).

(** Modelled from the spec: [ConversationStorage.create(title)] of the
    absent [services/storage.py]; a new conversation of the project, with
    a generated id, no session token and no cluster.  The id is a primary
    key, so inserting an id that is taken raises. *)
Definition conversation_create (generate_uuid project_id title : string)
    : Eff Store Y Conversation :=
  fun st =>
    let c := {| c_id := generate_uuid; c_project_id := project_id; c_title := title;
                c_session_id := VNone; c_cluster_id := None |} in
    match conversations st !! generate_uuid with
    | Some _ =>
        (inl (Exception "UNIQUE constraint failed: conversations.id"), st,
         [Called (CConversationCreate title)])
    | None =>
        (inr c,
         {| projects := projects st;
            conversations := <[generate_uuid := c]> (conversations st);
            messages := messages st |},
         [Called (CConversationCreate title)])
    end.

(** Modelled from the spec: [ConversationStorage.get(conversation_id)] of
    the absent [services/storage.py]; the conversation with this id when
    it is one of the project's, else [None]. *)
Definition find_conversation (st : Store) (project_id conversation_id : string)
    : option Conversation :=
  match conversations st !! conversation_id with
  | Some c => if String.eqb (c_project_id c) project_id then Some c else None
  | None => None
  end.

Definition conversation_get (project_id conversation_id : string)
    : Eff Store Y (option Conversation) :=
  fun st =>
    (inr (find_conversation st project_id conversation_id), st,
     [Called (CConversationGet conversation_id)]).

(** A storage write: recorded, then either raising (store unchanged) or
    applying [upd]. *)
Definition write (c : Call) (upd : Store -> Store) : Eff Store Y unit :=
  fun st =>
    match storage_fault c with
    | Some e => (inl e, st, [Called c])
    | None => (inr tt, upd st, [Called c])
    end.

Definition append_message (row : Models.Message) (st : Store) : Store :=
  {| projects := projects st;
     conversations := conversations st;
     messages := messages st ++ [row] |}.

Definition alter_conversation (f : Conversation -> Conversation) (conversation_id : string)
    (st : Store) : Store :=
  {| projects := projects st;
     conversations := alter f conversation_id (conversations st);
     messages := messages st |}.

(** Modelled from the spec: [ConversationStorage.add_message] of the
    absent [services/storage.py]; appends one message row. *)
Definition add_message (conversation_id role content : string) (is_error : bool)
    : Eff Store Y unit :=
  write (CAddMessage conversation_id role content is_error)
    (append_message {| m_conversation_id := conversation_id; m_role := role;
                       m_content := content; m_is_error := is_error |}).

Definition set_session_id (session_id : pyval) (c : Conversation) : Conversation :=
  {| c_id := c_id c; c_project_id := c_project_id c; c_title := c_title c;
     c_session_id := session_id; c_cluster_id := c_cluster_id c |}.

Definition set_cluster_id (cluster_id : string) (c : Conversation) : Conversation :=
  {| c_id := c_id c; c_project_id := c_project_id c; c_title := c_title c;
     c_session_id := c_session_id c; c_cluster_id := Some cluster_id |}.

(** Modelled from the spec: [ConversationStorage.update_session_id] of
    the absent [services/storage.py]; overwrites the conversation's
    stored session token. *)
Definition update_session_id (conversation_id : string) (session_id : pyval)
    : Eff Store Y unit :=
  write (CUpdateSessionId conversation_id session_id)
    (alter_conversation (set_session_id session_id) conversation_id).

(** Modelled from the spec: [ConversationStorage.update_cluster_id] of
    the absent [services/storage.py]; overwrites the stored cluster id. *)
Definition update_cluster_id (conversation_id cluster_id : string)
    : Eff Store Y unit :=
  write (CUpdateClusterId conversation_id cluster_id)
    (alter_conversation (set_cluster_id cluster_id) conversation_id).

(** Modelled from the spec: [mark_for_backup(project_id)] of the absent
    [services/backup_manager.py]; puts the project on the backup worker's
    queue and returns at once; it does not raise. *)
Definition mark_for_backup (project_id : string) : Eff Store Y unit :=
  tell [Called (CMarkForBackup project_id)].

End Ops.

End Storage.
Export Storage.

(* ===================================================================== *)
(** ** [server/services/agent.py] *)
(* ===================================================================== *)

Module Service.

(** Built-in Claude Code tools *)
Definition BUILTIN_TOOLS : list string :=
  ["Read"; "Write"; "Edit"; "Glob"; "Grep"; "Skill"].

(** What the collaborators of the service do during one invocation:
    the project directory (or the exception raised while restoring it),
    the MCP server configuration, the discovered tool names, the system
    prompt text, and the messages [query] delivers, followed by the
    exception it raises, if any. *)
Record AgentEnv : Type := {
  ensure_project_directory : exn + string;
  get_databricks_mcp_config : exn + pyval;
  get_databricks_mcp_tools : list string;
  get_system_prompt : exn + string;
  query_messages : list Sdk.Message;
  query_raises : option exn;
}.

(** The event dict yielded for one content block, if any. *)
Definition block_event (block : Sdk.ContentBlock) : list pydict :=
  match block with
  | Sdk.TextBlock text =>
      [[("type", VStr "text"); ("text", VStr text)]]
  | Sdk.ThinkingBlock thinking =>
      [[("type", VStr "thinking"); ("thinking", thinking)]]
  | Sdk.ToolUseBlock id name input =>
      [[("type", VStr "tool_use"); ("tool_id", id); ("tool_name", name);
        ("tool_input", input)]]
  | Sdk.ToolResultBlock tool_use_id content is_error =>
      [[("type", VStr "tool_result"); ("tool_use_id", tool_use_id);
        ("content", content); ("is_error", is_error)]]
  | Sdk.OtherBlock => []
  end.

(** The event dicts yielded for one message: the body of the
    [async for msg in query(...)] loop. *)
Definition message_events (msg : Sdk.Message) : list pydict :=
  match msg with
  | Sdk.AssistantMessage content => flat_map block_event content
  | Sdk.ResultMessage session_id duration_ms total_cost_usd is_error num_turns =>
      [[("type", VStr "result"); ("session_id", session_id);
        ("duration_ms", duration_ms); ("total_cost_usd", total_cost_usd);
        ("is_error", is_error); ("num_turns", num_turns)]]
  | Sdk.SystemMessage subtype data =>
      [[("type", VStr "system"); ("subtype", subtype);
        ("data", match data with Some d => VDict d | None => VNone end)]]
  | Sdk.UserMessage => []
  | Sdk.StreamEvent event session_id =>
      [[("type", VStr "stream_event"); ("event", event); ("session_id", session_id)]]
  | Sdk.OtherMessage => []
  end.

(** [get_project_directory] *)
Definition get_project_directory {S Y} (env : AgentEnv) (project_id : string)
    : Eff S Y string :=
  invoke (CEnsureProjectDirectory project_id) (ensure_project_directory env).

(** The async generator [stream_agent_response], as the computation that
    runs when it is iterated to its end. *)
Definition stream_agent_response (env : AgentEnv)
    (project_id message : string) (session_id : pyval) (cluster_id : option string)
    : Eff unit pydict unit :=
  project_dir ← get_project_directory env project_id;
  (if truthy session_id
   then logger INFO ("Resuming session " +:+ str session_id +:+ " in " +:+ project_dir
                       +:+ ": " +:+ slice_to 100 message +:+ "...")
   else logger INFO ("Starting new session in " +:+ project_dir
                       +:+ ": " +:+ slice_to 100 message +:+ "..."));;
  mcp_servers ← invoke CGetMcpConfig (get_databricks_mcp_config env);
  allowed_tools ←
    (if truthy mcp_servers then
       databricks_tools ← invoke CGetMcpTools (inr (get_databricks_mcp_tools env));
       match databricks_tools with
       | [] => mret BUILTIN_TOOLS
       | _ =>
           logger INFO ("Databricks MCP tools enabled: "
                          +:+ pretty (length databricks_tools) +:+ " tools");;
           mret (BUILTIN_TOOLS ++ databricks_tools)
       end
     else mret BUILTIN_TOOLS);
  system_prompt ← invoke (CGetSystemPrompt cluster_id) (get_system_prompt env);
  let options :=
    {| cwd := project_dir;
       allowed_tools := allowed_tools;
       permission_mode := "acceptEdits";
       resume := session_id;
       mcp_servers := mcp_servers;
       system_prompt := system_prompt |} in
  try_except
    (tell [Called (CQuery message options)];;
     yield_all (flat_map message_events (query_messages env));;
     match query_raises env with
     | Some e => raise e
     | None => mret tt
     end)
    (fun e =>
       logger ERROR ("Error during Claude query: " +:+ str_exn e);;
       yield [("type", VStr "error"); ("error", VStr (str_exn e))]).

End Service.
Export Service.

(* ===================================================================== *)
(** ** [server/routers/agent.py] *)
(* ===================================================================== *)

Module Router.

(** A frame of the response body: the output of [sse_event] on a dict,
    or the literal end marker. *)
Inductive Frame : Type :=
| Sse (data : pydict)
| Done.

(** [sse_event]: format data as SSE event. *)
Definition sse_event (data : pydict) : string :=
  "data: " +:+ json_dumps (VDict data) +:+ nl +:+ nl.

Record InvokeAgentRequest : Type := {
  project_id : string;
  conversation_id : option string;
  message : string;
  cluster_id : option string;
}.

(** The generator object a response wraps: which of the two inner
    generator functions it comes from, with the variables it closes over
    (the request body and the storage handle are those of the request). *)
Inductive Generator : Type :=
| ErrorGenerator (error message : string)
| StreamAndStore (conversation_id : string) (session_id : pyval).

Record StreamingResponse : Type := {
  body_iterator : Generator;
  media_type : string;
  headers : list (string * string);
}.

(** The world of one request: the service's collaborators, the
    authenticated user, the id the database default generates for a new
    conversation, and which storage writes raise. *)
Record Env : Type := {
  agent : AgentEnv;
  get_current_user : string;
  generate_uuid : string;
  storage_fault : Call -> option exn;
}.

Definition sse_headers : list (string * string) :=
  [("Cache-Control", "no-cache"); ("Connection", "keep-alive");
   ("X-Accel-Buffering", "no")].

(** [error_generator], the generator inside [create_error_stream] *)
Definition error_generator (error message : string) : Eff Store Frame unit :=
  yield (Sse [("type", VStr "error"); ("error", VStr error); ("message", VStr message)]);;
  yield Done.

(** [create_error_stream]: create an SSE-compatible error response. *)
Definition create_error_stream (error message : string) : StreamingResponse :=
  {| body_iterator := ErrorGenerator error message;
     media_type := "text/event-stream";
     headers := sse_headers |}.

(** The three locals of [stream_and_store] that the loop updates. *)
Record Acc : Type := {
  final_text : string;
  new_session_id : pyval;
  error_message : pyval;
}.

Definition acc0 : Acc :=
  {| final_text := ""; new_session_id := VNone; error_message := VNone |}.

(** The body of the [async for event in ...] loop on one event dict:
    the updated locals and the frame yielded, or the exception raised. *)
Definition on_event (acc : Acc) (event : pydict) : exn + (Acc * list Frame) :=
  let event_type := dict_get event "type" (VStr "") in
  if eq_str event_type "text" then
    let text := dict_get event "text" (VStr "") in
    match text with
    | VStr t =>
        inr ({| final_text := final_text acc +:+ t;
                new_session_id := new_session_id acc;
                error_message := error_message acc |},
             [Sse [("type", VStr "text"); ("text", text)]])
    | _ =>
        inl (Exception ("can only concatenate str (not " +:+ String dquote (type_name text)
                          +:+ String dquote ") to str"))
    end
  else if eq_str event_type "thinking" then
    inr (acc, [Sse [("type", VStr "thinking");
                    ("thinking", dict_get event "thinking" (VStr ""))]])
  else if eq_str event_type "tool_use" then
    inr (acc, [Sse [("type", VStr "tool_use");
                    ("tool_id", dict_get event "tool_id" (VStr ""));
                    ("tool_name", dict_get event "tool_name" (VStr ""));
                    ("tool_input", dict_get event "tool_input" (VDict []))]])
  else if eq_str event_type "tool_result" then
    inr (acc, [Sse [("type", VStr "tool_result");
                    ("tool_use_id", dict_get event "tool_use_id" (VStr ""));
                    ("content", dict_get event "content" (VStr ""));
                    ("is_error", dict_get event "is_error" (VBool false))]])
  else if eq_str event_type "result" then
    let sid := dict_get event "session_id" VNone in
    inr ({| final_text := final_text acc;
            new_session_id := sid;
            error_message := error_message acc |},
         [Sse [("type", VStr "result");
               ("session_id", sid);
               ("duration_ms", dict_get event "duration_ms" VNone);
               ("total_cost_usd", dict_get event "total_cost_usd" VNone);
               ("is_error", dict_get event "is_error" (VBool false));
               ("num_turns", dict_get event "num_turns" VNone)]])
  else if eq_str event_type "error" then
    let err := dict_get event "error" (VStr "Unknown error") in
    inr ({| final_text := final_text acc;
            new_session_id := new_session_id acc;
            error_message := err |},
         [Sse [("type", VStr "error"); ("error", err)]])
  else if eq_str event_type "system" then
    let data := dict_get event "data" VNone in
    let frame := Sse [("type", VStr "system");
                      ("subtype", dict_get event "subtype" (VStr ""));
                      ("data", data)] in
    if eq_str (dict_get event "subtype" VNone) "init" && truthy data
       && negb (truthy (new_session_id acc))
    then
      match data with
      | VDict d =>
          inr ({| final_text := final_text acc;
                  new_session_id := dict_get d "session_id" VNone;
                  error_message := error_message acc |},
               [frame])
      | _ =>
          inl (Exception (String squote (type_name data)
                            +:+ String squote " object has no attribute 'get'"))
      end
    else inr (acc, [frame])
  else inr (acc, []).

(** The [async for] loop over what the service generator does: its log
    records and calls happen as it is advanced, each event it yields runs
    the loop body, and an exception in the body ends the iteration. *)
Fixpoint consume (acc : Acc) (steps : list (Obs pydict))
    : Acc * list (Obs Frame) * option exn :=
  match steps with
  | [] => (acc, [], None)
  | Log level msg :: rest =>
      let '(acc', out, r) := consume acc rest in (acc', Log level msg :: out, r)
  | Called c :: rest =>
      let '(acc', out, r) := consume acc rest in (acc', Called c :: out, r)
  | Yield event :: rest =>
      match on_event acc event with
      | inl e => (acc, [], Some e)
      | inr (acc1, frames) =>
          let '(acc', out, r) := consume acc1 rest in
          (acc', map Yield frames ++ out, r)
      end
  end.

(** The [try: async for ... except Exception as e: ...] statement of
    [stream_and_store]: the locals after it, and what was logged, called
    and yielded while it ran.  The service generator runs as it is
    iterated; what it does after an exception in the loop body is never
    reached. *)
Definition stream_events (env : Env) (body : InvokeAgentRequest) (session_id : pyval)
    : Acc * list (Obs Frame) :=
  let '(r, _, steps) :=
    stream_agent_response (agent env) (project_id body) (message body)
      session_id (cluster_id body) tt in
  let '(acc, out, raised) := consume acc0 steps in
  match (match raised with
         | Some e => Some e
         | None => match r with inl e => Some e | inr _ => None end
         end) with
  | Some e =>
      ({| final_text := final_text acc;
          new_session_id := new_session_id acc;
          error_message := VStr (str_exn e) |},
       out ++ [Log ERROR ("Error during agent stream: " +:+ str_exn e);
               Yield (Sse [("type", VStr "error"); ("error", VStr (str_exn e))])])
  | None => (acc, out)
  end.

(** [bool(s)] of an optional string *)
Definition truthy_opt (o : option string) : bool :=
  match o with
  | Some s => negb (String.eqb s "")
  | None => false
  end.

(** The [try] block that saves the messages after the stream completes. *)
Definition save_messages (env : Env) (body : InvokeAgentRequest)
    (conversation_id : string) (acc : Acc) : Eff Store Frame unit :=
  add_message (storage_fault env) conversation_id "user" (message body) false;;
  when (truthy (VStr (final_text acc)) || truthy (error_message acc))
    (let content :=
       if truthy (VStr (final_text acc)) then final_text acc
       else "Error: " +:+ str (error_message acc) in
     add_message (storage_fault env) conversation_id "assistant" content
       (is_not_none (error_message acc)));;
  when (truthy (new_session_id acc))
    (update_session_id (storage_fault env) conversation_id (new_session_id acc));;
  match cluster_id body with
  | Some cl =>
      when (truthy (VStr cl)) (update_cluster_id (storage_fault env) conversation_id cl)
  | None => mret tt
  end;;
  logger INFO ("Saved messages to conversation " +:+ conversation_id +:+ ": text="
                 +:+ pretty (String.length (final_text acc)) +:+ " chars, error="
                 +:+ repr (VBool (is_not_none (error_message acc))));;
  mark_for_backup (project_id body).

(** [stream_and_store]: stream the response and save messages after
    completion. *)
Definition stream_and_store (env : Env) (body : InvokeAgentRequest)
    (conversation_id : string) (session_id : pyval) : Eff Store Frame unit :=
  yield (Sse [("type", VStr "conversation.created");
              ("conversation_id", VStr conversation_id)]);;
  let '(acc, out) := stream_events env body session_id in
  tell out;;
  try_except
    (save_messages env body conversation_id acc)
    (fun e => logger ERROR ("Failed to save messages: " +:+ str_exn e));;
  yield (Sse [("type", VStr "stream.completed");
              ("is_error", VBool (is_not_none (error_message acc)))]);;
  yield Done.

(** [invoke_agent]: the request handler, up to the response object. *)
Definition invoke_agent (env : Env) (body : InvokeAgentRequest)
    : Eff Store Frame StreamingResponse :=
  logger INFO ("Invoking agent for project: " +:+ project_id body +:+ ", conversation: "
                 +:+ match conversation_id body with Some c => c | None => "None" end);;
  user_email ← invoke CGetCurrentUser (inr (get_current_user env));
  project ← project_get user_email (project_id body);
  match project with
  | None =>
      logger ERROR ("Project not found: " +:+ project_id body);;
      mret (create_error_stream ("Project not found: " +:+ project_id body)
              "Please verify the project exists")
  | Some _ =>
      let stream (cid : string) (conversation : Conversation) :=
        mret {| body_iterator := StreamAndStore cid (c_session_id conversation);
                media_type := "text/event-stream";
                headers := sse_headers |} in
      if negb (truthy_opt (conversation_id body)) then
        let title := slice_to 50 (message body)
                     +:+ (if Nat.ltb 50 (String.length (message body)) then "..." else "") in
        conversation ← conversation_create (generate_uuid env) (project_id body) title;
        logger INFO ("Created new conversation: " +:+ c_id conversation);;
        stream (c_id conversation) conversation
      else
        let cid := default "" (conversation_id body) in
        conversation ← conversation_get (project_id body) cid;
        match conversation with
        | None =>
            logger ERROR ("Conversation not found: " +:+ cid);;
            mret (create_error_stream ("Conversation not found: " +:+ cid) "")
        | Some conversation => stream cid conversation
        end
  end.

(** Iterating a response body to its end. *)
Definition run_generator (env : Env) (body : InvokeAgentRequest) (g : Generator)
    : Eff Store Frame unit :=
  match g with
  | ErrorGenerator error message => error_generator error message
  | StreamAndStore conversation_id session_id =>
      stream_and_store env body conversation_id session_id
  end.

(** A request served to its end: the handler runs, then the server
    drains the response body. *)
Definition serve (env : Env) (body : InvokeAgentRequest) : Eff Store Frame unit :=
  response ← invoke_agent env body;
  run_generator env body (body_iterator response).

(** The frames among the observations, in order. *)
Definition frames_of (out : list (Obs Frame)) : list Frame :=
  omap (fun o => match o with Yield f => Some f | _ => None end) out.

(** The collaborator calls among the observations, in order. *)
Definition calls_of {Y} (out : list (Obs Y)) : list Call :=
  omap (fun o => match o with Called c => Some c | _ => None end) out.

End Router.
Export Router.

(* ===================================================================== *)
(** ** What a turn amounts to, read off the runtime's behaviour *)
(* ===================================================================== *)

Module Turn.

(** The exception that leaves [stream_agent_response] before it reaches
    [query], if one of the collaborators it calls first raises. *)
Definition preamble_raises (a : AgentEnv) : option exn :=
  match ensure_project_directory a with
  | inl e => Some e
  | inr _ =>
      match get_databricks_mcp_config a with
      | inl e => Some e
      | inr _ =>
          match get_system_prompt a with
          | inl e => Some e
          | inr _ => None
          end
      end
  end.

(** The error of the turn: the exception raised before the runtime is
    reached, else the one the runtime raises while it is iterated. *)
Definition turn_error (a : AgentEnv) : option exn :=
  match preamble_raises a with
  | Some e => Some e
  | None => query_raises a
  end.

(** Whether an error occurred during the turn. *)
Definition turn_failed (a : AgentEnv) : bool :=
  match turn_error a with
  | Some _ => true
  | None => false
  end.

(** The native messages that reach the normalizer. *)
Definition delivered (a : AgentEnv) : list Sdk.Message :=
  match preamble_raises a with
  | Some _ => []
  | None => query_messages a
  end.

Definition block_text (b : Sdk.ContentBlock) : string :=
  match b with
  | Sdk.TextBlock text => text
  | _ => ""
  end.

Definition message_text (msg : Sdk.Message) : string :=
  match msg with
  | Sdk.AssistantMessage content => foldr (fun b s => block_text b +:+ s) "" content
  | _ => ""
  end.

(** All text fragments of the messages, concatenated in order. *)
Definition transcript_of (msgs : list Sdk.Message) : string :=
  foldr (fun m s => message_text m +:+ s) "" msgs.

(** The session-token candidate after one more message. *)
Definition token_step (n : pyval) (msg : Sdk.Message) : pyval :=
  match msg with
  | Sdk.ResultMessage session_id _ _ _ _ => session_id
  | Sdk.SystemMessage subtype (Some d) =>
      if eq_str subtype "init" && truthy (VDict d) && negb (truthy n)
      then dict_get d "session_id" VNone
      else n
  | _ => n
  end.

Definition candidate_of (msgs : list Sdk.Message) : pyval :=
  fold_left token_step msgs VNone.

Definition is_result (msg : Sdk.Message) : bool :=
  match msg with
  | Sdk.ResultMessage _ _ _ _ _ => true
  | _ => false
  end.

(** The token a system/init message offers, [None] for any other
    message. *)
Definition init_token (msg : Sdk.Message) : pyval :=
  match msg with
  | Sdk.SystemMessage subtype (Some d) =>
      if eq_str subtype "init" then dict_get d "session_id" VNone else VNone
  | _ => VNone
  end.

Definition recognized_block (b : Sdk.ContentBlock) : bool :=
  match b with
  | Sdk.OtherBlock => false
  | _ => true
  end.

(** The message stream with every unrecognized message and content part
    taken out. *)
Fixpoint strip_unrecognized (msgs : list Sdk.Message) : list Sdk.Message :=
  match msgs with
  | [] => []
  | Sdk.OtherMessage :: rest => strip_unrecognized rest
  | Sdk.AssistantMessage content :: rest =>
      Sdk.AssistantMessage (filter (fun b => recognized_block b = true) content)
        :: strip_unrecognized rest
  | msg :: rest => msg :: strip_unrecognized rest
  end.

Definition with_messages (env : Env) (msgs : list Sdk.Message) : Env :=
  {| agent :=
       {| ensure_project_directory := ensure_project_directory (agent env);
          get_databricks_mcp_config := get_databricks_mcp_config (agent env);
          get_databricks_mcp_tools := get_databricks_mcp_tools (agent env);
          get_system_prompt := get_system_prompt (agent env);
          query_messages := msgs;
          query_raises := query_raises (agent env) |};
     get_current_user := get_current_user env;
     generate_uuid := generate_uuid env;
     storage_fault := storage_fault env |}.

(** Calls that reach the agent service or the runtime behind it. *)
Definition is_runtime_call (c : Call) : bool :=
  match c with
  | CEnsureProjectDirectory _ | CGetMcpConfig | CGetMcpTools
  | CGetSystemPrompt _ | CQuery _ _ => true
  | _ => false
  end.


(** The title the spec gives a new conversation: the message itself when
    it has at most 50 characters, else its first 50 characters followed
    by three dots. *)
Definition spec_title (msg : string) : string :=
  if Nat.leb (String.length msg) 50 then msg else slice_to 50 msg +:+ "...".

Definition is_conversation_create (c : Call) : bool :=
  match c with
  | CConversationCreate _ => true
  | _ => false
  end.

(** The writes of the persistence step. *)
Definition is_save_write (c : Call) : bool :=
  match c with
  | CAddMessage _ _ _ _ | CUpdateSessionId _ _ | CUpdateClusterId _ _ => true
  | _ => false
  end.

Definition is_add_message (role : string) (c : Call) : bool :=
  match c with
  | CAddMessage _ r _ _ => String.eqb r role
  | _ => false
  end.

Definition is_update_session_id (c : Call) : bool :=
  match c with
  | CUpdateSessionId _ _ => true
  | _ => false
  end.

Definition is_mark_for_backup (c : Call) : bool :=
  match c with
  | CMarkForBackup _ => true
  | _ => false
  end.

Definition is_warning {Y} (o : Obs Y) : bool :=
  match o with
  | Log WARNING _ => true
  | _ => false
  end.

(** A frame whose [type] field is [t]. *)
Definition is_frame (t : string) (f : Frame) : bool :=
  match f with
  | Sse data => eq_str (dict_get data "type" VNone) t
  | Done => false
  end.

Definition has_role (role : string) (m : Models.Message) : bool :=
  String.eqb (m_role m) role.

(** The stored session token of a conversation, if the row exists. *)
Definition stored_token (st : Store) (conversation_id : string) : option pyval :=
  c_session_id <$> conversations st !! conversation_id.

(** The request reaches the streaming phase: the handler, run on store
    [st], returns the response whose body is [stream_and_store] closed
    over [cid] and [sid], leaving store [st1] and the observations
    [out1]. *)
Definition streaming_phase (env : Env) (body : InvokeAgentRequest) (st : Store)
    (cid : string) (sid : pyval) (st1 : Store) (out1 : list (Obs Frame)) : Prop :=
  exists response,
    invoke_agent env body st = (inr response, st1, out1)
    /\ body_iterator response = StreamAndStore cid sid.

(** The outcome of the request served to its end. *)
Definition final_store (env : Env) (body : InvokeAgentRequest) (st : Store) : Store :=
  snd (fst (serve env body st)).

Definition trace (env : Env) (body : InvokeAgentRequest) (st : Store) : list (Obs Frame) :=
  snd (serve env body st).

Definition frames (env : Env) (body : InvokeAgentRequest) (st : Store) : list Frame :=
  frames_of (trace env body st).

Definition calls (env : Env) (body : InvokeAgentRequest) (st : Store) : list Call :=
  calls_of (trace env body st).

End Turn.
Export Turn.

(* ===================================================================== *)
(** ** Notions used to state and prove the properties *)
(* ===================================================================== *)

Module Analysis.

(** A step that is not a yield. *)
Definition quiet {Y} (o : Obs Y) : bool :=
  match o with
  | Yield _ => false
  | _ => true
  end.

(** A quiet step of the service, seen from the router. *)
Definition pass (o : Obs pydict) : list (Obs Frame) :=
  match o with
  | Log level msg => [Log level msg]
  | Called c => [Called c]
  | Yield _ => []
  end.

(** What the service generator can do: log below warning level, call
    its collaborators, yield. *)
Definition service_obs (o : Obs pydict) : bool :=
  match o with
  | Log level _ => match level with WARNING => false | _ => true end
  | Called c => is_runtime_call c
  | Yield _ => true
  end.

Definition query_tail (a : AgentEnv) : list (Obs pydict) :=
  match query_raises a with
  | Some e =>
      [Log ERROR ("Error during Claude query: " +:+ str_exn e);
       Yield [("type", VStr "error"); ("error", VStr (str_exn e))]]
  | None => []
  end.

(** The locals after the loop body has seen the events of one message. *)
Definition step (acc : Acc) (msg : Sdk.Message) : Acc :=
  {| final_text := final_text acc +:+ message_text msg;
     new_session_id := token_step (new_session_id acc) msg;
     error_message := error_message acc |}.

(** The locals of [stream_and_store] when the loop is over, as the
    runtime's behaviour determines them. *)
Definition turn_acc (a : AgentEnv) : Acc :=
  {| final_text := transcript_of (delivered a);
     new_session_id := candidate_of (delivered a);
     error_message :=
       match turn_error a with
       | Some e => VStr (str_exn e)
       | None => VNone
       end |}.

(** Frames the loop can yield: an [sse_event] whose type is neither of
    the two the generator emits outside the loop. *)
Definition body_frame (f : Frame) : bool :=
  match f with
  | Sse data =>
      negb (eq_str (dict_get data "type" VNone) "stream.completed")
      && negb (eq_str (dict_get data "type" VNone) "conversation.created")
  | Done => false
  end.

(** What can be observed while the loop runs. *)
Definition stream_obs (o : Obs Frame) : bool :=
  match o with
  | Log level _ => match level with WARNING => false | _ => true end
  | Called c => is_runtime_call c
  | Yield f => body_frame f
  end.

(** What can be observed before the handler returns. *)
Definition resolve_obs (o : Obs Frame) : bool :=
  match o with
  | Log level _ => match level with WARNING => false | _ => true end
  | Called c =>
      match c with
      | CGetCurrentUser | CProjectGet _ | CConversationCreate _ | CConversationGet _ => true
      | _ => false
      end
  | Yield _ => false
  end.

(** What can be observed while the messages are saved. *)
Definition save_obs (cid pid : string) (o : Obs Frame) : bool :=
  match o with
  | Log level _ => match level with WARNING => false | _ => true end
  | Called c =>
      match c with
      | CAddMessage c' _ _ _ | CUpdateSessionId c' _ | CUpdateClusterId c' _ => String.eqb c' cid
      | CMarkForBackup p => String.eqb p pid
      | _ => false
      end
  | Yield _ => false
  end.

Definition created_frame (cid : string) : Frame :=
  Sse [("type", VStr "conversation.created"); ("conversation_id", VStr cid)].

Definition completed_frame (is_error : bool) : Frame :=
  Sse [("type", VStr "stream.completed"); ("is_error", VBool is_error)].

Definition new_conversation (env : Env) (body : InvokeAgentRequest) : Conversation :=
  {| c_id := generate_uuid env;
     c_project_id := project_id body;
     c_title := slice_to 50 (message body)
                +:+ (if Nat.ltb 50 (String.length (message body)) then "..." else "");
     c_session_id := VNone;
     c_cluster_id := None |}.

Definition user_call (body : InvokeAgentRequest) (cid : string) : Call :=
  CAddMessage cid "user" (message body) false.

Definition user_row (body : InvokeAgentRequest) (cid : string) : Models.Message :=
  {| m_conversation_id := cid; m_role := "user";
     m_content := message body; m_is_error := false |}.

(** The assistant message [save_messages] writes for given locals. *)
Definition assistant_content (acc : Acc) : string :=
  if truthy (VStr (final_text acc)) then final_text acc
  else "Error: " +:+ str (error_message acc).

Definition assistant_call (cid : string) (acc : Acc) : Call :=
  CAddMessage cid "assistant" (assistant_content acc) (is_not_none (error_message acc)).

Definition assistant_row (cid : string) (acc : Acc) : Models.Message :=
  {| m_conversation_id := cid; m_role := "assistant";
     m_content := assistant_content acc;
     m_is_error := is_not_none (error_message acc) |}.

(** Whether [save_messages] attempts the assistant message. *)
Definition saves_assistant (acc : Acc) : bool :=
  truthy (VStr (final_text acc)) || truthy (error_message acc).

(** The storage writes [save_messages] attempts, in order, when none of
    them raises. *)
Definition script (body : InvokeAgentRequest) (cid : string) (acc : Acc)
    : list (Call * (Store -> Store)) :=
  [(user_call body cid, append_message (user_row body cid))]
  ++ (if saves_assistant acc
      then [(assistant_call cid acc, append_message (assistant_row cid acc))] else [])
  ++ (if truthy (new_session_id acc)
      then [(CUpdateSessionId cid (new_session_id acc),
             alter_conversation (set_session_id (new_session_id acc)) cid)] else [])
  ++ (if truthy_opt (cluster_id body)
      then [(CUpdateClusterId cid (default "" (cluster_id body)),
             alter_conversation (set_cluster_id (default "" (cluster_id body))) cid)]
      else []).

(** Running a list of writes until one raises; [tail] is what follows
    the last write when all went through. *)
Fixpoint run_script (fault : Call -> option exn) (tail : list (Obs Frame))
    (ws : list (Call * (Store -> Store))) (st : Store)
    : (exn + unit) * Store * list (Obs Frame) :=
  match ws with
  | [] => (inr tt, st, tail)
  | (c, upd) :: rest =>
      match fault c with
      | Some e => (inl e, st, [Called c])
      | None =>
          let '(r, st', out) := run_script fault tail rest (upd st) in
          (r, st', Called c :: out)
      end
  end.

Definition save_tail (body : InvokeAgentRequest) (cid : string) (acc : Acc)
    : list (Obs Frame) :=
  [Log INFO ("Saved messages to conversation " +:+ cid +:+ ": text="
               +:+ pretty (String.length (final_text acc)) +:+ " chars, error="
               +:+ repr (VBool (is_not_none (error_message acc))));
   Called (CMarkForBackup (project_id body))].

Definition called (w : Call * (Store -> Store)) : Obs Frame := Called (fst w).

Definition apply_writes (ws : list (Call * (Store -> Store))) (st : Store) : Store :=
  fold_left (fun s w => snd w s) ws st.

(** A token that the script writes is a real one. *)
Definition writes_real_token (o : Obs Frame) : bool :=
  match o with
  | Called (CUpdateSessionId _ t) => truthy t
  | _ => true
  end.

(** What can be observed in a request that ends before the streaming
    phase. *)
Definition idle_obs (o : Obs Frame) : bool :=
  match o with
  | Log level _ => match level with WARNING => false | _ => true end
  | Called c =>
      match c with
      | CGetCurrentUser | CProjectGet _ | CConversationCreate _ | CConversationGet _ => true
      | _ => false
      end
  | Yield _ => true
  end.

End Analysis.
Export Analysis.

(* ===================================================================== *)
(** ** A small world to run requests in *)
(* ===================================================================== *)

Module Sample.

Definition sample_project : Project :=
  {| p_id := "proj-1"; p_name := "demo"; p_user_email := "dev@example.com" |}.

(** A conversation with a token stored by an earlier turn. *)
Definition sample_conversation : Conversation :=
  {| c_id := "conv-1"; c_project_id := "proj-1"; c_title := "first chat";
     c_session_id := VStr "sess-old"; c_cluster_id := None |}.

Definition sample_store : Store :=
  {| projects := {[ "proj-1" := sample_project ]};
     conversations := {[ "conv-1" := sample_conversation ]};
     messages := [] |}.

Definition sample_agent (msgs : list Sdk.Message) (raises : option exn) : AgentEnv :=
  {| ensure_project_directory := inr "/projects/proj-1";
     get_databricks_mcp_config := inr VNone;
     get_databricks_mcp_tools := [];
     get_system_prompt := inr "# Databricks AI Dev Kit";
     query_messages := msgs;
     query_raises := raises |}.

Definition no_fault : Call -> option exn := fun _ => None.

(** The database refuses the user message. *)
Definition user_write_fails : Call -> option exn :=
  fun c => if is_add_message "user" c then Some (Exception "database is locked") else None.

Definition sample_env (msgs : list Sdk.Message) (raises : option exn)
    (fault : Call -> option exn) : Env :=
  {| agent := sample_agent msgs raises;
     get_current_user := "dev@example.com";
     generate_uuid := "conv-2";
     storage_fault := fault |}.

(** A turn on the stored conversation. *)
Definition resume_request : InvokeAgentRequest :=
  {| project_id := "proj-1"; conversation_id := Some "conv-1";
     message := "list my tables"; cluster_id := None |}.

(** A first turn: no conversation id. *)
Definition fresh_request : InvokeAgentRequest :=
  {| project_id := "proj-1"; conversation_id := None;
     message := "list my tables"; cluster_id := Some "0612-abc" |}.

(** A request on a project that does not exist. *)
Definition stray_request : InvokeAgentRequest :=
  {| project_id := "proj-404"; conversation_id := None;
     message := "list my tables"; cluster_id := None |}.

Definition init_message : Sdk.Message :=
  Sdk.SystemMessage (VStr "init") (Some [("session_id", VStr "sess-init")]).

Definition hello_message : Sdk.Message :=
  Sdk.AssistantMessage [Sdk.TextBlock "hello"].

Definition result_message (session_id : pyval) : Sdk.Message :=
  Sdk.ResultMessage session_id (VInt 1200) VNone (VBool false) (VInt 1).

(** What the handler has logged and called when it returns the
    streaming response for [resume_request]. *)
Definition resume_prefix : list (Obs Frame) :=
  [Log INFO "Invoking agent for project: proj-1, conversation: conv-1";
   Called CGetCurrentUser; Called (CProjectGet "proj-1");
   Called (CConversationGet "conv-1")].

(** The store and the observations when the handler returns the
    streaming response for [fresh_request]. *)
Definition fresh_store (env : Env) : Store :=
  snd (fst (invoke_agent env fresh_request sample_store)).

Definition fresh_prefix (env : Env) : list (Obs Frame) :=
  snd (invoke_agent env fresh_request sample_store).


End Sample.
Export Sample.

(* ===================================================================== *)
(** ** Further notions: the runtime call, event and frame kinds *)
(* ===================================================================== *)

Module Kinds.

Definition is_query (c : Call) : bool :=
  match c with
  | CQuery _ _ => true
  | _ => false
  end.

(** The values a generator yields, in order. *)
Definition yields_of {Y} (out : list (Obs Y)) : list Y :=
  omap (fun o => match o with Yield y => Some y | _ => None end) out.

(** The error event [stream_agent_response] yields for an exception. *)
Definition error_event (e : exn) : pydict :=
  [("type", VStr "error"); ("error", VStr (str_exn e))].

(** The event types the service yields. *)
Definition service_types : list string :=
  ["text"; "thinking"; "tool_use"; "tool_result"; "result"; "system";
   "stream_event"; "error"].

(** The event types the loop of [stream_and_store] has a branch for. *)
Definition handled_types : list string :=
  ["text"; "thinking"; "tool_use"; "tool_result"; "result"; "error"; "system"].

(** The frame types of a response body. *)
Definition wire_types : list string :=
  ["conversation.created"; "text"; "thinking"; "tool_use"; "tool_result";
   "result"; "error"; "system"; "stream.completed"].

Definition has_type (types : list string) (d : pydict) (default : pyval) : bool :=
  existsb (eq_str (dict_get d "type" default)) types.

(** A frame of the documented kinds: the end marker, or an event whose
    type is one of [wire_types]. *)
Definition wire_frame (f : Frame) : bool :=
  match f with
  | Sse data => has_type wire_types data VNone
  | Done => true
  end.

(** The text a frame carries to the client: the [text] field of a text
    frame, nothing for any other frame. *)
Definition frame_text (f : Frame) : string :=
  match f with
  | Sse data =>
      if eq_str (dict_get data "type" VNone) "text"
      then match dict_get data "text" VNone with VStr t => t | _ => "" end
      else ""
  | Done => ""
  end.

Definition streamed_text (fs : list Frame) : string :=
  foldr (fun f s => frame_text f +:+ s) "" fs.

Definition is_str (v : pyval) : bool :=
  match v with
  | VStr _ => true
  | _ => false
  end.

Definition is_dict (v : pyval) : bool :=
  match v with
  | VDict _ => true
  | _ => false
  end.

(** The events on which the loop body raises: a text event whose text is
    not a [str], and an init event with truthy data that is not a dict,
    met while no token candidate is held. *)
Definition ill_typed (acc : Acc) (event : pydict) : bool :=
  let ty := dict_get event "type" (VStr "") in
  (eq_str ty "text" && negb (is_str (dict_get event "text" (VStr ""))))
  || (eq_str ty "system"
      && eq_str (dict_get event "subtype" VNone) "init"
      && truthy (dict_get event "data" VNone)
      && negb (truthy (new_session_id acc))
      && negb (is_dict (dict_get event "data" VNone))).

(** The stored cluster id of a conversation, if the row exists. *)
Definition stored_cluster (st : Store) (conversation_id : string) : option (option string) :=
  c_cluster_id <$> conversations st !! conversation_id.

Definition is_update_cluster_id (c : Call) : bool :=
  match c with
  | CUpdateClusterId _ _ => true
  | _ => false
  end.

(** The rows a store has that another has too, up to what a turn may
    change: projects are the same, messages are only appended, and a
    conversation keeps its identity, project and title. *)
Definition extends (s s' : Store) : Prop :=
  projects s' = projects s
  /\ messages s `prefix_of` messages s'
  /\ forall id c, conversations s !! id = Some c ->
       exists c', conversations s' !! id = Some c'
                  /\ c_id c' = c_id c /\ c_project_id c' = c_project_id c
                  /\ c_title c' = c_title c.

End Kinds.
Export Kinds.

(* ===================================================================== *)
(** ** The text of a frame *)
(* ===================================================================== *)

Module Text.

Fixpoint string_forall (p : ascii -> bool) (s : string) : bool :=
  match s with
  | EmptyString => true
  | String c s' => p c && string_forall p s'
  end.

(** A printable ASCII character: no control character, no line break,
    nothing above 126. *)
Definition ascii_printable (c : ascii) : bool :=
  ((32 <=? N_of_ascii c) && (N_of_ascii c <? 127))%N.

End Text.
Export Text.

(* ===================================================================== *)
(** ** The rows and their dictionaries ([db/models.py]) *)
(* ===================================================================== *)

(** The three mapped classes with all their columns.  A [datetime] is
    held as the text its [isoformat()] gives; a relationship as the list
    of the related rows. *)
Module Db.

Definition opt_str (o : option string) : pyval :=
  match o with
  | Some s => VStr s
  | None => VNone
  end.

Module Message.

Record t : Type := {
  id : string;
  conversation_id : string;
  role : string;
  content : string;
  timestamp : option string;
  is_error : bool;
}.

(** [Message.to_dict] *)
Definition to_dict (self : t) : pydict :=
  [("id", VStr (id self));
   ("conversation_id", VStr (conversation_id self));
   ("role", VStr (role self));
   ("content", VStr (content self));
   ("timestamp", opt_str (timestamp self));
   ("is_error", VBool (is_error self))].

End Message.

Module Conversation.

Record t : Type := {
  id : string;
  project_id : string;
  title : string;
  created_at : option string;
  session_id : option string;
  cluster_id : option string;
  messages : list Message.t;
}.

(** [Conversation.to_dict]: convert to dictionary with messages. *)
Definition to_dict (self : t) : pydict :=
  [("id", VStr (id self));
   ("project_id", VStr (project_id self));
   ("title", VStr (title self));
   ("created_at", opt_str (created_at self));
   ("session_id", opt_str (session_id self));
   ("cluster_id", opt_str (cluster_id self));
   ("messages",
    match messages self with
    | [] => VList []
    | ms => VList (map (fun m => VDict (Message.to_dict m)) ms)
    end)].

(** [Conversation.to_dict_summary]: convert to dictionary without
    messages (for list views). *)
Definition to_dict_summary (self : t) : pydict :=
  [("id", VStr (id self));
   ("project_id", VStr (project_id self));
   ("title", VStr (title self));
   ("created_at", opt_str (created_at self));
   ("cluster_id", opt_str (cluster_id self));
   ("message_count",
    match messages self with
    | [] => VInt 0
    | ms => VInt (Z.of_nat (length ms))
    end)].

End Conversation.

Module Project.

Record t : Type := {
  id : string;
  name : string;
  user_email : string;
  created_at : option string;
  conversations : list Conversation.t;
}.

(** [Project.to_dict] *)
Definition to_dict (self : t) : pydict :=
  [("id", VStr (id self));
   ("name", VStr (name self));
   ("user_email", VStr (user_email self));
   ("created_at", opt_str (created_at self));
   ("conversation_count",
    match conversations self with
    | [] => VInt 0
    | cs => VInt (Z.of_nat (length cs))
    end)].

End Project.

(** [len(v)] of a list value. *)
Definition len (v : pyval) : option Z :=
  match v with
  | VList l => Some (Z.of_nat (length l))
  | _ => None
  end.

Definition sample_message : Message.t :=
  {| Message.id := "m-1"; Message.conversation_id := "conv-1"; Message.role := "user";
     Message.content := "hello"; Message.timestamp := Some "2025-01-01T00:00:00+00:00";
     Message.is_error := false |}.

Definition sample_row : Conversation.t :=
  {| Conversation.id := "conv-1"; Conversation.project_id := "proj-1";
     Conversation.title := "hello"; Conversation.created_at := None;
     Conversation.session_id := Some "sess-old"; Conversation.cluster_id := None;
     Conversation.messages := [sample_message] |}.

(** The same conversation with its last message edited. *)
Definition edited_row : Conversation.t :=
  {| Conversation.id := "conv-1"; Conversation.project_id := "proj-1";
     Conversation.title := "hello"; Conversation.created_at := None;
     Conversation.session_id := Some "sess-old"; Conversation.cluster_id := None;
     Conversation.messages :=
       [{| Message.id := "m-1"; Message.conversation_id := "conv-1"; Message.role := "user";
           Message.content := "hello!";
           Message.timestamp := Some "2025-01-01T00:00:00+00:00";
           Message.is_error := false |}] |}.

End Db.

(* ===================================================================== *)
(** ** The other entry points *)
(* ===================================================================== *)

Module Files.

(** [HTTPException(status_code, detail)] *)
Inductive HTTPException : Type :=
| HttpError (status_code : Z) (detail : string).

(** A path found by [project_dir.rglob('*')]: its text relative to the
    project directory, its last component, whether it is a regular
    file, its size and the ISO text of its modification time. *)
Record DirEntry : Type := {
  rel_path : string;
  name : string;
  is_file : bool;
  st_size : Z;
  modified : string;
}.

Definition file_dict (path : DirEntry) : pyval :=
  VDict [("path", VStr (rel_path path));
         ("name", VStr (name path));
         ("size", VInt (st_size path));
         ("modified", VStr (modified path))].

(** [list_project_files]: list files in a project directory.  [rglob]
    gives what the traversal of a directory finds. *)
Definition list_project_files (env : Env) (rglob : string -> list DirEntry)
    (project_id : string) : Eff Store Frame (HTTPException + pydict) :=
  user_email ← invoke CGetCurrentUser (inr (get_current_user env));
  project ← project_get user_email project_id;
  match project with
  | None =>
      mret (inl (HttpError 404 ("Project " +:+ project_id +:+ " not found")))
  | Some _ =>
      project_dir ← get_project_directory (agent env) project_id;
      let files := map file_dict (List.filter is_file (rglob project_dir)) in
      mret (inr [("project_id", VStr project_id); ("files", VList files)])
  end.

(** [simple_query]: simple stateless query within a project directory;
    it yields every event of [stream_agent_response] called with the
    defaults for session and cluster. *)
Definition simple_query (env : AgentEnv) (project_id message : string)
    : Eff unit pydict unit :=
  stream_agent_response env project_id message VNone None.

Definition is_ensure_project_directory (c : Call) : bool :=
  match c with
  | CEnsureProjectDirectory _ => true
  | _ => false
  end.

Definition sample_listing (dir : string) : list DirEntry :=
  [{| rel_path := "src"; name := "src"; is_file := false; st_size := 4096;
      modified := "2025-01-01T00:00:00" |};
   {| rel_path := "src/main.py"; name := "main.py"; is_file := true; st_size := 12;
      modified := "2025-01-01T00:00:01" |}].

End Files.
Export Files.

Module Sample2.

(** An agent whose MCP server is configured and offers one tool. *)
Definition mcp_agent : AgentEnv :=
  {| ensure_project_directory := inr "/projects/proj-1";
     get_databricks_mcp_config := inr (VDict [("databricks", VDict [("command", VStr "python")])]);
     get_databricks_mcp_tools := ["mcp__databricks__execute_sql"];
     get_system_prompt := inr "# Databricks AI Dev Kit";
     query_messages := [hello_message];
     query_raises := None |}.

(** A request whose conversation id is the empty string. *)
Definition blank_request : InvokeAgentRequest :=
  {| project_id := "proj-1"; conversation_id := Some "";
     message := "list my tables"; cluster_id := None |}.

Definition text_event : pydict := [("type", VStr "text"); ("text", VStr "hello")].

End Sample2.
Export Sample2.

(* ===================================================================== *)
(** ** Errors of the turn and of the storage *)
(* ===================================================================== *)

Module Faults.

(** The same world with another storage behaviour. *)
Definition with_fault (env : Env) (fault : Call -> option exn) : Env :=
  {| agent := agent env;
     get_current_user := get_current_user env;
     generate_uuid := generate_uuid env;
     storage_fault := fault |}.

(** The error frame that carries the text of an exception. *)
Definition error_frame (e : exn) : Frame :=
  Sse [("type", VStr "error"); ("error", VStr (str_exn e))].

Definition not_error_frame (f : Frame) : bool := negb (is_frame "error" f).

Definition not_error_event (event : pydict) : bool :=
  negb (eq_str (dict_get event "type" (VStr "")) "error").

End Faults.
Export Faults.

(* ===================================================================== *)
(** ** The effect monad *)
(* ===================================================================== *)

Section EffLemmas.

Context {S Y : Type}.

Lemma bind_run {A B} (m : Eff S Y A) (f : A -> Eff S Y B) (s : S) :
  (m ≫= f) s =
  match m s with
  | (inl e, s1, o1) => (inl e, s1, o1)
  | (inr a, s1, o1) => let '(r, s2, o2) := f a s1 in (r, s2, o1 ++ o2)
  end.
Proof. reflexivity. Qed.

Lemma yield_all_run (ys : list Y) (s : S) :
  yield_all ys s = (inr tt, s, map Yield ys).
Proof.
  induction ys as [|y ys IH]; [reflexivity|].
  simpl. rewrite bind_run. simpl. rewrite IH. reflexivity.
Qed.

End EffLemmas.

(* ===================================================================== *)
(** ** The service generator *)
(* ===================================================================== *)

Ltac eff_unfold :=
  cbv [mbind mret Eff_bind Eff_ret eff_bind eff_ret invoke logger yield tell raise
       try_except when].

Ltac split_at_query :=
  lazymatch goal with
  | |- exists pre options, (_, _, ?l) = _ /\ _ =>
      let rec go l acc :=
        lazymatch l with
        | Called (CQuery _ ?o) :: _ => exists acc, o
        | ?x :: ?l' => go l' constr:(acc ++ [x])
        end in
      go l constr:(@nil (Obs pydict))
  end.

Lemma stream_agent_response_raises a pid msg sid cl e :
  preamble_raises a = Some e ->
  exists pre,
    stream_agent_response a pid msg sid cl tt = (inl e, tt, pre)
    /\ forallb quiet pre = true
    /\ forallb service_obs pre = true.
Proof.
  unfold preamble_raises, stream_agent_response, get_project_directory.
  intros H. eff_unfold.
  destruct (ensure_project_directory a) as [e1|dir]; simplify_eq.
  { eexists; split; [reflexivity|]. split; reflexivity. }
  destruct (get_databricks_mcp_config a) as [e2|cfg]; simplify_eq.
  { destruct (truthy sid); simpl; eexists; (split; [reflexivity|]); split; reflexivity. }
  destruct (get_system_prompt a) as [e3|sp]; simplify_eq.
  destruct (truthy sid), (truthy cfg); simpl;
    try destruct (get_databricks_mcp_tools a); simpl;
    eexists; (split; [reflexivity|]); split; reflexivity.
Qed.

Lemma stream_agent_response_ok a pid msg sid cl :
  preamble_raises a = None ->
  exists pre options,
    stream_agent_response a pid msg sid cl tt =
      (inr tt, tt,
       pre ++ Called (CQuery msg options)
           :: map Yield (flat_map message_events (query_messages a)) ++ query_tail a)
    /\ forallb quiet pre = true
    /\ forallb service_obs pre = true
    /\ resume options = sid.
Proof.
  unfold preamble_raises, stream_agent_response, get_project_directory, query_tail.
  intros H. eff_unfold.
  destruct (ensure_project_directory a) as [e1|dir]; simplify_eq.
  destruct (get_databricks_mcp_config a) as [e2|cfg] eqn:Hcfg; simplify_eq.
  destruct (get_system_prompt a) as [e3|sp] eqn:Hsp; simplify_eq.
  destruct (truthy sid), (truthy cfg); simpl;
    try destruct (get_databricks_mcp_tools a); simpl;
    rewrite yield_all_run; simpl;
    destruct (query_raises a); simpl;
    rewrite ?app_nil_r;
    split_at_query; repeat split; reflexivity.
Qed.

(* ===================================================================== *)
(** ** The loop of [stream_and_store] *)
(* ===================================================================== *)

Lemma append_empty_r (s : string) : s +:+ "" = s.
Proof.
  induction s as [|c s IH]; [reflexivity|].
  change (String c (s +:+ "") = String c s). by rewrite IH.
Qed.

Lemma append_assoc (s t u : string) : (s +:+ t) +:+ u = s +:+ (t +:+ u).
Proof.
  induction s as [|c s IH]; [reflexivity|].
  change (String c ((s +:+ t) +:+ u) = String c (s +:+ t +:+ u)). by rewrite IH.
Qed.

Lemma consume_app_quiet pre acc rest :
  forallb quiet pre = true ->
  consume acc (pre ++ rest) =
  let '(acc', out, r) := consume acc rest in (acc', flat_map pass pre ++ out, r).
Proof.
  induction pre as [|o pre IH]; simpl.
  - intros _. by destruct (consume acc rest) as [[??]?].
  - destruct o; simpl; try discriminate; intros H; rewrite (IH H);
      by destruct (consume acc rest) as [[??]?].
Qed.

Ltac out_prefix :=
  simpl;
  lazymatch goal with
  | |- exists out1, (_, ?x :: ?l, _) = (_, out1 ++ ?l, _) => exists [x]; reflexivity
  | |- exists out1, (_, ?l, _) = (_, out1 ++ ?l, _) => exists []; reflexivity
  end.

Lemma consume_block b acc rest :
  exists out1,
    consume acc (map Yield (block_event b) ++ rest) =
    let '(acc', out, r) :=
      consume {| final_text := final_text acc +:+ block_text b;
                 new_session_id := new_session_id acc;
                 error_message := error_message acc |} rest in
    (acc', out1 ++ out, r).
Proof.
  destruct b; simpl; try rewrite append_empty_r; destruct acc; simpl;
    match goal with
    | |- context [consume ?a rest] => destruct (consume a rest) as [[??]?]
    end; out_prefix.
Qed.

Lemma consume_blocks content acc rest :
  exists out1,
    consume acc (map Yield (flat_map block_event content) ++ rest) =
    let '(acc', out, r) :=
      consume {| final_text := final_text acc +:+ message_text (Sdk.AssistantMessage content);
                 new_session_id := new_session_id acc;
                 error_message := error_message acc |} rest in
    (acc', out1 ++ out, r).
Proof.
  revert acc. induction content as [|b content IH]; intros acc; simpl.
  - rewrite append_empty_r. destruct acc; simpl.
    exists []. by destruct (consume _ rest) as [[??]?].
  - rewrite map_app, <- app_assoc.
    destruct (consume_block b acc (map Yield (flat_map block_event content) ++ rest)) as [o1 ->].
    match goal with |- context [consume ?a (_ ++ rest)] => destruct (IH a) as [o2 ->] end.
    simpl. rewrite append_assoc.
    destruct (consume _ rest) as [[??]?]. exists (o1 ++ o2). by rewrite app_assoc.
Qed.

Lemma consume_message msg acc rest :
  exists out1,
    consume acc (map Yield (message_events msg) ++ rest) =
    let '(acc', out, r) := consume (step acc msg) rest in (acc', out1 ++ out, r).
Proof.
  destruct msg as [content|sid dur cost err turns|subtype data| |ev sid|];
    [apply consume_blocks|..];
    unfold step; simpl; rewrite append_empty_r.
  - destruct (consume _ rest) as [[??]?]. out_prefix.
  - unfold on_event; simpl.
    destruct data as [d|]; simpl.
    + destruct (eq_str subtype "init"), d as [|kv d]; simpl;
        try destruct (truthy (new_session_id acc)); simpl; destruct acc; simpl;
        destruct (consume _ rest) as [[??]?]; out_prefix.
    + rewrite andb_false_r. simpl. destruct acc; simpl.
      destruct (consume _ rest) as [[??]?]; out_prefix.
  - destruct acc; simpl. destruct (consume _ rest) as [[??]?]; out_prefix.
  - destruct acc; simpl. destruct (consume _ rest) as [[??]?]; out_prefix.
  - destruct acc; simpl. destruct (consume _ rest) as [[??]?]; out_prefix.
Qed.

Lemma consume_messages msgs acc rest :
  exists out1,
    consume acc (map Yield (flat_map message_events msgs) ++ rest) =
    let '(acc', out, r) := consume (fold_left step msgs acc) rest in (acc', out1 ++ out, r).
Proof.
  revert acc. induction msgs as [|msg msgs IH]; intros acc; simpl.
  - exists []. by destruct (consume acc rest) as [[??]?].
  - rewrite map_app, <- app_assoc.
    destruct (consume_message msg acc (map Yield (flat_map message_events msgs) ++ rest))
      as [o1 ->].
    destruct (IH (step acc msg)) as [o2 ->].
    destruct (consume _ rest) as [[??]?]. exists (o1 ++ o2). by rewrite app_assoc.
Qed.

Lemma fold_step_text msgs acc :
  final_text (fold_left step msgs acc) = final_text acc +:+ transcript_of msgs.
Proof.
  revert acc. induction msgs as [|msg msgs IH]; intros acc; simpl.
  - by rewrite append_empty_r.
  - rewrite IH. simpl. by rewrite append_assoc.
Qed.

Lemma fold_step_token msgs acc :
  new_session_id (fold_left step msgs acc) = fold_left token_step msgs (new_session_id acc).
Proof. revert acc. induction msgs as [|msg msgs IH]; intros acc; simpl; [done|]. by rewrite IH. Qed.

Lemma fold_step_error msgs acc :
  error_message (fold_left step msgs acc) = error_message acc.
Proof. revert acc. induction msgs as [|msg msgs IH]; intros acc; simpl; [done|]. by rewrite IH. Qed.

(** The loop computes the accumulated text, the token candidate and the
    error message that the runtime's behaviour determines. *)
Lemma stream_events_acc env body sid :
  fst (stream_events env body sid) = turn_acc (agent env).
Proof.
  unfold stream_events, turn_acc, turn_error, delivered.
  destruct (preamble_raises (agent env)) as [e|] eqn:Hpre.
  - destruct (stream_agent_response_raises _ (project_id body) (message body) sid
                (cluster_id body) _ Hpre) as (pre & -> & Hq & _).
    rewrite <- (app_nil_r pre), consume_app_quiet by done. reflexivity.
  - destruct (stream_agent_response_ok _ (project_id body) (message body) sid
                (cluster_id body) Hpre) as (pre & options & -> & Hq & _).
    rewrite consume_app_quiet by done. simpl.
    destruct (consume_messages (query_messages (agent env)) acc0 (query_tail (agent env)))
      as [o1 ->].
    pose proof (fold_step_text (query_messages (agent env)) acc0) as Ht.
    pose proof (fold_step_token (query_messages (agent env)) acc0) as Hn.
    pose proof (fold_step_error (query_messages (agent env)) acc0) as He.
    destruct (fold_left step (query_messages (agent env)) acc0) as [t n err].
    simpl in *. subst. unfold query_tail.
    destruct (query_raises (agent env)) as [e|]; reflexivity.
Qed.

Lemma on_event_frames acc event acc' fs :
  on_event acc event = inr (acc', fs) -> forallb body_frame fs = true.
Proof.
  unfold on_event. intros H.
  repeat case_match; simplify_eq; reflexivity.
Qed.

Lemma consume_obs steps acc :
  forallb service_obs steps = true ->
  forallb stream_obs (snd (fst (consume acc steps))) = true.
Proof.
  revert acc. induction steps as [|o steps IH]; intros acc; simpl; [done|].
  intros [Ho Hs]%andb_prop. destruct o as [level msg|c|event].
  - specialize (IH acc Hs). destruct (consume acc steps) as [[??]?]. simpl in *.
    by rewrite Ho, IH.
  - specialize (IH acc Hs). destruct (consume acc steps) as [[??]?]. simpl in *.
    by rewrite Ho, IH.
  - destruct (on_event acc event) as [e|[acc1 fs]] eqn:Hev; [done|].
    specialize (IH acc1 Hs). destruct (consume acc1 steps) as [[??]?]. simpl in *.
    rewrite forallb_app, IH, andb_true_r.
    apply on_event_frames in Hev. clear -Hev.
    induction fs as [|f fs IHf]; simpl in *; [done|].
    apply andb_prop in Hev as [-> ?]. auto.
Qed.

Lemma stream_agent_response_obs a pid msg sid cl :
  forallb service_obs (snd (stream_agent_response a pid msg sid cl tt)) = true.
Proof.
  destruct (preamble_raises a) as [e|] eqn:Hpre.
  - by destruct (stream_agent_response_raises a pid msg sid cl e Hpre) as (pre & -> & _ & ?).
  - destruct (stream_agent_response_ok a pid msg sid cl Hpre)
      as (pre & options & -> & _ & Hs & _).
    simpl. rewrite forallb_app, Hs. simpl. rewrite forallb_app.
    apply andb_true_intro; split.
    + induction (flat_map message_events (query_messages a)); simpl; auto.
    + unfold query_tail. by destruct (query_raises a).
Qed.

(** While the loop runs, nothing is logged at warning level, only the
    service's collaborators are called, and only loop frames go out. *)
Lemma stream_events_obs env body sid :
  forallb stream_obs (snd (stream_events env body sid)) = true.
Proof.
  unfold stream_events.
  pose proof (stream_agent_response_obs (agent env) (project_id body) (message body)
                sid (cluster_id body)) as Hs.
  destruct (stream_agent_response _ _ _ _ _ tt) as [[r []] steps]. simpl in Hs.
  pose proof (consume_obs steps acc0 Hs) as Hc.
  destruct (consume acc0 steps) as [[acc out] raised]. simpl in Hc.
  destruct raised as [e|]; [|destruct r as [e|]]; simpl; rewrite ?forallb_app, ?Hc; done.
Qed.

(* ===================================================================== *)
(** ** The request handler and the generator around the loop *)
(* ===================================================================== *)

Ltac run_unfold :=
  cbv [mbind mret Eff_bind Eff_ret eff_bind eff_ret invoke logger yield tell raise
       try_except when project_get conversation_get conversation_create
       add_message update_session_id update_cluster_id mark_for_backup write].

Lemma streaming_phase_inv env body st cid sid st1 out1 :
  streaming_phase env body st cid sid st1 out1 ->
  forallb resolve_obs out1 = true
  /\ (exists c, conversations st1 !! cid = Some c /\ c_session_id c = sid)
  /\ messages st1 = messages st
  /\ (is_Some (find_project st (get_current_user env) (project_id body)))
  /\ ((conversation_id body = Some cid /\ cid <> "" /\ st1 = st)
      \/ (truthy_opt (conversation_id body) = false
          /\ cid = generate_uuid env /\ sid = VNone
          /\ conversations st !! cid = None
          /\ conversations st1 = <[cid := new_conversation env body]> (conversations st))).
Proof.
  intros (response & Hrun & Hbody). revert Hrun.
  unfold invoke_agent, create_error_stream. run_unfold.
  destruct (find_project st _ _) as [p|] eqn:Hp; simpl;
    [|intros; simplify_eq; simpl in *; discriminate].
  destruct (conversation_id body) as [c|] eqn:Hc; simpl.
  - destruct (String.eqb c "") eqn:Hempty; simpl.
    + destruct (conversations st !! generate_uuid env) eqn:Hnew; simpl;
        intros; simplify_eq; simpl in *; simplify_eq.
      split; [done|]. split; [eexists; split; [apply lookup_insert_eq|done]|].
      split; [done|]. split; [eauto|]. right. done.
    + unfold find_conversation.
      destruct (conversations st !! c) as [conv|] eqn:Hconv; simpl;
        [destruct (String.eqb (c_project_id conv) (project_id body)); simpl|];
        intros; simplify_eq; simpl in *; simplify_eq.
      split; [done|]. split; [eauto|]. split; [done|]. split; [eauto|]. left.
      split; [done|]. split; [|done]. intros ->. discriminate.
  - destruct (conversations st !! generate_uuid env) eqn:Hnew; simpl;
      intros; simplify_eq; simpl in *; simplify_eq.
    split; [done|]. split; [eexists; split; [apply lookup_insert_eq|done]|].
    split; [done|]. split; [eauto|]. by right.
Qed.

Lemma serve_streaming env body st cid sid st1 out1 :
  streaming_phase env body st cid sid st1 out1 ->
  serve env body st =
  let '(r, st2, out2) := stream_and_store env body cid sid st1 in (r, st2, out1 ++ out2).
Proof.
  intros (response & Hrun & Hbody). unfold serve.
  change ((invoke_agent env body ≫= λ response, run_generator env body (body_iterator response)) st)
    with (eff_bind (λ response, run_generator env body (body_iterator response))
            (invoke_agent env body) st).
  unfold eff_bind. rewrite Hrun, Hbody. reflexivity.
Qed.

Lemma stream_and_store_run env body cid sid st :
  stream_and_store env body cid sid st =
  let '(acc, ev) := stream_events env body sid in
  let '(rs, st2, so) := save_messages env body cid acc st in
  (inr tt, st2,
   Yield (created_frame cid) :: ev ++ so
     ++ match rs with
        | inl e => [Log ERROR ("Failed to save messages: " +:+ str_exn e)]
        | inr _ => []
        end
     ++ [Yield (completed_frame (is_not_none (error_message acc))); Yield Done]).
Proof.
  unfold stream_and_store. destruct (stream_events env body sid) as [acc ev].
  cbv [mbind mret Eff_bind Eff_ret eff_bind eff_ret logger yield tell try_except].
  destruct (save_messages env body cid acc st) as [[[e|[]] st2] so]; simpl;
    rewrite ?app_nil_r, <- ?app_assoc; reflexivity.
Qed.

(* ===================================================================== *)
(** ** Saving the messages *)
(* ===================================================================== *)

(** [save_messages] is its script of writes, run until one raises and
    followed, when none does, by the log record and the backup signal. *)
Lemma save_messages_script env body cid acc st :
  save_messages env body cid acc st =
  run_script (storage_fault env) (save_tail body cid acc) (script body cid acc) st.
Proof.
  unfold save_messages, script, saves_assistant, save_tail, user_call, assistant_call,
    assistant_content.
  run_unfold.
  destruct (truthy (VStr (final_text acc)) || truthy (error_message acc)) eqn:Ha;
  destruct (truthy (new_session_id acc)) eqn:Hn;
  destruct (cluster_id body) as [cl|]; simpl;
  try destruct (String.eqb cl ""); simpl;
  repeat (match goal with
          | |- context [storage_fault env ?c] => destruct (storage_fault env c)
          end; simpl; try reflexivity).
Qed.

Section RunScript.

Variable fault : Call -> option exn.

Variable tail : list (Obs Frame).

(** Writes that all go through are all applied, and the tail follows. *)
Lemma run_script_app_ok ws1 ws2 st :
  Forall (fun w => fault (fst w) = None) ws1 ->
  run_script fault tail (ws1 ++ ws2) st =
  let '(r, st', out) := run_script fault tail ws2 (apply_writes ws1 st) in
  (r, st', map called ws1 ++ out).
Proof.
  intros H. revert st. induction H as [|[c upd] ws1 Hc _ IH]; intros st; simpl.
  - by destruct (run_script fault tail ws2 st) as [[??]?].
  - simpl in Hc. rewrite Hc, IH.
    by destruct (run_script fault tail ws2 _) as [[??]?].
Qed.

Lemma run_script_ok ws st :
  Forall (fun w => fault (fst w) = None) ws ->
  run_script fault tail ws st = (inr tt, apply_writes ws st, map called ws ++ tail).
Proof.
  intros H. rewrite <- (app_nil_r ws) at 1. rewrite run_script_app_ok by done.
  reflexivity.
Qed.

(** The script ends well exactly when no attempted write raises; then
    every write was attempted and the tail follows. *)
Lemma run_script_inr ws st st' out :
  run_script fault tail ws st = (inr tt, st', out) ->
  Forall (fun w => fault (fst w) = None) ws
  /\ st' = apply_writes ws st /\ out = map called ws ++ tail.
Proof.
  revert st st' out. induction ws as [|[c upd] ws IH]; intros st st' out; simpl.
  - intros; simplify_eq. auto.
  - destruct (fault c) eqn:Hc; [discriminate|].
    destruct (run_script fault tail ws (upd st)) as [[r s] o] eqn:Hrun.
    intros; simplify_eq. destruct (IH _ _ _ Hrun) as (? & -> & ->). auto.
Qed.

(** When a write raises, it is the last thing that happens: the writes
    before it went through, and nothing of the tail is reached. *)
Lemma run_script_inl ws st e st' out :
  run_script fault tail ws st = (inl e, st', out) ->
  exists ws1 w ws2,
    ws = ws1 ++ w :: ws2
    /\ Forall (fun w => fault (fst w) = None) ws1
    /\ fault (fst w) = Some e
    /\ st' = apply_writes ws1 st
    /\ out = map called ws1 ++ [called w].
Proof.
  revert st st' out. induction ws as [|[c upd] ws IH]; intros st st' out; simpl.
  - discriminate.
  - destruct (fault c) eqn:Hc.
    + intros; simplify_eq. exists [], (c, upd), ws. auto.
    + destruct (run_script fault tail ws (upd st)) as [[r s] o] eqn:Hrun.
      intros; simplify_eq.
      destruct (IH _ _ _ Hrun) as (ws1 & w & ws2 & -> & ? & ? & -> & ->).
      exists ((c, upd) :: ws1), w, ws2. split; [done|]. split; [by constructor|]. auto.
Qed.

(** A property of stores that every write of the script preserves holds
    between the store before and the store after. *)
Lemma run_script_preserves (R : Store -> Store -> Prop) ws st :
  (forall s, R s s) ->
  (forall s1 s2 s3, R s1 s2 -> R s2 s3 -> R s1 s3) ->
  Forall (fun w => forall s, R s (snd w s)) ws ->
  R st (snd (fst (run_script fault tail ws st))).
Proof.
  intros Hrefl Htrans H. revert st.
  induction H as [|[c upd] ws Hw _ IH]; intros st; simpl; [done|].
  destruct (fault c); simpl; [done|].
  specialize (IH (upd st)).
  destruct (run_script fault tail ws (upd st)) as [[r s] o]. simpl in *.
  eapply Htrans; [apply Hw|done].
Qed.

(** Every observation is an attempted write of the script or belongs to
    the tail. *)
Lemma run_script_obs (P : Obs Frame -> bool) ws st :
  forallb P tail = true ->
  forallb (fun w => P (called w)) ws = true ->
  forallb P (snd (run_script fault tail ws st)) = true.
Proof.
  intros Ht. revert st. induction ws as [|[c upd] ws IH]; intros st; simpl; [done|].
  intros [Hc Hws]%andb_prop. unfold called in Hc. simpl in Hc.
  destruct (fault c); simpl.
  - by rewrite Hc.
  - specialize (IH (upd st) Hws).
    destruct (run_script fault tail ws (upd st)) as [[r s] o]. simpl in *.
    by rewrite Hc, IH.
Qed.

End RunScript.

Lemma calls_of_app {Y} (l1 l2 : list (Obs Y)) :
  calls_of (l1 ++ l2) = calls_of l1 ++ calls_of l2.
Proof. apply omap_app. Qed.

Lemma frames_of_app (l1 l2 : list (Obs Frame)) :
  frames_of (l1 ++ l2) = frames_of l1 ++ frames_of l2.
Proof. apply omap_app. Qed.

(** Calls that a region of the trace cannot contain are filtered out. *)
Lemma filter_calls_nil (p : Call -> bool) (P : Obs Frame -> bool) out :
  forallb P out = true ->
  (forall c, P (Called c) = true -> p c = false) ->
  List.filter p (calls_of out) = [].
Proof.
  intros H Hp. induction out as [|o out IH]; simpl in *; [done|].
  apply andb_prop in H as [Ho Hout]. destruct o as [| c |]; simpl; auto.
  by rewrite (Hp c Ho), IH.
Qed.

Lemma frames_of_nil (P : Obs Frame -> bool) out :
  forallb P out = true ->
  (forall f, P (Yield f) = false) ->
  frames_of out = [].
Proof.
  intros H Hp. induction out as [|o out IH]; simpl in *; [done|].
  apply andb_prop in H as [Ho Hout]. destruct o as [| |f]; simpl; auto.
  by rewrite Hp in Ho.
Qed.

Lemma frames_of_forallb (p : Frame -> bool) (P : Obs Frame -> bool) out :
  forallb P out = true ->
  (forall f, P (Yield f) = true -> p f = true) ->
  forallb p (frames_of out) = true.
Proof.
  intros H Hp. induction out as [|o out IH]; simpl in *; [done|].
  apply andb_prop in H as [Ho Hout]. destruct o as [| |f]; simpl; auto.
  by rewrite (Hp f Ho), IH.
Qed.

(** The whole run of a request that reaches the streaming phase. *)
Lemma serve_streaming_run env body st cid sid st1 out1 :
  streaming_phase env body st cid sid st1 out1 ->
  let acc := turn_acc (agent env) in
  let ev := snd (stream_events env body sid) in
  let saved := run_script (storage_fault env) (save_tail body cid acc) (script body cid acc) st1 in
  serve env body st =
  (inr tt, snd (fst saved),
   out1 ++ Yield (created_frame cid) :: ev ++ snd saved
     ++ match fst (fst saved) with
        | inl e => [Log ERROR ("Failed to save messages: " +:+ str_exn e)]
        | inr _ => []
        end
     ++ [Yield (completed_frame (is_not_none (error_message acc))); Yield Done]).
Proof.
  intros H. cbv zeta.
  rewrite (serve_streaming _ _ _ _ _ _ _ H), stream_and_store_run.
  pose proof (stream_events_acc env body sid) as Hacc.
  destruct (stream_events env body sid) as [acc ev]. simpl in Hacc. subst acc.
  rewrite save_messages_script. cbn [fst snd].
  match goal with
  | |- context [run_script ?f ?t ?ws st1] => by destruct (run_script f t ws st1) as [[??]?]
  end.
Qed.

Lemma script_obs env body cid acc st :
  forallb (save_obs cid (project_id body))
    (snd (run_script (storage_fault env) (save_tail body cid acc) (script body cid acc) st))
  = true.
Proof.
  apply run_script_obs.
  - simpl. by rewrite String.eqb_refl.
  - unfold script. destruct (saves_assistant acc), (truthy (new_session_id acc)),
      (truthy_opt (cluster_id body)); simpl; rewrite !String.eqb_refl; reflexivity.
Qed.

(** The first write of the script is the user message, and no later
    observation is a write of a user message. *)
Lemma script_user_call env body cid acc st :
  List.filter (is_add_message "user")
    (calls_of (snd (run_script (storage_fault env) (save_tail body cid acc)
                      (script body cid acc) st)))
  = [user_call body cid].
Proof.
  unfold script. simpl.
  destruct (storage_fault env (user_call body cid)); [reflexivity|].
  match goal with
  | |- context [run_script ?f ?t ?ws ?s] =>
      pose proof (run_script_obs f t
                    (fun o => match o with
                              | Called c => negb (is_add_message "user" c)
                              | _ => true
                              end) ws s) as H;
      destruct (run_script f t ws s) as [[r st'] out]
  end.
  simpl in *. f_equal.
  apply (filter_calls_nil _ _ _ (H eq_refl ltac:(
    destruct (saves_assistant acc), (truthy (new_session_id acc)),
      (truthy_opt (cluster_id body)); reflexivity))).
  intros c Hc. by apply negb_true_iff.
Qed.

(* ===================================================================== *)
(** ** Properties of a request *)
(* ===================================================================== *)


(** C5. In a request that reaches the streaming phase, everything the
    handler does before the body is iterated involves no frame and no
    call into the agent service; the body then starts with the
    conversation.created frame that carries the resolved id, so that this
    frame comes before every other frame and before any runtime
    interaction.  The resolved id names a stored conversation; when the
    request gave no id it is the id of a conversation created by this
    request. *)
Theorem created_frame_first env body st cid sid st1 out1 :
  streaming_phase env body st cid sid st1 out1 ->
  (exists rest, trace env body st = out1 ++ Yield (created_frame cid) :: rest)
  /\ frames_of out1 = []
  /\ List.filter is_runtime_call (calls_of out1) = []
  /\ is_Some (conversations st1 !! cid)
  /\ (truthy_opt (conversation_id body) = true -> conversation_id body = Some cid)
  /\ (truthy_opt (conversation_id body) = false ->
      cid = generate_uuid env
      /\ conversations st !! cid = None
      /\ conversations st1 !! cid = Some (new_conversation env body)).
Proof.
  intros H. pose proof (serve_streaming_run _ _ _ _ _ _ _ H) as Hrun. cbv zeta in Hrun.
  destruct (streaming_phase_inv _ _ _ _ _ _ _ H) as (Hobs & (c & Hc & _) & _ & _ & Hid).
  split; [|split; [|split; [|split; [|split]]]].
  - unfold trace. rewrite Hrun. simpl. eauto.
  - by apply (frames_of_nil _ _ Hobs).
  - apply (filter_calls_nil _ _ _ Hobs). by intros [].
  - eauto.
  - intros Ht. destruct Hid as [(? & _)|(Hf & _)]; [done|congruence].
  - intros Ht. destruct Hid as [(Hs & Hne & _)|(_ & -> & _ & Hnone & Hins)].
    + rewrite Hs in Ht. simpl in Ht.
      apply negb_false_iff, String.eqb_eq in Ht. done.
    + split; [done|]. split; [done|]. rewrite Hins. apply lookup_insert_eq.
Qed.

Lemma script_calls_save_obs env body cid acc st c :
  c ∈ calls_of (snd (run_script (storage_fault env) (save_tail body cid acc)
                       (script body cid acc) st)) ->
  save_obs cid (project_id body) (Called c) = true.
Proof.
  pose proof (script_obs env body cid acc st) as H. revert H.
  generalize (snd (run_script (storage_fault env) (save_tail body cid acc)
                     (script body cid acc) st)).
  intros out. induction out as [|o out IH]; simpl; [by intros _ ?%elem_of_nil|].
  intros [Ho Hout]%andb_prop. destruct o; simpl; auto.
  intros [->|?]%elem_of_cons; auto.
Qed.

Lemma elem_of_calls_of (P : Obs Frame -> bool) out c :
  forallb P out = true -> c ∈ calls_of out -> P (Called c) = true.
Proof.
  induction out as [|o out IH]; simpl; [by intros _ ?%elem_of_nil|].
  intros [Ho Hout]%andb_prop. destruct o; simpl; auto.
  intros [->|?]%elem_of_cons; auto.
Qed.

(** The calls, the frames and the final store of a request that reaches
    the streaming phase. *)
Lemma calls_streaming env body st cid sid st1 out1 :
  streaming_phase env body st cid sid st1 out1 ->
  calls env body st =
  calls_of out1 ++ calls_of (snd (stream_events env body sid))
    ++ calls_of (snd (run_script (storage_fault env)
                        (save_tail body cid (turn_acc (agent env)))
                        (script body cid (turn_acc (agent env))) st1)).
Proof.
  intros H. unfold calls, trace. rewrite (serve_streaming_run _ _ _ _ _ _ _ H).
  cbn [snd]. rewrite calls_of_app. f_equal.
  change (calls_of (Yield ?f :: ?l)) with (calls_of l).
  rewrite !calls_of_app.
  match goal with
  | |- context [match ?r with inl _ => _ | inr _ => _ end] => destruct r as [?|[]]
  end; simpl; by rewrite ?app_nil_r.
Qed.

Lemma frames_streaming env body st cid sid st1 out1 :
  streaming_phase env body st cid sid st1 out1 ->
  frames env body st =
  created_frame cid :: frames_of (snd (stream_events env body sid))
    ++ [completed_frame (turn_failed (agent env)); Done].
Proof.
  intros H. unfold frames, trace. rewrite (serve_streaming_run _ _ _ _ _ _ _ H).
  destruct (streaming_phase_inv _ _ _ _ _ _ _ H) as (Hobs & _).
  cbn [snd]. rewrite frames_of_app, (frames_of_nil _ _ Hobs) by done.
  change (frames_of (Yield ?f :: ?l)) with (f :: frames_of l).
  rewrite !frames_of_app.
  rewrite (frames_of_nil _ _ (script_obs env body cid _ st1)) by done.
  assert (is_not_none (error_message (turn_acc (agent env))) = turn_failed (agent env)) as ->.
  { unfold turn_acc, turn_failed. simpl. by destruct (turn_error (agent env)). }
  simpl. f_equal. f_equal.
  match goal with
  | |- context [match ?r with inl _ => _ | inr _ => _ end] => by destruct r as [?|[]]
  end.
Qed.

Lemma final_store_streaming env body st cid sid st1 out1 :
  streaming_phase env body st cid sid st1 out1 ->
  final_store env body st =
  snd (fst (run_script (storage_fault env) (save_tail body cid (turn_acc (agent env)))
              (script body cid (turn_acc (agent env))) st1)).
Proof.
  intros H. unfold final_store. by rewrite (serve_streaming_run _ _ _ _ _ _ _ H).
Qed.

(** C6, as the code has it.  In a request that reaches the streaming
    phase and is served to its end, exactly one write of a user-role
    message is issued, whatever the runtime did, and it carries the
    original input; when that write does not raise, the store gains
    exactly one user-role row, with the original input as content; when
    it raises, the persistence step ends there and the store stays as
    the handler left it: no message of the turn is stored. *)
Theorem one_user_message env body st cid sid st1 out1 :
  streaming_phase env body st cid sid st1 out1 ->
  List.filter (is_add_message "user") (calls env body st)
  = [CAddMessage cid "user" (message body) false]
  /\ (storage_fault env (CAddMessage cid "user" (message body) false) = None ->
      List.filter (has_role "user") (messages (final_store env body st))
      = List.filter (has_role "user") (messages st)
        ++ [{| m_conversation_id := cid; m_role := "user";
               m_content := message body; m_is_error := false |}])
  /\ (forall e,
        storage_fault env (CAddMessage cid "user" (message body) false) = Some e ->
        final_store env body st = st1 /\ messages (final_store env body st) = messages st).
Proof.
  intros H. destruct (streaming_phase_inv _ _ _ _ _ _ _ H) as (Hobs & _ & Hmsgs & _).
  split; [|split].
  - rewrite (calls_streaming _ _ _ _ _ _ _ H), !List.filter_app.
    rewrite (filter_calls_nil _ _ _ Hobs) by (by intros []).
    rewrite (filter_calls_nil _ _ _ (stream_events_obs env body sid)) by (by intros []).
    apply script_user_call.
  - intros Hfault. rewrite (final_store_streaming _ _ _ _ _ _ _ H), <- Hmsgs.
    generalize (turn_acc (agent env)). intros acc.
    unfold script. cbn [app run_script fst]. unfold user_call at 1. rewrite Hfault.
    match goal with
    | |- context [run_script ?f ?t ?ws ?s0] =>
        pose proof (run_script_preserves f t
          (fun s s' => List.filter (has_role "user") (messages s')
                       = List.filter (has_role "user") (messages s)) ws s0) as Hp;
        destruct (run_script f t ws s0) as [[r st'] out]
    end.
    cbn [fst snd] in *. rewrite Hp; [simpl; by rewrite List.filter_app| done | congruence |].
    destruct (saves_assistant acc), (truthy (new_session_id acc)),
      (truthy_opt (cluster_id body));
      simpl; repeat constructor; intros s; simpl;
      rewrite ?List.filter_app, ?app_nil_r; reflexivity.
  - intros e Hfault.
    assert (final_store env body st = st1) as ->; [|done].
    rewrite (final_store_streaming _ _ _ _ _ _ _ H).
    unfold script. cbn [app run_script]. unfold user_call at 1. by rewrite Hfault.
Qed.

(** C4. In a request that reaches the streaming phase the generator runs
    to its end, whichever storage writes raise, and its frames end with
    one stream.completed frame, whose error indicator tells whether an
    error occurred during the turn, followed by the end marker; no frame
    before this pair is an end marker or a stream.completed frame. *)
Theorem final_pair env body st cid sid st1 out1 :
  streaming_phase env body st cid sid st1 out1 ->
  fst (fst (serve env body st)) = inr tt
  /\ exists pre,
       frames env body st = pre ++ [completed_frame (turn_failed (agent env)); Done]
       /\ (Done ∉ pre)
       /\ List.filter (is_frame "stream.completed") pre = [].
Proof.
  intros H. split; [by rewrite (serve_streaming_run _ _ _ _ _ _ _ H)|].
  exists (created_frame cid :: frames_of (snd (stream_events env body sid))).
  split; [by rewrite (frames_streaming _ _ _ _ _ _ _ H)|].
  pose proof (frames_of_forallb body_frame _ _ (stream_events_obs env body sid)
                ltac:(done)) as Hb.
  revert Hb. generalize (frames_of (snd (stream_events env body sid))). intros fs Hb.
  split.
  - intros [?|Hin]%elem_of_cons; [done|].
    induction fs as [|f fs IH]; [by apply elem_of_nil in Hin|].
    simpl in Hb. apply andb_prop in Hb as [Hf Hfs].
    apply elem_of_cons in Hin as [<-|?]; [done|auto].
  - simpl. induction fs as [|f fs IH]; [done|].
    simpl in Hb. apply andb_prop in Hb as [Hf Hfs]. simpl.
    destruct f as [d|]; [|done]. simpl in *.
    apply andb_prop in Hf as [Hf _]. apply negb_true_iff in Hf. rewrite Hf. auto.
Qed.

(** When the user message is saved, the assistant message is attempted
    next, if the locals call for it; no other write is of that role. *)
Lemma script_assistant_call env body cid acc st :
  storage_fault env (user_call body cid) = None ->
  List.filter (is_add_message "assistant")
    (calls_of (snd (run_script (storage_fault env) (save_tail body cid acc)
                      (script body cid acc) st)))
  = if saves_assistant acc then [assistant_call cid acc] else [].
Proof.
  intros Hfault. unfold script. cbn [app run_script fst]. rewrite Hfault.
  set (P := fun o : Obs Frame =>
              match o with
              | Called c => negb (is_add_message "assistant" c)
              | _ => true
              end).
  assert (forall ws s,
            forallb (fun w => P (called w)) ws = true ->
            List.filter (is_add_message "assistant")
              (calls_of (snd (run_script (storage_fault env) (save_tail body cid acc) ws s)))
            = []) as Hrest.
  { intros ws s Hws.
    apply (filter_calls_nil _ P).
    - by apply run_script_obs.
    - intros c Hc. by apply negb_true_iff. }
  destruct (saves_assistant acc); cbn [app run_script fst].
  - destruct (storage_fault env (assistant_call cid acc)); [reflexivity|].
    match goal with
    | |- context [run_script ?f ?t ?ws ?s0] =>
        specialize (Hrest ws s0); destruct (run_script f t ws s0) as [[r st'] out]
    end.
    cbn [fst snd] in *. simpl. f_equal. apply Hrest.
    by destruct (truthy (new_session_id acc)), (truthy_opt (cluster_id body)).
  - match goal with
    | |- context [run_script ?f ?t ?ws ?s0] =>
        specialize (Hrest ws s0); destruct (run_script f t ws s0) as [[r st'] out]
    end.
    cbn [fst snd] in *. simpl. apply Hrest.
    by destruct (truthy (new_session_id acc)), (truthy_opt (cluster_id body)).
Qed.

Lemma truthy_str (s : string) : truthy (VStr s) = true <-> s <> "".
Proof.
  simpl. rewrite negb_true_iff. split.
  - intros H ->. discriminate.
  - intros H. destruct (String.eqb s "") eqn:E; [|done]. by apply String.eqb_eq in E.
Qed.

(** C3, as the code has it.  In a request that reaches the streaming
    phase and whose user-message write does not raise: when the
    accumulated text is not empty, one assistant-role write is issued,
    with the text as content and an error flag that tells whether an
    error occurred; when the text is empty and an error with a non-empty
    message occurred, one assistant-role write is issued, with content
    the message prefixed by "Error: " and the error flag set; when the
    text is empty and no error occurred, no assistant-role write is
    issued. *)
Theorem assistant_message_rule env body st cid sid st1 out1 :
  streaming_phase env body st cid sid st1 out1 ->
  storage_fault env (CAddMessage cid "user" (message body) false) = None ->
  (transcript_of (delivered (agent env)) <> "" ->
   List.filter (is_add_message "assistant") (calls env body st)
   = [CAddMessage cid "assistant" (transcript_of (delivered (agent env)))
        (turn_failed (agent env))])
  /\ (forall e,
        transcript_of (delivered (agent env)) = "" ->
        turn_error (agent env) = Some e -> str_exn e <> "" ->
        List.filter (is_add_message "assistant") (calls env body st)
        = [CAddMessage cid "assistant" ("Error: " +:+ str_exn e) true])
  /\ (transcript_of (delivered (agent env)) = "" ->
      turn_error (agent env) = None ->
      List.filter (is_add_message "assistant") (calls env body st) = []).
Proof.
  intros H Hfault.
  destruct (streaming_phase_inv _ _ _ _ _ _ _ H) as (Hobs & _).
  assert (List.filter (is_add_message "assistant") (calls env body st)
          = if saves_assistant (turn_acc (agent env))
            then [assistant_call cid (turn_acc (agent env))] else []) as ->.
  { rewrite (calls_streaming _ _ _ _ _ _ _ H), !List.filter_app.
    rewrite (filter_calls_nil _ _ _ Hobs) by (by intros []).
    rewrite (filter_calls_nil _ _ _ (stream_events_obs env body sid)) by (by intros []).
    by apply script_assistant_call. }
  unfold saves_assistant, assistant_call, assistant_content, turn_acc, turn_failed.
  cbn [final_text error_message].
  split; [|split].
  - intros Ht. apply truthy_str in Ht. rewrite Ht. simpl.
    by destruct (turn_error (agent env)).
  - intros e -> -> He. apply truthy_str in He. rewrite He. reflexivity.
  - intros -> ->. reflexivity.
Qed.

(** C8, as the code has it.  In a request that reaches the streaming
    phase, whatever the runtime did: when no write of the persistence
    step raises, the backup signal for the project is the last thing that
    happens before the final pair of frames, hence after every storage
    write, and it is sent once; when a write of the persistence step
    raises, no backup signal is sent. *)
Theorem backup_signal_after_save env body st cid sid st1 out1 :
  streaming_phase env body st cid sid st1 out1 ->
  ((forall c, c ∈ calls env body st -> is_save_write c = true -> storage_fault env c = None) ->
   exists pre,
     trace env body st
     = pre ++ [Called (CMarkForBackup (project_id body));
               Yield (completed_frame (turn_failed (agent env))); Yield Done]
     /\ List.filter is_mark_for_backup (calls_of pre) = [])
  /\ (forall c e,
        c ∈ calls env body st -> is_save_write c = true -> storage_fault env c = Some e ->
        List.filter is_mark_for_backup (calls env body st) = []).
Proof.
  intros H.
  destruct (streaming_phase_inv _ _ _ _ _ _ _ H) as (Hobs & _).
  pose proof (calls_streaming _ _ _ _ _ _ _ H) as Hcalls.
  pose proof (serve_streaming_run _ _ _ _ _ _ _ H) as Hrun. cbv zeta in Hrun.
  pose proof (stream_events_obs env body sid) as Hev.
  assert (is_not_none (error_message (turn_acc (agent env))) = turn_failed (agent env)) as Hflag.
  { unfold turn_acc, turn_failed. simpl. by destruct (turn_error (agent env)). }
  rewrite Hflag in Hrun. clear Hflag.
  revert Hcalls Hrun. generalize (turn_acc (agent env)). intros acc Hcalls Hrun.
  assert (Forall (fun w => is_save_write (fst w) = true /\ is_mark_for_backup (fst w) = false)
            (script body cid acc)) as Hscript.
  { unfold script. destruct (saves_assistant acc), (truthy (new_session_id acc)),
      (truthy_opt (cluster_id body)); simpl; repeat constructor. }
  revert Hcalls Hrun Hscript. generalize (script body cid acc). intros ws Hcalls Hrun Hscript.
  destruct (run_script (storage_fault env) (save_tail body cid acc) ws st1)
    as [[[e|[]] st2] so] eqn:Hsave; cbn [fst snd] in *.
  - (* a write raised *)
    destruct (run_script_inl _ _ _ _ _ _ _ Hsave) as (ws1 & w & ws2 & -> & Hok & Hw & _ & ->).
    assert (fst w ∈ calls env body st) as Hin.
    { rewrite Hcalls, !calls_of_app. simpl. set_solver. }
    assert (is_save_write (fst w) = true) as Hsw.
    { apply Forall_app in Hscript as [_ Hs].
      by apply Forall_cons in Hs as [[? _] _]. }
    split.
    + intros Hnone. rewrite (Hnone _ Hin Hsw) in Hw. discriminate.
    + intros _ _ _ _ _. rewrite Hcalls, !List.filter_app.
      rewrite (filter_calls_nil _ _ _ Hobs) by (by intros []).
      rewrite (filter_calls_nil _ _ _ Hev) by (by intros []).
      simpl. clear -Hscript.
      induction ws1 as [|w1 ws1 IH]; simpl.
      * apply Forall_cons in Hscript as [[_ ->] _]. reflexivity.
      * apply Forall_cons in Hscript as [[_ ->] ?]. auto.
  - (* every write went through *)
    destruct (run_script_inr _ _ _ _ _ _ Hsave) as (Hok & _ & ->).
    split.
    + intros _.
      exists (out1 ++ Yield (created_frame cid) :: snd (stream_events env body sid)
                ++ map called ws
                ++ [Log INFO ("Saved messages to conversation " +:+ cid +:+ ": text="
                               +:+ pretty (String.length (final_text acc)) +:+ " chars, error="
                               +:+ repr (VBool (is_not_none (error_message acc))))]).
      split.
      * unfold trace. rewrite Hrun. cbn [snd]. unfold save_tail.
        rewrite <- !app_assoc. simpl. rewrite <- !app_assoc. reflexivity.
      * rewrite calls_of_app. change (calls_of (Yield ?f :: ?l)) with (calls_of l).
        rewrite !calls_of_app, !List.filter_app.
        rewrite (filter_calls_nil _ _ _ Hobs) by (by intros []).
        rewrite (filter_calls_nil _ _ _ Hev) by (by intros []).
        simpl. rewrite app_nil_r. clear -Hscript.
        induction Hscript as [|w ws [_ Hw] _ IH]; simpl; [done|]. by rewrite Hw.
    + intros c e Hin Hsw Hfault. exfalso.
      rewrite Hcalls in Hin. apply elem_of_app in Hin as [Hin|Hin].
      { apply (elem_of_calls_of _ _ _ Hobs) in Hin. by destruct c. }
      apply elem_of_app in Hin as [Hin|Hin].
      { apply (elem_of_calls_of _ _ _ Hev) in Hin. by destruct c. }
      rewrite calls_of_app in Hin. apply elem_of_app in Hin as [Hin|Hin].
      * clear -Hin Hok Hfault. induction Hok as [|w ws Hw _ IH]; simpl in Hin.
        { by apply elem_of_nil in Hin. }
        apply elem_of_cons in Hin as [->|?]; [congruence|auto].
      * simpl in Hin. apply list_elem_of_singleton in Hin. by subst c.
Qed.

(* ===================================================================== *)
(** ** The session-token candidate *)
(* ===================================================================== *)

Lemma token_step_keeps n msg :
  truthy n = true -> is_result msg = false -> token_step n msg = n.
Proof.
  intros Hn Hr. destruct msg as [| | subtype [d|] | | |]; try done; simpl.
  by rewrite Hn, andb_false_r.
Qed.

Lemma fold_token_keeps msgs n :
  truthy n = true -> forallb (fun m => negb (is_result m)) msgs = true ->
  fold_left token_step msgs n = n.
Proof.
  intros Hn. induction msgs as [|msg msgs IH]; simpl; [done|].
  intros [Hm Hms]%andb_prop. apply negb_true_iff in Hm.
  rewrite token_step_keeps by done. auto.
Qed.

Lemma fold_token_falsy msgs n :
  truthy n = false ->
  forallb (fun m => negb (is_result m) && negb (truthy (init_token m))) msgs = true ->
  truthy (fold_left token_step msgs n) = false.
Proof.
  revert n. induction msgs as [|msg msgs IH]; intros n Hn; simpl; [done|].
  intros [Hm Hms]%andb_prop. apply IH; [|done].
  apply andb_prop in Hm as [Hr Hi]. apply negb_true_iff in Hi.
  destruct msg as [| | subtype [d|] | | |]; try done; simpl in *.
  destruct (eq_str subtype "init"); simpl in *; [|done].
  rewrite Hn. destruct d as [|kv d]; simpl in *; done.
Qed.

(** A token on a result message overwrites the candidate, and later
    messages other than results leave it alone. *)
Lemma candidate_result pre post s d c e n :
  truthy s = true -> forallb (fun m => negb (is_result m)) post = true ->
  candidate_of (pre ++ [Sdk.ResultMessage s d c e n] ++ post) = s.
Proof.
  intros Hs Hpost. unfold candidate_of. rewrite !fold_left_app. simpl.
  by apply fold_token_keeps.
Qed.

(** With no result message, the first init message that offers a token
    sets the candidate. *)
Lemma candidate_init pre post subtype d :
  eq_str subtype "init" = true ->
  truthy (dict_get d "session_id" VNone) = true ->
  forallb (fun m => negb (is_result m) && negb (truthy (init_token m))) pre = true ->
  forallb (fun m => negb (is_result m)) post = true ->
  candidate_of (pre ++ [Sdk.SystemMessage subtype (Some d)] ++ post)
  = dict_get d "session_id" VNone.
Proof.
  intros Hi Ht Hpre Hpost. unfold candidate_of. rewrite !fold_left_app. simpl.
  rewrite Hi, (fold_token_falsy pre VNone eq_refl Hpre).
  destruct d as [|kv d]; [discriminate|]. simpl.
  by apply fold_token_keeps.
Qed.

(** A final result message leaves its own session id as the candidate. *)
Lemma candidate_last_result pre s d c e n :
  candidate_of (pre ++ [Sdk.ResultMessage s d c e n]) = s.
Proof. unfold candidate_of. by rewrite fold_left_app. Qed.

(* ===================================================================== *)
(** ** The stored session token *)
(* ===================================================================== *)

Lemma lookup_set_cluster_id cl cid (m : gmap string Conversation) id :
  c_session_id <$> alter (set_cluster_id cl) cid m !! id = c_session_id <$> m !! id.
Proof.
  rewrite lookup_alter. case_decide; [subst|done]. by destruct (m !! id).
Qed.

Lemma lookup_set_session_id n cid (m : gmap string Conversation) id :
  c_session_id <$> alter (set_session_id n) cid m !! id =
  if decide (cid = id) then (fun _ => n) <$> m !! id else c_session_id <$> m !! id.
Proof.
  rewrite lookup_alter. case_decide; [subst|done]. by destruct (m !! id).
Qed.

Lemma stored_token_append row st id :
  stored_token (append_message row st) id = stored_token st id.
Proof. reflexivity. Qed.

Lemma stored_token_cluster cl cid st id :
  stored_token (alter_conversation (set_cluster_id cl) cid st) id = stored_token st id.
Proof. unfold stored_token. simpl. apply lookup_set_cluster_id. Qed.

Lemma stored_token_session n cid st id :
  stored_token (alter_conversation (set_session_id n) cid st) id
  = if decide (cid = id) then (fun _ => n) <$> conversations st !! id
    else stored_token st id.
Proof. unfold stored_token. simpl. apply lookup_set_session_id. Qed.

(** Without a token candidate no write of the script touches a stored
    token. *)
Lemma script_keeps_tokens env body cid acc st :
  truthy (new_session_id acc) = false ->
  forall id,
    stored_token (snd (fst (run_script (storage_fault env) (save_tail body cid acc)
                              (script body cid acc) st))) id
    = stored_token st id.
Proof.
  intros Hn.
  apply (run_script_preserves _ _ (fun s s' => forall id, stored_token s' id = stored_token s id)).
  - done.
  - intros s1 s2 s3 H12 H23 id. by rewrite H23.
  - unfold script. rewrite Hn.
    destruct (saves_assistant acc), (truthy_opt (cluster_id body)); simpl;
      repeat constructor; intros s id; simpl;
      rewrite ?stored_token_append, ?stored_token_cluster; reflexivity.
Qed.

(** Whatever the script does to a stored token, it leaves it as it was
    or replaces it by the candidate, which is then a real token. *)
Lemma script_replaces_tokens env body cid acc st id t :
  stored_token st id = Some t ->
  exists t',
    stored_token (snd (fst (run_script (storage_fault env) (save_tail body cid acc)
                              (script body cid acc) st))) id = Some t'
    /\ (t' = t \/ (t' = new_session_id acc /\ truthy t' = true)).
Proof.
  revert id t.
  apply (run_script_preserves _ _
           (fun s s' => forall id t, stored_token s id = Some t ->
              exists t', stored_token s' id = Some t'
                         /\ (t' = t \/ (t' = new_session_id acc /\ truthy t' = true)))).
  - eauto.
  - intros s1 s2 s3 H12 H23 id t Ht.
    destruct (H12 _ _ Ht) as (t2 & Ht2 & Hor2).
    destruct (H23 _ _ Ht2) as (t3 & Ht3 & Hor3).
    exists t3. split; [done|]. destruct Hor3 as [->|?]; auto.
  - unfold script.
    destruct (saves_assistant acc), (truthy (new_session_id acc)) eqn:Hn,
      (truthy_opt (cluster_id body)); simpl;
      repeat constructor; intros s id t Ht; simpl;
      rewrite ?stored_token_append, ?stored_token_cluster, ?stored_token_session;
      eauto;
      (case_decide; [|by eauto]); subst;
      unfold stored_token in Ht; destruct (conversations s !! id); simplify_eq; simpl;
      eauto.
Qed.

Lemma script_update_truthy env body cid acc st :
  forallb writes_real_token
    (snd (run_script (storage_fault env) (save_tail body cid acc) (script body cid acc) st))
  = true.
Proof.
  apply run_script_obs; [done|]. unfold script.
  destruct (saves_assistant acc), (truthy (new_session_id acc)) eqn:Hn,
    (truthy_opt (cluster_id body)); simpl; rewrite ?Hn; reflexivity.
Qed.

(** With a token candidate and the writes up to the token update going
    through, the update is issued once and the conversation's stored
    token is the candidate. *)
Lemma script_stores_token env body cid acc st c0 :
  truthy (new_session_id acc) = true ->
  conversations st !! cid = Some c0 ->
  (forall role content flag, storage_fault env (CAddMessage cid role content flag) = None) ->
  storage_fault env (CUpdateSessionId cid (new_session_id acc)) = None ->
  stored_token (snd (fst (run_script (storage_fault env) (save_tail body cid acc)
                            (script body cid acc) st))) cid
  = Some (new_session_id acc)
  /\ List.filter is_update_session_id
       (calls_of (snd (run_script (storage_fault env) (save_tail body cid acc)
                         (script body cid acc) st)))
     = [CUpdateSessionId cid (new_session_id acc)].
Proof.
  intros Hn Hc0 Hadd Hupd. unfold script, user_call, assistant_call. rewrite Hn.
  destruct (saves_assistant acc), (truthy_opt (cluster_id body));
    cbn [app run_script fst]; rewrite ?Hadd, ?Hupd;
    try destruct (storage_fault env (CUpdateClusterId _ _));
    cbn [fst snd]; rewrite ?stored_token_cluster, ?stored_token_session;
    rewrite ?decide_True by done; simpl; rewrite ?Hc0; done.
Qed.

(** C1, as the code has it.  In a request that reaches the streaming
    phase, with the runtime reached and the writes up to the token update
    going through: if a result message carries a token and no result
    message follows it, the conversation's stored token is that token,
    whatever an init message offered before or after; if no result
    message is delivered at all and an init message offers a token, no
    init message before it offering one, the stored token is that
    token.  In both cases the update is issued once. *)
Theorem token_resolution env body st cid sid st1 out1 :
  streaming_phase env body st cid sid st1 out1 ->
  preamble_raises (agent env) = None ->
  (forall role content flag, storage_fault env (CAddMessage cid role content flag) = None) ->
  (forall t, storage_fault env (CUpdateSessionId cid t) = None) ->
  (forall pre post t2 d c e n,
     query_messages (agent env) = pre ++ [Sdk.ResultMessage t2 d c e n] ++ post ->
     forallb (fun m => negb (is_result m)) post = true ->
     truthy t2 = true ->
     stored_token (final_store env body st) cid = Some t2
     /\ List.filter is_update_session_id (calls env body st) = [CUpdateSessionId cid t2])
  /\ (forall pre post subtype data,
        query_messages (agent env) = pre ++ [Sdk.SystemMessage subtype (Some data)] ++ post ->
        eq_str subtype "init" = true ->
        truthy (dict_get data "session_id" VNone) = true ->
        forallb (fun m => negb (is_result m) && negb (truthy (init_token m))) pre = true ->
        forallb (fun m => negb (is_result m)) post = true ->
        stored_token (final_store env body st) cid = Some (dict_get data "session_id" VNone)
        /\ List.filter is_update_session_id (calls env body st)
           = [CUpdateSessionId cid (dict_get data "session_id" VNone)]).
Proof.
  intros H Hpre Hadd Hupd.
  destruct (streaming_phase_inv _ _ _ _ _ _ _ H) as (Hobs & (c0 & Hc0 & _) & _).
  assert (forall t, candidate_of (query_messages (agent env)) = t -> truthy t = true ->
            stored_token (final_store env body st) cid = Some t
            /\ List.filter is_update_session_id (calls env body st) = [CUpdateSessionId cid t])
    as Hmain.
  { intros t Hcand Ht.
    rewrite (final_store_streaming _ _ _ _ _ _ _ H), (calls_streaming _ _ _ _ _ _ _ H).
    rewrite !List.filter_app.
    rewrite (filter_calls_nil _ _ _ Hobs) by (by intros []).
    rewrite (filter_calls_nil _ _ _ (stream_events_obs env body sid)) by (by intros []).
    assert (new_session_id (turn_acc (agent env)) = t) as Hacc.
    { unfold turn_acc, delivered. by rewrite Hpre. }
    rewrite <- Hacc in Ht |- *.
    by apply (script_stores_token env body cid _ st1 c0). }
  split.
  - intros pre post t2 d c e n Hq Hpost Ht. apply Hmain; [|done].
    rewrite Hq. by apply candidate_result.
  - intros pre post subtype data Hq Hi Ht Hbefore Hpost. apply Hmain; [|done].
    rewrite Hq. by apply candidate_init.
Qed.

(** C10. In a request that reaches the streaming phase and whose last
    delivered message is a result message that carries no session token,
    the loop ends without a token candidate, whatever the messages before
    it offered (a token captured from a system/init message included);
    no token update is issued, and every stored token, that of the
    conversation among them, keeps the value it had when the turn began. *)
Theorem result_without_token_discards env body st cid sid st1 out1 pre s d c e n :
  streaming_phase env body st cid sid st1 out1 ->
  query_messages (agent env) = pre ++ [Sdk.ResultMessage s d c e n] ->
  truthy s = false ->
  truthy (new_session_id (fst (stream_events env body sid))) = false
  /\ List.filter is_update_session_id (calls env body st) = []
  /\ (forall id, stored_token (final_store env body st) id = stored_token st1 id)
  /\ stored_token (final_store env body st) cid = Some sid.
Proof.
  intros H Hq Hs.
  destruct (streaming_phase_inv _ _ _ _ _ _ _ H) as (Hobs & (c0 & Hc0 & Hsid) & _).
  assert (truthy (new_session_id (turn_acc (agent env))) = false) as Hn.
  { unfold turn_acc, delivered. simpl.
    destruct (preamble_raises (agent env)); [done|].
    by rewrite Hq, candidate_last_result. }
  assert (forall id, stored_token (final_store env body st) id = stored_token st1 id) as Hkeep.
  { intros id. rewrite (final_store_streaming _ _ _ _ _ _ _ H).
    by apply script_keeps_tokens. }
  split; [by rewrite stream_events_acc|]. split; [|split; [done|]].
  - rewrite (calls_streaming _ _ _ _ _ _ _ H), !List.filter_app.
    rewrite (filter_calls_nil _ _ _ Hobs) by (by intros []).
    rewrite (filter_calls_nil _ _ _ (stream_events_obs env body sid)) by (by intros []).
    cbn [app].
    apply (filter_calls_nil _ (fun o => match o with
                                        | Called c => negb (is_update_session_id c)
                                        | _ => true
                                        end)).
    + apply run_script_obs; [done|]. unfold script. rewrite Hn.
      by destruct (saves_assistant _), (truthy_opt (cluster_id body)).
    + intros c0' Hc. by apply negb_true_iff.
  - rewrite Hkeep. unfold stored_token. by rewrite Hc0, <- Hsid.
Qed.

(* ===================================================================== *)
(** ** Requests that do not reach the streaming phase *)
(* ===================================================================== *)

Lemma serve_cases env body st :
  (exists cid sid st1 out1, streaming_phase env body st cid sid st1 out1)
  \/ (final_store env body st = st /\ forallb idle_obs (trace env body st) = true).
Proof.
  unfold streaming_phase, final_store, trace, serve.
  change ((invoke_agent env body ≫= λ response, run_generator env body (body_iterator response)) st)
    with (eff_bind (λ response, run_generator env body (body_iterator response))
            (invoke_agent env body) st).
  unfold eff_bind.
  destruct (invoke_agent env body st) as [[[e|response] st1] out1] eqn:Hinv.
  - right. revert Hinv. unfold invoke_agent, create_error_stream. run_unfold.
    destruct (find_project st _ _); simpl; [|discriminate].
    destruct (negb (truthy_opt (conversation_id body))); simpl.
    + destruct (conversations st !! generate_uuid env); simpl; intros; simplify_eq; done.
    + destruct (find_conversation st _ _); simpl; discriminate.
  - destruct (body_iterator response) as [error msg|cid sid] eqn:Hbody.
    + right. revert Hinv. unfold invoke_agent, create_error_stream. run_unfold.
      destruct (find_project st _ _); simpl; [|intros; simplify_eq; done].
      destruct (negb (truthy_opt (conversation_id body))); simpl.
      * destruct (conversations st !! generate_uuid env); simpl; intros; simplify_eq;
          simpl in *; discriminate.
      * destruct (find_conversation st _ _); simpl; intros; simplify_eq; simpl in *;
          try discriminate; done.
    + left. eauto 10.
Qed.

(** C9. No request clears a stored session token.  Every token update a
    request issues carries a real (truthy, hence non-null) token; and a
    conversation whose stored token was not null before the request has a
    stored token that is not null after it: the same one, or the token
    this turn yielded. *)
Theorem token_never_cleared env body st :
  (forall cid t, CUpdateSessionId cid t ∈ calls env body st -> truthy t = true)
  /\ (forall id t,
        stored_token st id = Some t -> t <> VNone ->
        exists t',
          stored_token (final_store env body st) id = Some t'
          /\ t' <> VNone
          /\ (t' = t \/ (t' = candidate_of (delivered (agent env)) /\ truthy t' = true))).
Proof.
  destruct (serve_cases env body st) as [(cid & sid & st1 & out1 & H)|[Hst Hidle]].
  - destruct (streaming_phase_inv _ _ _ _ _ _ _ H) as (Hobs & _ & _ & _ & Hid).
    split.
    + intros cid' t. rewrite (calls_streaming _ _ _ _ _ _ _ H).
      intros [Hin|[Hin|Hin]%elem_of_app]%elem_of_app.
      * by apply (elem_of_calls_of _ _ _ Hobs) in Hin.
      * by apply (elem_of_calls_of _ _ _ (stream_events_obs env body sid)) in Hin.
      * by apply (elem_of_calls_of _ _ _ (script_update_truthy env body cid _ st1)) in Hin.
    + intros id t Ht Hne.
      assert (stored_token st1 id = Some t) as Ht1.
      { destruct Hid as [(_ & _ & ->)|(_ & _ & _ & Hnew & Hins)]; [done|].
        unfold stored_token in *. rewrite Hins.
        rewrite lookup_insert_ne; [done|]. intros ->. by rewrite Hnew in Ht. }
      rewrite (final_store_streaming _ _ _ _ _ _ _ H).
      destruct (script_replaces_tokens env body cid (turn_acc (agent env)) st1 id t Ht1)
        as (t' & Ht' & Hor).
      exists t'. split; [done|]. split.
      * destruct Hor as [->|[_ Htr]]; [done|]. intros ->. discriminate.
      * destruct Hor as [->|[-> Htr]]; auto.
  - split.
    + intros cid t Hin. by apply (elem_of_calls_of _ _ _ Hidle) in Hin.
    + intros id t Ht Hne. rewrite Hst. eauto.
Qed.

(* ===================================================================== *)
(** ** Unrecognized native messages *)
(* ===================================================================== *)

Lemma block_event_strip content :
  flat_map block_event (filter (fun b => recognized_block b = true) content)
  = flat_map block_event content.
Proof.
  induction content as [|b content IH]; [done|].
  destruct b; simpl; rewrite ?filter_cons_True by done; simpl; by rewrite ?IH.
Qed.

Lemma message_events_strip msgs :
  flat_map message_events (strip_unrecognized msgs) = flat_map message_events msgs.
Proof.
  induction msgs as [|msg msgs IH]; [done|].
  destruct msg; simpl; rewrite ?IH, ?block_event_strip; reflexivity.
Qed.

Lemma stream_events_strip env body sid :
  stream_events (with_messages env (strip_unrecognized (query_messages (agent env)))) body sid
  = stream_events env body sid.
Proof.
  unfold stream_events, stream_agent_response. simpl.
  pattern (flat_map message_events (strip_unrecognized (query_messages (agent env)))).
  by rewrite message_events_strip.
Qed.

Lemma trace_no_warning env body st :
  forallb (fun o => negb (is_warning o)) (trace env body st) = true.
Proof.
  assert (forall (P : Obs Frame -> bool) out,
            (forall o, P o = true -> negb (is_warning o) = true) ->
            forallb P out = true -> forallb (fun o => negb (is_warning o)) out = true) as Hmono.
  { intros P out HP. induction out as [|o out IH]; simpl; [done|].
    intros [Ho Hout]%andb_prop. rewrite (HP o Ho). auto. }
  destruct (serve_cases env body st) as [(cid & sid & st1 & out1 & H)|[_ Hidle]].
  - destruct (streaming_phase_inv _ _ _ _ _ _ _ H) as (Hobs & _).
    unfold trace. rewrite (serve_streaming_run _ _ _ _ _ _ _ H). cbn [snd].
    rewrite forallb_app. apply andb_true_intro; split.
    { by apply (Hmono resolve_obs); [intros [[]| |]|]. }
    assert (forallb (fun o => negb (is_warning o)) (snd (stream_events env body sid)) = true)
      as Hev.
    { apply (Hmono stream_obs); [by intros [[]| |]|]. apply stream_events_obs. }
    pose proof (script_obs env body cid (turn_acc (agent env)) st1) as Hso.
    apply (Hmono (save_obs cid (project_id body))) in Hso; [|by intros [[]| |]].
    cbn [forallb]. rewrite !forallb_app, Hev, Hso.
    match goal with
    | |- context [match ?r with inl _ => _ | inr _ => _ end] => by destruct r
    end.
  - by apply (Hmono idle_obs); [intros [[]| |]|].
Qed.

(** C7, as the code has it.  Native messages and content parts of a
    variant outside the normalization table are dropped without a trace:
    a request behaves exactly as it does on the message stream with all
    of them taken out (same result, same store, same frames, calls and
    log records, so no frame comes from them and nothing is raised on
    their account), and no request writes a log record at warning level. *)
Theorem unrecognized_dropped_silently env body st :
  serve env body st
  = serve (with_messages env (strip_unrecognized (query_messages (agent env)))) body st
  /\ List.filter is_warning (trace env body st) = [].
Proof.
  split.
  - unfold serve.
    change (invoke_agent (with_messages env _) body) with (invoke_agent env body).
    change ((invoke_agent env body ≫= ?f) st) with (eff_bind f (invoke_agent env body) st).
    unfold eff_bind.
    destruct (invoke_agent env body st) as [[[e|response] st1] out1]; [done|].
    destruct (body_iterator response) as [error msg|cid sid]; [done|].
    unfold run_generator, stream_and_store. rewrite stream_events_strip.
    reflexivity.
  - pose proof (trace_no_warning env body st) as H.
    induction (trace env body st) as [|o out IH]; simpl in *; [done|].
    apply andb_prop in H as [Ho Hout]. apply negb_true_iff in Ho. rewrite Ho. auto.
Qed.

(* ===================================================================== *)
(** ** Further properties: titles, the end marker *)
(* ===================================================================== *)

Lemma slice_to_short n s : String.length s <= n -> slice_to n s = s.
Proof.
  unfold slice_to. revert n. induction s as [|c s IH]; intros n; simpl.
  - by destruct n.
  - destruct n as [|n]; [lia|]. intros H. simpl. f_equal. apply IH. lia.
Qed.

Lemma length_slice_to n s : n <= String.length s -> String.length (slice_to n s) = n.
Proof.
  unfold slice_to. revert n. induction s as [|c s IH]; intros n; simpl.
  - destruct n; simpl; lia.
  - destruct n as [|n]; [done|]. intros H. simpl. f_equal. apply IH. lia.
Qed.

Lemma length_append s t : String.length (s +:+ t) = String.length s + String.length t.
Proof.
  induction s as [|c s IH]; [done|].
  change (S (String.length (s +:+ t)) = S (String.length s + String.length t)).
  by rewrite IH.
Qed.

(** Title derivation.  A request with no conversation id, on a project
    that resolves, creates a conversation whose title is the one the
    spec describes; a message of at most 50 characters is its own title,
    a longer one gives a title of 53 characters. *)
Theorem title_derivation env body st :
  is_Some (find_project st (get_current_user env) (project_id body)) ->
  truthy_opt (conversation_id body) = false ->
  List.filter is_conversation_create (calls env body st)
  = [CConversationCreate (spec_title (message body))]
  /\ (String.length (message body) <= 50 -> spec_title (message body) = message body)
  /\ (50 < String.length (message body) ->
      String.length (spec_title (message body)) = 53).
Proof.
  intros [p Hp] Hc.
  assert (slice_to 50 (message body)
          +:+ (if Nat.ltb 50 (String.length (message body)) then "..." else "")
          = spec_title (message body)) as Htitle.
  { unfold spec_title.
    destruct (Nat.leb_spec (String.length (message body)) 50) as [Hle|Hlt].
    - assert (Nat.ltb 50 (String.length (message body)) = false) as ->
        by (apply Nat.ltb_ge; lia).
      rewrite slice_to_short by done. apply append_empty_r.
    - by assert (Nat.ltb 50 (String.length (message body)) = true) as ->
        by (apply Nat.ltb_lt; lia). }
  assert (exists r st1 out1,
            invoke_agent env body st = (r, st1, out1)
            /\ List.filter is_conversation_create (calls_of out1)
               = [CConversationCreate (spec_title (message body))]
            /\ match r with
               | inl _ => True
               | inr response => exists cid sid, body_iterator response = StreamAndStore cid sid
               end) as (r & st1 & out1 & Hinv & Hcreate & Hr).
  { unfold invoke_agent. run_unfold. rewrite Hp, Hc. simpl. rewrite Htitle.
    destruct (conversations st !! generate_uuid env); simpl; eexists _, _, _;
      (split; [reflexivity|]); split; eauto. }
  split; [|split].
  - destruct r as [e|response].
    + unfold calls, trace, serve.
      change ((invoke_agent env body ≫= ?f) st) with (eff_bind f (invoke_agent env body) st).
      unfold eff_bind. by rewrite Hinv.
    + destruct Hr as (cid & sid & Hbody).
      assert (streaming_phase env body st cid sid st1 out1) as H by (eexists; eauto).
      rewrite (calls_streaming _ _ _ _ _ _ _ H), !List.filter_app, Hcreate.
      rewrite (filter_calls_nil _ _ _ (stream_events_obs env body sid)) by (by intros []).
      rewrite (filter_calls_nil _ _ _ (script_obs env body cid _ st1)) by (by intros []).
      reflexivity.
  - intros Hle. unfold spec_title.
    by assert (Nat.leb (String.length (message body)) 50 = true) as ->
      by (apply Nat.leb_le; lia).
  - intros Hlt. unfold spec_title.
    assert (Nat.leb (String.length (message body)) 50 = false) as ->
      by (apply Nat.leb_gt; lia).
    rewrite length_append, length_slice_to by lia. reflexivity.
Qed.

Lemma invoke_agent_obs env body st :
  forallb resolve_obs (snd (invoke_agent env body st)) = true.
Proof.
  unfold invoke_agent, create_error_stream. run_unfold.
  destruct (find_project st _ _); simpl; [|done].
  destruct (negb (truthy_opt (conversation_id body))); simpl.
  - by destruct (conversations st !! generate_uuid env).
  - by destruct (find_conversation st _ _).
Qed.

Lemma loop_frames_not_done env body sid :
  Done ∉ frames_of (snd (stream_events env body sid)).
Proof.
  pose proof (frames_of_forallb body_frame _ _ (stream_events_obs env body sid)
                ltac:(done)) as Hb.
  revert Hb. generalize (frames_of (snd (stream_events env body sid))). intros fs Hb Hin.
  induction fs as [|f fs IH]; [by apply elem_of_nil in Hin|].
  simpl in Hb. apply andb_prop in Hb as [Hf Hfs].
  apply elem_of_cons in Hin as [<-|?]; [done|auto].
Qed.

(** Every request that the handler answers ends its frames with exactly
    one end marker. *)
Theorem one_terminal_sentinel env body st :
  fst (fst (serve env body st)) = inr tt ->
  exists pre, frames env body st = pre ++ [Done] /\ (Done ∉ pre).
Proof.
  pose proof (invoke_agent_obs env body st) as Hobs.
  destruct (invoke_agent env body st) as [[[e|response] st1] out1] eqn:Hinv.
  - unfold serve.
    change ((invoke_agent env body ≫= ?f) st) with (eff_bind f (invoke_agent env body) st).
    unfold eff_bind. rewrite Hinv. discriminate.
  - intros _. destruct (body_iterator response) as [error msg|cid sid] eqn:Hbody.
    + exists [Sse [("type", VStr "error"); ("error", VStr error); ("message", VStr msg)]].
      split.
      * unfold frames, trace, serve.
        change ((invoke_agent env body ≫= ?f) st)
          with (eff_bind f (invoke_agent env body) st).
        unfold eff_bind. rewrite Hinv, Hbody. simpl in *.
        by rewrite frames_of_app, (frames_of_nil _ _ Hobs).
      * intros Hin. apply list_elem_of_singleton in Hin. discriminate Hin.
    + assert (streaming_phase env body st cid sid st1 out1) as H by (eexists; eauto).
      exists (created_frame cid :: frames_of (snd (stream_events env body sid))
                ++ [completed_frame (turn_failed (agent env))]).
      split.
      * rewrite (frames_streaming _ _ _ _ _ _ _ H). simpl. by rewrite <- app_assoc.
      * intros [?|[Hin|Hin]%elem_of_app]%elem_of_cons; [done| |].
        -- by apply loop_frames_not_done in Hin.
        -- apply list_elem_of_singleton in Hin. discriminate Hin.
Qed.

(* ===================================================================== *)
(** ** The properties at work on concrete requests *)
(* ===================================================================== *)

(** C1 fails as stated: an init message offers the token sess-init, the
    only result message carries no token, so no result token is
    observed; the stored token is not sess-init but the one stored
    before the turn. *)
Lemma init_token_lost_to_empty_result :
  init_token init_message = VStr "sess-init"
  /\ query_messages (agent (sample_env [init_message; hello_message; result_message VNone]
                              None no_fault))
     = [init_message; hello_message; result_message VNone]
  /\ stored_token
       (final_store (sample_env [init_message; hello_message; result_message VNone]
                       None no_fault) resume_request sample_store) "conv-1"
     = Some (VStr "sess-old")
  /\ stored_token
       (final_store (sample_env [init_message; hello_message; result_message VNone]
                       None no_fault) resume_request sample_store) "conv-1"
     <> Some (VStr "sess-init").
Proof.
  split; [reflexivity|]. split; [reflexivity|]. split; [vm_compute; reflexivity|].
  intros H. vm_compute in H. discriminate H.
Qed.

(** C3 fails as stated, twice.  With text accumulated and the write of
    the user message raising, no assistant-role write is issued and no
    assistant-role row is stored.  With no text and the runtime raising
    an exception whose message is empty, an error occurred (the
    stream.completed frame says so) and no assistant-role write is
    issued either. *)
Lemma assistant_message_not_saved :
  (transcript_of (delivered (agent (sample_env [hello_message] None user_write_fails)))
   = "hello"
   /\ List.filter (is_add_message "assistant")
        (calls (sample_env [hello_message] None user_write_fails) resume_request sample_store)
      = []
   /\ List.filter (has_role "assistant")
        (messages (final_store (sample_env [hello_message] None user_write_fails)
                     resume_request sample_store))
      = [])
  /\ (transcript_of (delivered (agent (sample_env [] (Some (Exception "")) no_fault))) = ""
      /\ turn_error (agent (sample_env [] (Some (Exception "")) no_fault))
         = Some (Exception "")
      /\ frames (sample_env [] (Some (Exception "")) no_fault) resume_request sample_store
         = [created_frame "conv-1";
            Sse [("type", VStr "error"); ("error", VStr "")];
            completed_frame true; Done]
      /\ List.filter (is_add_message "assistant")
           (calls (sample_env [] (Some (Exception "")) no_fault) resume_request sample_store)
         = []).
Proof. repeat split; vm_compute; reflexivity. Qed.

(** C7 fails as stated: a message of an unknown variant is delivered and
    dropped, no frame comes from it, and no log record at warning level
    is written; the records of the request are two at info level from
    the handler and the service, and one at info level after saving. *)
Lemma unrecognized_message_no_warning :
  delivered (agent (sample_env [Sdk.OtherMessage] None no_fault)) = [Sdk.OtherMessage]
  /\ frames (sample_env [Sdk.OtherMessage] None no_fault) resume_request sample_store
     = [created_frame "conv-1"; completed_frame false; Done]
  /\ List.filter is_warning
       (trace (sample_env [Sdk.OtherMessage] None no_fault) resume_request sample_store)
     = []
  /\ omap (fun o => match o with Log level _ => Some level | _ => None end)
       (trace (sample_env [Sdk.OtherMessage] None no_fault) resume_request sample_store)
     = [INFO; INFO; INFO].
Proof. repeat split; vm_compute; reflexivity. Qed.

(** C8 fails as stated: the request reaches the streaming phase, the
    write of the user message raises, and the backup collaborator is
    never signalled, though the final pair of frames goes out. *)
Lemma no_backup_signal_when_save_fails :
  streaming_phase (sample_env [hello_message] None user_write_fails) resume_request
    sample_store "conv-1" (VStr "sess-old") sample_store resume_prefix
  /\ List.filter is_mark_for_backup
       (calls (sample_env [hello_message] None user_write_fails) resume_request sample_store)
     = []
  /\ frames (sample_env [hello_message] None user_write_fails) resume_request sample_store
     = [created_frame "conv-1"; Sse [("type", VStr "text"); ("text", VStr "hello")];
        completed_frame false; Done].
Proof.
  split; [eexists; split; [vm_compute; reflexivity|reflexivity]|].
  split; vm_compute; reflexivity.
Qed.


(** C6 fails as stated: the request reaches the streaming phase and its
    body runs to the end, the one write of the user message is issued
    and raises, and no user-role message is stored. *)
Lemma user_message_not_persisted :
  streaming_phase (sample_env [hello_message] None user_write_fails) resume_request
    sample_store "conv-1" (VStr "sess-old") sample_store resume_prefix
  /\ List.filter (is_add_message "user")
       (calls (sample_env [hello_message] None user_write_fails) resume_request sample_store)
     = [CAddMessage "conv-1" "user" "list my tables" false]
  /\ List.filter (has_role "user")
       (messages (final_store (sample_env [hello_message] None user_write_fails)
                    resume_request sample_store))
     = []
  /\ frames (sample_env [hello_message] None user_write_fails) resume_request sample_store
     = [created_frame "conv-1"; Sse [("type", VStr "text"); ("text", VStr "hello")];
        completed_frame false; Done].
Proof.
  split; [eexists; split; [vm_compute; reflexivity|reflexivity]|].
  repeat split; vm_compute; reflexivity.
Qed.

(** The handler returns the streaming response: by evaluation. *)
Ltac streams := eexists; split; [vm_compute; reflexivity|reflexivity].

(** [token_resolution] on two turns: init token, text, then a result
    token; and text, then an init token with no result message. *)
Lemma token_resolution_witness :
  (stored_token
     (final_store (sample_env [init_message; hello_message; result_message (VStr "sess-result")]
                     None no_fault) resume_request sample_store) "conv-1"
   = Some (VStr "sess-result")
   /\ List.filter is_update_session_id
        (calls (sample_env [init_message; hello_message; result_message (VStr "sess-result")]
                  None no_fault) resume_request sample_store)
      = [CUpdateSessionId "conv-1" (VStr "sess-result")])
  /\ (stored_token
        (final_store (sample_env [hello_message; init_message] None no_fault)
           resume_request sample_store) "conv-1"
      = Some (VStr "sess-init")
      /\ List.filter is_update_session_id
           (calls (sample_env [hello_message; init_message] None no_fault)
              resume_request sample_store)
         = [CUpdateSessionId "conv-1" (VStr "sess-init")]).
Proof.
  split.
  - apply (proj1 (token_resolution
                    (sample_env [init_message; hello_message; result_message (VStr "sess-result")]
                       None no_fault)
                    resume_request sample_store "conv-1" (VStr "sess-old") sample_store
                    resume_prefix ltac:(streams) eq_refl
                    (fun _ _ _ => eq_refl) (fun _ => eq_refl))
             [init_message; hello_message] [] (VStr "sess-result")
             (VInt 1200) VNone (VBool false) (VInt 1));
      reflexivity.
  - apply (proj2 (token_resolution
                    (sample_env [hello_message; init_message] None no_fault)
                    resume_request sample_store "conv-1" (VStr "sess-old") sample_store
                    resume_prefix ltac:(streams) eq_refl
                    (fun _ _ _ => eq_refl) (fun _ => eq_refl))
             [hello_message] [] (VStr "init") [("session_id", VStr "sess-init")]);
      reflexivity.
Defined.


(** [assistant_message_rule] on a turn in which the runtime raises
    before any text. *)
Lemma assistant_message_rule_witness :
  List.filter (is_add_message "assistant")
    (calls (sample_env [] (Some (Exception "boom")) no_fault) resume_request sample_store)
  = [CAddMessage "conv-1" "assistant" ("Error: " +:+ "boom") true].
Proof.
  apply (proj1 (proj2 (assistant_message_rule
                         (sample_env [] (Some (Exception "boom")) no_fault)
                         resume_request sample_store "conv-1" (VStr "sess-old") sample_store
                         resume_prefix ltac:(streams) eq_refl))
           (Exception "boom")).
  - reflexivity.
  - reflexivity.
  - discriminate.
Defined.

(** [final_pair] on a turn in which the runtime raises and the write
    of the user message raises as well. *)
Lemma final_pair_witness :
  fst (fst (serve (sample_env [hello_message] (Some (Exception "boom")) user_write_fails)
              resume_request sample_store)) = inr tt
  /\ exists pre,
       frames (sample_env [hello_message] (Some (Exception "boom")) user_write_fails)
         resume_request sample_store
       = pre ++ [completed_frame
                   (turn_failed (agent (sample_env [hello_message] (Some (Exception "boom"))
                                          user_write_fails)));
                 Done]
       /\ (Done ∉ pre)
       /\ List.filter (is_frame "stream.completed") pre = [].
Proof.
  apply (final_pair (sample_env [hello_message] (Some (Exception "boom")) user_write_fails)
           resume_request sample_store "conv-1" (VStr "sess-old") sample_store resume_prefix).
  streams.
Defined.

(** [created_frame_first] on a first turn, which creates the
    conversation. *)
Lemma created_frame_first_witness :
  (exists rest,
     trace (sample_env [hello_message] None no_fault) fresh_request sample_store
     = fresh_prefix (sample_env [hello_message] None no_fault)
       ++ Yield (created_frame "conv-2") :: rest)
  /\ frames_of (fresh_prefix (sample_env [hello_message] None no_fault)) = []
  /\ List.filter is_runtime_call
       (calls_of (fresh_prefix (sample_env [hello_message] None no_fault))) = []
  /\ is_Some (conversations (fresh_store (sample_env [hello_message] None no_fault))
                !! "conv-2")
  /\ (truthy_opt (conversation_id fresh_request) = true ->
      conversation_id fresh_request = Some "conv-2")
  /\ (truthy_opt (conversation_id fresh_request) = false ->
      "conv-2" = generate_uuid (sample_env [hello_message] None no_fault)
      /\ conversations sample_store !! "conv-2" = None
      /\ conversations (fresh_store (sample_env [hello_message] None no_fault)) !! "conv-2"
         = Some (new_conversation (sample_env [hello_message] None no_fault) fresh_request)).
Proof.
  apply (created_frame_first (sample_env [hello_message] None no_fault) fresh_request
           sample_store "conv-2" VNone).
  eexists. split; [vm_compute; reflexivity|reflexivity].
Defined.

(** [one_user_message] on a turn in which the runtime raises. *)
Lemma one_user_message_witness :
  List.filter (is_add_message "user")
    (calls (sample_env [] (Some (Exception "boom")) no_fault) resume_request sample_store)
  = [CAddMessage "conv-1" "user" (message resume_request) false]
  /\ (storage_fault (sample_env [] (Some (Exception "boom")) no_fault)
        (CAddMessage "conv-1" "user" (message resume_request) false) = None ->
      List.filter (has_role "user")
        (messages (final_store (sample_env [] (Some (Exception "boom")) no_fault)
                     resume_request sample_store))
      = List.filter (has_role "user") (messages sample_store)
        ++ [{| m_conversation_id := "conv-1"; m_role := "user";
               m_content := message resume_request; m_is_error := false |}])
  /\ (forall e,
        storage_fault (sample_env [] (Some (Exception "boom")) no_fault)
          (CAddMessage "conv-1" "user" (message resume_request) false) = Some e ->
        final_store (sample_env [] (Some (Exception "boom")) no_fault)
          resume_request sample_store = sample_store
        /\ messages (final_store (sample_env [] (Some (Exception "boom")) no_fault)
                       resume_request sample_store)
           = messages sample_store).
Proof.
  apply (one_user_message (sample_env [] (Some (Exception "boom")) no_fault) resume_request
           sample_store "conv-1" (VStr "sess-old") sample_store resume_prefix).
  streams.
Defined.

(** [backup_signal_after_save] on a turn in which the runtime raises
    and every write goes through. *)
Lemma backup_signal_after_save_witness :
  exists pre,
    trace (sample_env [] (Some (Exception "boom")) no_fault) resume_request sample_store
    = pre ++ [Called (CMarkForBackup (project_id resume_request));
              Yield (completed_frame
                       (turn_failed (agent (sample_env [] (Some (Exception "boom")) no_fault))));
              Yield Done]
    /\ List.filter is_mark_for_backup (calls_of pre) = [].
Proof.
  apply (proj1 (backup_signal_after_save
                  (sample_env [] (Some (Exception "boom")) no_fault) resume_request
                  sample_store "conv-1" (VStr "sess-old") sample_store resume_prefix
                  ltac:(streams))).
  intros c _ _. reflexivity.
Defined.

(** [result_without_token_discards] on a turn whose init message
    offers a token and whose result message carries none. *)
Lemma result_without_token_discards_witness :
  truthy (new_session_id
            (fst (stream_events
                    (sample_env [init_message; hello_message; result_message VNone]
                       None no_fault) resume_request (VStr "sess-old")))) = false
  /\ List.filter is_update_session_id
       (calls (sample_env [init_message; hello_message; result_message VNone] None no_fault)
          resume_request sample_store) = []
  /\ (forall id,
        stored_token
          (final_store (sample_env [init_message; hello_message; result_message VNone]
                          None no_fault) resume_request sample_store) id
        = stored_token sample_store id)
  /\ stored_token
       (final_store (sample_env [init_message; hello_message; result_message VNone]
                       None no_fault) resume_request sample_store) "conv-1"
     = Some (VStr "sess-old").
Proof.
  apply (result_without_token_discards
           (sample_env [init_message; hello_message; result_message VNone] None no_fault)
           resume_request sample_store "conv-1" (VStr "sess-old") sample_store resume_prefix
           [init_message; hello_message] VNone (VInt 1200) VNone (VBool false) (VInt 1)).
  - streams.
  - reflexivity.
  - reflexivity.
Defined.

(** [title_derivation] on a first turn with a short message. *)
Lemma title_derivation_witness :
  List.filter is_conversation_create
    (calls (sample_env [hello_message] None no_fault) fresh_request sample_store)
  = [CConversationCreate (spec_title (message fresh_request))]
  /\ (String.length (message fresh_request) <= 50 ->
      spec_title (message fresh_request) = message fresh_request)
  /\ (50 < String.length (message fresh_request) ->
      String.length (spec_title (message fresh_request)) = 53).
Proof.
  apply (title_derivation (sample_env [hello_message] None no_fault) fresh_request
           sample_store).
  - vm_compute. eauto.
  - reflexivity.
Defined.

(** [one_terminal_sentinel] on a request for an unknown project. *)
Lemma one_terminal_sentinel_witness :
  exists pre,
    frames (sample_env [hello_message] None no_fault) stray_request sample_store
    = pre ++ [Done] /\ (Done ∉ pre).
Proof.
  apply (one_terminal_sentinel (sample_env [hello_message] None no_fault) stray_request
           sample_store).
  vm_compute. reflexivity.
Defined.

(* ===================================================================== *)
(** ** The runtime call *)
(* ===================================================================== *)

Lemma calls_of_yields {Y} (ys : list Y) : calls_of (map Yield ys) = [].
Proof. induction ys as [|y ys IH]; [done|]. exact IH. Qed.

Lemma yields_of_yields {Y} (ys : list Y) : yields_of (map Yield ys) = ys.
Proof. induction ys as [|y ys IH]; [done|]. simpl. by rewrite IH. Qed.

Lemma yields_of_app {Y} (l1 l2 : list (Obs Y)) :
  yields_of (l1 ++ l2) = yields_of l1 ++ yields_of l2.
Proof. apply omap_app. Qed.

Lemma yields_of_quiet {Y} (pre : list (Obs Y)) :
  forallb quiet pre = true -> yields_of pre = [].
Proof.
  induction pre as [|o pre IH]; [done|]. simpl.
  intros [Ho Hpre]%andb_prop. destruct o; try done; simpl; auto.
Qed.

Lemma service_calls a pid msg sid cl dir cfg sp :
  ensure_project_directory a = inr dir ->
  get_databricks_mcp_config a = inr cfg ->
  get_system_prompt a = inr sp ->
  calls_of (snd (stream_agent_response a pid msg sid cl tt))
  = [CEnsureProjectDirectory pid; CGetMcpConfig]
    ++ (if truthy cfg then [CGetMcpTools] else [])
    ++ [CGetSystemPrompt cl;
        CQuery msg
          {| cwd := dir;
             allowed_tools :=
               BUILTIN_TOOLS ++ (if truthy cfg then get_databricks_mcp_tools a else []);
             permission_mode := "acceptEdits";
             resume := sid;
             mcp_servers := cfg;
             system_prompt := sp |}].
Proof.
  intros Hdir Hcfg Hsp.
  unfold stream_agent_response, get_project_directory. eff_unfold.
  rewrite Hdir, Hcfg, Hsp.
  destruct (truthy sid), (truthy cfg); simpl;
    try destruct (get_databricks_mcp_tools a); simpl;
    rewrite yield_all_run; simpl;
    destruct (query_raises a); simpl;
    rewrite ?app_nil_r, ?calls_of_app, ?calls_of_yields; reflexivity.
Qed.

(** The calls of the service, in order.  When the collaborators called
    before the runtime do not raise, [stream_agent_response] makes these
    calls and no other: the project directory, the MCP configuration,
    tool discovery (only when a configuration is present), the system
    prompt for the given cluster, and then the runtime, once: with the
    message as prompt, the project directory as working directory, edits
    auto-accepted, the given session id as resumption token, and as
    allowed tools the built-in ones followed by the discovered ones.
    The shell tool is not built in: the runtime is allowed [Bash] only
    if tool discovery returns it. *)
Theorem query_options a pid msg sid cl dir cfg sp :
  ensure_project_directory a = inr dir ->
  get_databricks_mcp_config a = inr cfg ->
  get_system_prompt a = inr sp ->
  calls_of (snd (stream_agent_response a pid msg sid cl tt))
  = [CEnsureProjectDirectory pid; CGetMcpConfig]
    ++ (if truthy cfg then [CGetMcpTools] else [])
    ++ [CGetSystemPrompt cl;
        CQuery msg
          {| cwd := dir;
             allowed_tools :=
               BUILTIN_TOOLS ++ (if truthy cfg then get_databricks_mcp_tools a else []);
             permission_mode := "acceptEdits";
             resume := sid;
             mcp_servers := cfg;
             system_prompt := sp |}]
  /\ forall prompt options,
       CQuery prompt options ∈ calls_of (snd (stream_agent_response a pid msg sid cl tt)) ->
       "Bash" ∈ allowed_tools options -> "Bash" ∈ get_databricks_mcp_tools a.
Proof.
  intros Hdir Hcfg Hsp.
  rewrite (service_calls a pid msg sid cl dir cfg sp Hdir Hcfg Hsp).
  split; [done|]. intros prompt options Hin.
  assert (options
          = {| cwd := dir;
               allowed_tools :=
                 BUILTIN_TOOLS ++ (if truthy cfg then get_databricks_mcp_tools a else []);
               permission_mode := "acceptEdits";
               resume := sid;
               mcp_servers := cfg;
               system_prompt := sp |}) as ->.
  { destruct (truthy cfg); simpl in Hin;
      repeat (apply elem_of_cons in Hin as [Hin|Hin]; [by simplify_eq|]);
      by apply elem_of_nil in Hin. }
  cbn [allowed_tools]. intros [Hb|Hb]%elem_of_app.
  - unfold BUILTIN_TOOLS in Hb.
    repeat (apply elem_of_cons in Hb as [Hb|Hb]; [discriminate|]).
    by apply elem_of_nil in Hb.
  - destruct (truthy cfg); [done|]. by apply elem_of_nil in Hb.
Qed.

Lemma service_query_calls a pid msg sid cl :
  match preamble_raises a with
  | Some _ =>
      List.filter is_query (calls_of (snd (stream_agent_response a pid msg sid cl tt))) = []
  | None =>
      exists options,
        List.filter is_query (calls_of (snd (stream_agent_response a pid msg sid cl tt)))
        = [CQuery msg options]
        /\ resume options = sid
  end.
Proof.
  unfold preamble_raises.
  destruct (ensure_project_directory a) as [e1|dir] eqn:Hdir.
  { unfold stream_agent_response, get_project_directory. eff_unfold. by rewrite Hdir. }
  destruct (get_databricks_mcp_config a) as [e2|cfg] eqn:Hcfg.
  { unfold stream_agent_response, get_project_directory. eff_unfold.
    rewrite Hdir, Hcfg. by destruct (truthy sid). }
  destruct (get_system_prompt a) as [e3|sp] eqn:Hsp.
  { unfold stream_agent_response, get_project_directory. eff_unfold.
    rewrite Hdir, Hcfg, Hsp.
    destruct (truthy sid), (truthy cfg); simpl;
      try destruct (get_databricks_mcp_tools a); reflexivity. }
  rewrite (service_calls a pid msg sid cl dir cfg sp Hdir Hcfg Hsp).
  destruct (truthy cfg); eexists; split; reflexivity.
Qed.

Lemma consume_calls steps acc :
  snd (consume acc steps) = None ->
  calls_of (snd (fst (consume acc steps))) = calls_of steps.
Proof.
  revert acc. induction steps as [|o steps IH]; intros acc; simpl; [done|].
  destruct o as [level msg|c|event].
  - specialize (IH acc). destruct (consume acc steps) as [[??]?]. simpl in *. auto.
  - specialize (IH acc). destruct (consume acc steps) as [[??]?]. simpl in *.
    intros H. by rewrite IH.
  - destruct (on_event acc event) as [e|[acc1 fs]]; [discriminate|].
    specialize (IH acc1). destruct (consume acc1 steps) as [[??]?]. simpl in *.
    intros H. rewrite calls_of_app, calls_of_yields. auto.
Qed.

(** The loop body raises on no event that the service yields. *)
Lemma service_steps_consumed a pid msg sid cl :
  snd (consume acc0 (snd (stream_agent_response a pid msg sid cl tt))) = None.
Proof.
  destruct (preamble_raises a) as [e|] eqn:Hpre.
  - destruct (stream_agent_response_raises a pid msg sid cl e Hpre) as (pre & -> & Hq & _).
    simpl. rewrite <- (app_nil_r pre), consume_app_quiet by done. reflexivity.
  - destruct (stream_agent_response_ok a pid msg sid cl Hpre)
      as (pre & options & -> & Hq & _).
    cbn [snd]. rewrite consume_app_quiet by done. simpl.
    destruct (consume_messages (query_messages a) acc0 (query_tail a)) as [o1 ->].
    unfold query_tail. destruct (query_raises a); reflexivity.
Qed.

Lemma stream_events_calls env body sid :
  calls_of (snd (stream_events env body sid))
  = calls_of (snd (stream_agent_response (agent env) (project_id body) (message body)
                     sid (cluster_id body) tt)).
Proof.
  unfold stream_events.
  pose proof (service_steps_consumed (agent env) (project_id body) (message body) sid
                (cluster_id body)) as Hnone.
  destruct (stream_agent_response _ _ _ _ _ tt) as [[r []] steps]. cbn [snd] in *.
  pose proof (consume_calls steps acc0 Hnone) as Hcalls.
  destruct (consume acc0 steps) as [[acc out] raised]. cbn [fst snd] in *. subst raised.
  destruct r as [e|]; [|done].
  cbn [snd]. rewrite calls_of_app, Hcalls. apply app_nil_r.
Qed.

Lemma streaming_query_calls env body st cid sid st1 out1 :
  streaming_phase env body st cid sid st1 out1 ->
  List.filter is_query (calls env body st)
  = List.filter is_query
      (calls_of (snd (stream_agent_response (agent env) (project_id body)
                        (message body) sid (cluster_id body) tt))).
Proof.
  intros H.
  destruct (streaming_phase_inv _ _ _ _ _ _ _ H) as (Hobs & _).
  rewrite (calls_streaming _ _ _ _ _ _ _ H), !List.filter_app.
  rewrite (filter_calls_nil _ _ _ Hobs) by (by intros []).
  rewrite (filter_calls_nil _ _ _ (script_obs env body cid _ st1)) by (by intros []).
  by rewrite app_nil_r, stream_events_calls.
Qed.

Lemma streaming_query_call env body st cid sid st1 out1 :
  streaming_phase env body st cid sid st1 out1 ->
  preamble_raises (agent env) = None ->
  exists options,
    List.filter is_query (calls env body st) = [CQuery (message body) options]
    /\ resume options = sid.
Proof.
  intros H Hpre. rewrite (streaming_query_calls _ _ _ _ _ _ _ H).
  pose proof (service_query_calls (agent env) (project_id body) (message body) sid
                (cluster_id body)) as Hq.
  by rewrite Hpre in Hq.
Qed.

(** No request calls the runtime more than once, whatever the store,
    the collaborators and the runtime do. *)
Theorem runtime_called_at_most_once env body st :
  length (List.filter is_query (calls env body st)) <= 1.
Proof.
  destruct (serve_cases env body st) as [(cid & sid & st1 & out1 & H)|[_ Hidle]].
  - rewrite (streaming_query_calls _ _ _ _ _ _ _ H).
    pose proof (service_query_calls (agent env) (project_id body) (message body) sid
                  (cluster_id body)) as Hq.
    destruct (preamble_raises (agent env)).
    + rewrite Hq. simpl. lia.
    + destruct Hq as (options & -> & _). simpl. lia.
  - unfold calls. rewrite (filter_calls_nil _ _ _ Hidle) by (by intros []). simpl. lia.
Qed.

(** The turn resumes from the stored token.  A request that reaches the
    streaming phase, the collaborators called before the runtime not
    raising, calls the runtime exactly once: with the request's message
    as prompt and, as resumption token, the token the conversation has
    in the store when the handler returns (none for a conversation the
    request created). *)
Theorem runtime_resumes_stored_token env body st cid sid st1 out1 :
  streaming_phase env body st cid sid st1 out1 ->
  preamble_raises (agent env) = None ->
  exists options,
    List.filter is_query (calls env body st) = [CQuery (message body) options]
    /\ stored_token st1 cid = Some (resume options)
    /\ (truthy_opt (conversation_id body) = false -> resume options = VNone).
Proof.
  intros H Hpre.
  destruct (streaming_query_call _ _ _ _ _ _ _ H Hpre) as (options & Hq & Hres).
  exists options. split; [done|].
  destruct (streaming_phase_inv _ _ _ _ _ _ _ H) as (_ & (c & Hc & Hsid) & _ & _ & Hcase).
  split.
  - unfold stored_token. rewrite Hc. simpl. congruence.
  - intros Hnone. destruct Hcase as [(Hsome & Hne & _)|(_ & _ & -> & _)]; [|done].
    rewrite Hsome in Hnone. simpl in Hnone. apply negb_false_iff, String.eqb_eq in Hnone.
    done.
Qed.

(* ===================================================================== *)
(** ** The loop body, event by event *)
(* ===================================================================== *)

Lemma eq_str_true v s : eq_str v s = true -> v = VStr s.
Proof. destruct v; try discriminate. simpl. by intros ->%String.eqb_eq. Qed.

Lemma service_yields a pid msg sid cl :
  match preamble_raises a with
  | None =>
      fst (fst (stream_agent_response a pid msg sid cl tt)) = inr tt
      /\ yields_of (snd (stream_agent_response a pid msg sid cl tt))
         = flat_map message_events (query_messages a)
           ++ match query_raises a with
              | Some e => [error_event e]
              | None => []
              end
  | Some e =>
      fst (fst (stream_agent_response a pid msg sid cl tt)) = inl e
      /\ yields_of (snd (stream_agent_response a pid msg sid cl tt)) = []
  end.
Proof.
  destruct (preamble_raises a) as [e|] eqn:Hpre.
  - destruct (stream_agent_response_raises a pid msg sid cl e Hpre) as (pre & -> & Hq & _).
    split; [done|]. by apply yields_of_quiet.
  - destruct (stream_agent_response_ok a pid msg sid cl Hpre)
      as (pre & options & -> & Hq & _).
    split; [done|]. cbn [snd].
    rewrite yields_of_app, (yields_of_quiet _ Hq). simpl.
    rewrite yields_of_app, yields_of_yields. f_equal.
    unfold query_tail. by destruct (query_raises a).
Qed.

(** The loop body raises exactly on the ill-typed events. *)
Lemma on_event_inl acc event :
  (exists e, on_event acc event = inl e) <-> ill_typed acc event = true.
Proof.
  unfold on_event, ill_typed.
  destruct (eq_str (dict_get event "type" (VStr "")) "text") eqn:Ht.
  { apply eq_str_true in Ht. rewrite Ht. simpl. rewrite orb_false_r.
    destruct (dict_get event "text" (VStr "")); simpl; split;
      first [by intros [? ?]|discriminate|by eauto]. }
  simpl.
  destruct (eq_str (dict_get event "type" (VStr "")) "thinking") eqn:H2;
    [apply eq_str_true in H2; rewrite H2; simpl; split; [by intros [? ?]|discriminate]|].
  destruct (eq_str (dict_get event "type" (VStr "")) "tool_use") eqn:H3;
    [apply eq_str_true in H3; rewrite H3; simpl; split; [by intros [? ?]|discriminate]|].
  destruct (eq_str (dict_get event "type" (VStr "")) "tool_result") eqn:H4;
    [apply eq_str_true in H4; rewrite H4; simpl; split; [by intros [? ?]|discriminate]|].
  destruct (eq_str (dict_get event "type" (VStr "")) "result") eqn:H5;
    [apply eq_str_true in H5; rewrite H5; simpl; split; [by intros [? ?]|discriminate]|].
  destruct (eq_str (dict_get event "type" (VStr "")) "error") eqn:H6;
    [apply eq_str_true in H6; rewrite H6; simpl; split; [by intros [? ?]|discriminate]|].
  destruct (eq_str (dict_get event "type" (VStr "")) "system");
    [|split; [by intros [? ?]|discriminate]].
  simpl.
  destruct (eq_str (dict_get event "subtype" VNone) "init"); simpl;
    [|split; [by intros [? ?]|discriminate]].
  destruct (truthy (dict_get event "data" VNone)) eqn:Hd; simpl;
    [|split; [by intros [? ?]|discriminate]].
  destruct (truthy (new_session_id acc)); simpl;
    [split; [by intros [? ?]|discriminate]|].
  destruct (dict_get event "data" VNone); simpl; split;
    first [by intros [? ?]|discriminate|by eauto].
Qed.

(** What the loop body does with one event.  When it does not raise, an
    event whose type has a branch goes out as exactly one frame of the
    same type; any other event (unknown type, no type, a type that is
    not a string) yields no frame and leaves the locals as they were. *)
Theorem one_frame_per_handled_event acc event acc' fs :
  on_event acc event = inr (acc', fs) ->
  if has_type handled_types event (VStr "")
  then exists data,
         fs = [Sse data]
         /\ dict_get data "type" VNone = dict_get event "type" (VStr "")
  else fs = [] /\ acc' = acc.
Proof.
  unfold on_event, has_type, handled_types. cbn [existsb].
  destruct (eq_str (dict_get event "type" (VStr "")) "text") eqn:H1.
  { apply eq_str_true in H1. rewrite H1. simpl.
    destruct (dict_get event "text" (VStr "")); try discriminate.
    intros [= <- <-]. eauto. }
  destruct (eq_str (dict_get event "type" (VStr "")) "thinking") eqn:H2.
  { apply eq_str_true in H2. rewrite H2. simpl. intros [= <- <-]. eauto. }
  destruct (eq_str (dict_get event "type" (VStr "")) "tool_use") eqn:H3.
  { apply eq_str_true in H3. rewrite H3. simpl. intros [= <- <-]. eauto. }
  destruct (eq_str (dict_get event "type" (VStr "")) "tool_result") eqn:H4.
  { apply eq_str_true in H4. rewrite H4. simpl. intros [= <- <-]. eauto. }
  destruct (eq_str (dict_get event "type" (VStr "")) "result") eqn:H5.
  { apply eq_str_true in H5. rewrite H5. simpl. intros [= <- <-]. eauto. }
  destruct (eq_str (dict_get event "type" (VStr "")) "error") eqn:H6.
  { apply eq_str_true in H6. rewrite H6. simpl. intros [= <- <-]. eauto. }
  destruct (eq_str (dict_get event "type" (VStr "")) "system") eqn:H7.
  { apply eq_str_true in H7. rewrite H7. simpl.
    destruct (_ && _ && _); [destruct (dict_get event "data" VNone); try discriminate|];
      intros [= <- <-]; eauto. }
  simpl. intros [= <- <-]. done.
Qed.

(** The service and the loop fit together.  Every event the service
    yields has one of its eight types, and on none of them does the
    loop body of [stream_and_store] raise, whatever the locals are: the
    [except] clause around the loop is reached only through an exception
    that leaves the service generator itself. *)
Theorem loop_accepts_service_events a pid msg sid cl :
  Forall (fun event =>
            has_type service_types event VNone = true
            /\ forall acc, exists acc' fs, on_event acc event = inr (acc', fs))
         (yields_of (snd (stream_agent_response a pid msg sid cl tt))).
Proof.
  assert (forall event, (forall acc, ill_typed acc event = false) ->
            forall acc, exists acc' fs, on_event acc event = inr (acc', fs)) as Hok.
  { intros event Hill acc. destruct (on_event acc event) as [e|[acc' fs]] eqn:Hev; [|eauto].
    assert (ill_typed acc event = true) as Ht by (apply on_event_inl; eauto).
    by rewrite Hill in Ht. }
  assert (forall b, Forall (fun event =>
            has_type service_types event VNone = true
            /\ forall acc, exists acc' fs, on_event acc event = inr (acc', fs))
            (block_event b)) as Hblock.
  { intros [text|thinking|id name input|tid content err|]; simpl;
      repeat constructor; apply Hok; intros acc; reflexivity. }
  assert (forall m, Forall (fun event =>
            has_type service_types event VNone = true
            /\ forall acc, exists acc' fs, on_event acc event = inr (acc', fs))
            (message_events m)) as Hmsg.
  { intros [content|s d c e n|subtype data| |ev s|]; simpl.
    - induction content as [|b content IH]; simpl; [constructor|].
      apply Forall_app; split; [apply Hblock|apply IH].
    - repeat constructor. apply Hok; intros acc; reflexivity.
    - repeat constructor. apply Hok; intros acc. unfold ill_typed. simpl.
      destruct data; simpl; by rewrite ?andb_false_r.
    - constructor.
    - repeat constructor. apply Hok; intros acc; reflexivity.
    - constructor. }
  pose proof (service_yields a pid msg sid cl) as Hy.
  destruct (preamble_raises a); destruct Hy as [_ ->]; [constructor|].
  apply Forall_app; split.
  - induction (query_messages a) as [|m msgs IH]; simpl; [constructor|].
    apply Forall_app; split; [apply Hmsg|apply IH].
  - destruct (query_raises a); repeat constructor.
    apply Hok; intros acc; reflexivity.
Qed.

(** A failure of the runtime is an event, not an exception.  Once the
    runtime is reached [stream_agent_response] never raises: it yields
    the events of the delivered messages in order and, when [query]
    raises, one closing error event that carries the exception's text.
    When a collaborator called before the runtime raises, the exception
    leaves the generator, nothing is yielded and the runtime is not
    called. *)
Theorem runtime_failure_is_an_event a pid msg sid cl :
  match preamble_raises a with
  | None =>
      fst (fst (stream_agent_response a pid msg sid cl tt)) = inr tt
      /\ yields_of (snd (stream_agent_response a pid msg sid cl tt))
         = flat_map message_events (query_messages a)
           ++ match query_raises a with
              | Some e => [error_event e]
              | None => []
              end
  | Some e =>
      fst (fst (stream_agent_response a pid msg sid cl tt)) = inl e
      /\ yields_of (snd (stream_agent_response a pid msg sid cl tt)) = []
      /\ List.filter is_query (calls_of (snd (stream_agent_response a pid msg sid cl tt))) = []
  end.
Proof.
  pose proof (service_yields a pid msg sid cl) as Hy.
  pose proof (service_query_calls a pid msg sid cl) as Hq.
  destruct (preamble_raises a); [|done].
  destruct Hy as [Hr Hy]. auto.
Qed.

(* ===================================================================== *)
(** ** The frames of a response *)
(* ===================================================================== *)

Lemma on_event_wire acc event acc' fs :
  on_event acc event = inr (acc', fs) -> forallb wire_frame fs = true.
Proof.
  unfold on_event. intros H.
  repeat case_match; simplify_eq; reflexivity.
Qed.

Lemma consume_frames (p : Frame -> bool) :
  (forall acc event acc' fs, on_event acc event = inr (acc', fs) -> forallb p fs = true) ->
  forall steps acc, forallb p (frames_of (snd (fst (consume acc steps)))) = true.
Proof.
  intros Hp steps. induction steps as [|o steps IH]; intros acc; simpl; [done|].
  destruct o as [level msg|c|event].
  - specialize (IH acc). by destruct (consume acc steps) as [[??]?].
  - specialize (IH acc). by destruct (consume acc steps) as [[??]?].
  - destruct (on_event acc event) as [e|[acc1 fs]] eqn:Hev; [done|].
    specialize (IH acc1). destruct (consume acc1 steps) as [[??]?]. cbn [fst snd] in *.
    rewrite frames_of_app, forallb_app, IH, andb_true_r.
    apply Hp in Hev. clear -Hev.
    induction fs as [|f fs IHf]; simpl in *; [done|].
    apply andb_prop in Hev as [-> ?]. auto.
Qed.

Lemma stream_events_wire env body sid :
  forallb wire_frame (frames_of (snd (stream_events env body sid))) = true.
Proof.
  unfold stream_events.
  destruct (stream_agent_response _ _ _ _ _ tt) as [[r []] steps].
  pose proof (consume_frames wire_frame on_event_wire steps acc0) as Hc.
  destruct (consume acc0 steps) as [[acc out] raised]. cbn [fst snd] in Hc.
  destruct raised as [e|]; [|destruct r as [e|]]; cbn [snd];
    rewrite ?frames_of_app, ?forallb_app, ?Hc; done.
Qed.

(** The frames of a request that does not reach the streaming phase:
    none when the handler raises, else the two of the error stream. *)
Lemma serve_frames_cases env body st :
  (exists cid sid st1 out1, streaming_phase env body st cid sid st1 out1)
  \/ frames env body st = []
  \/ exists error msg,
       frames env body st
       = [Sse [("type", VStr "error"); ("error", VStr error); ("message", VStr msg)]; Done].
Proof.
  unfold streaming_phase, frames, trace, serve.
  change ((invoke_agent env body ≫= λ response, run_generator env body (body_iterator response)) st)
    with (eff_bind (λ response, run_generator env body (body_iterator response))
            (invoke_agent env body) st).
  unfold eff_bind.
  pose proof (invoke_agent_obs env body st) as Hobs.
  destruct (invoke_agent env body st) as [[[e|response] st1] out1] eqn:Hinv.
  - right; left. cbn [snd] in *. by apply (frames_of_nil resolve_obs).
  - destruct (body_iterator response) as [error msg|cid sid] eqn:Hbody.
    + right; right. exists error, msg. cbn [snd] in *.
      unfold run_generator, error_generator. run_unfold. cbn [snd].
      rewrite frames_of_app, (frames_of_nil resolve_obs _ Hobs) by done. reflexivity.
    + left. eauto 10.
Qed.

(** The frame taxonomy is closed.  Every frame of every response body is
    the end marker or an event of one of nine types: the eight the
    handler's docstring lists, and [system].  In particular the raw
    [stream_event] events that the service yields for the runtime's
    streaming fragments are never forwarded to the client: the loop has
    no branch for them. *)
Theorem frame_types_are_closed env body st :
  forallb wire_frame (frames env body st) = true
  /\ forallb (fun f => negb (is_frame "stream_event" f)) (frames env body st) = true.
Proof.
  assert (forallb wire_frame (frames env body st) = true) as Hw.
  { destruct (serve_frames_cases env body st)
      as [(cid & sid & st1 & out1 & H)|[->|(error & msg & ->)]]; [|done..].
    rewrite (frames_streaming _ _ _ _ _ _ _ H). cbn [forallb].
    rewrite forallb_app, stream_events_wire. reflexivity. }
  split; [done|].
  revert Hw. generalize (frames env body st). intros fs.
  induction fs as [|f fs IH]; [done|]. cbn [forallb].
  intros [Hf Hfs]%andb_prop. rewrite (IH Hfs), andb_true_r.
  destruct f as [data|]; [|done]. unfold wire_frame, has_type, wire_types in Hf.
  cbn [existsb] in Hf. unfold is_frame.
  repeat (apply orb_prop in Hf as [Hf|Hf]; [apply eq_str_true in Hf; by rewrite Hf|]).
  discriminate.
Qed.

Lemma streamed_text_app fs1 fs2 :
  streamed_text (fs1 ++ fs2) = streamed_text fs1 +:+ streamed_text fs2.
Proof.
  induction fs1 as [|f fs1 IH]; [reflexivity|].
  change (frame_text f +:+ streamed_text (fs1 ++ fs2)
          = (frame_text f +:+ streamed_text fs1) +:+ streamed_text fs2).
  by rewrite IH, append_assoc.
Qed.

Lemma on_event_text acc event acc' fs :
  on_event acc event = inr (acc', fs) ->
  final_text acc' = final_text acc +:+ streamed_text fs.
Proof.
  unfold on_event. intros H.
  repeat case_match; simplify_eq; unfold streamed_text; simpl;
    rewrite ?append_empty_r; reflexivity.
Qed.

Lemma consume_text steps acc :
  final_text (fst (fst (consume acc steps)))
  = final_text acc +:+ streamed_text (frames_of (snd (fst (consume acc steps)))).
Proof.
  revert acc. induction steps as [|o steps IH]; intros acc; simpl.
  - by rewrite append_empty_r.
  - destruct o as [level msg|c|event].
    + specialize (IH acc). by destruct (consume acc steps) as [[??]?].
    + specialize (IH acc). by destruct (consume acc steps) as [[??]?].
    + destruct (on_event acc event) as [e|[acc1 fs]] eqn:Hev.
      * simpl. by rewrite append_empty_r.
      * specialize (IH acc1). destruct (consume acc1 steps) as [[??]?]. cbn [fst snd] in *.
        rewrite IH, (on_event_text _ _ _ _ Hev), frames_of_app, streamed_text_app.
        rewrite append_assoc. f_equal. f_equal.
        clear. induction fs as [|f fs IHf]; [done|]. simpl. by rewrite IHf.
Qed.

Lemma stream_events_text env body sid :
  streamed_text (frames_of (snd (stream_events env body sid)))
  = final_text (fst (stream_events env body sid)).
Proof.
  unfold stream_events.
  destruct (stream_agent_response _ _ _ _ _ tt) as [[r []] steps].
  pose proof (consume_text steps acc0) as Hc.
  destruct (consume acc0 steps) as [[acc out] raised]. cbn [fst snd] in Hc.
  change ("" +:+ ?s) with s in Hc.
  destruct raised as [e|]; [|destruct r as [e|]]; cbn [fst snd final_text];
    rewrite ?frames_of_app, ?streamed_text_app, Hc; try done;
    by rewrite append_empty_r.
Qed.

(** What is stored is what was streamed.  In a request that reaches the
    streaming phase, the text fields of the text frames, concatenated in
    order, are the text blocks the runtime delivered, concatenated in
    order: no fragment is lost, repeated or reordered on the way to the
    client, and no other frame contributes text.  When that text is not
    empty and the user-message write does not raise, it is also, to the
    letter, the content of the one assistant message written. *)
Theorem stored_text_is_streamed_text env body st cid sid st1 out1 :
  streaming_phase env body st cid sid st1 out1 ->
  streamed_text (frames env body st) = transcript_of (delivered (agent env))
  /\ (storage_fault env (CAddMessage cid "user" (message body) false) = None ->
      streamed_text (frames env body st) <> "" ->
      List.filter (is_add_message "assistant") (calls env body st)
      = [CAddMessage cid "assistant" (streamed_text (frames env body st))
           (turn_failed (agent env))]).
Proof.
  intros H.
  assert (streamed_text (frames env body st) = transcript_of (delivered (agent env))) as Ht.
  { rewrite (frames_streaming _ _ _ _ _ _ _ H).
    change (streamed_text (created_frame cid :: ?l)) with (streamed_text l).
    rewrite streamed_text_app, stream_events_text, stream_events_acc.
    apply append_empty_r. }
  split; [done|]. rewrite Ht. intros Hfault Hne.
  destruct (streaming_phase_inv _ _ _ _ _ _ _ H) as (Hobs & _).
  rewrite (calls_streaming _ _ _ _ _ _ _ H), !List.filter_app.
  rewrite (filter_calls_nil _ _ _ Hobs) by (by intros []).
  rewrite (filter_calls_nil _ _ _ (stream_events_obs env body sid)) by (by intros []).
  cbn [app]. rewrite script_assistant_call by done.
  unfold saves_assistant, assistant_call, assistant_content, turn_acc, turn_failed.
  cbn [final_text error_message].
  apply truthy_str in Hne. rewrite Hne. simpl. by destruct (turn_error (agent env)).
Qed.

(* ===================================================================== *)
(** ** What a request does to the store *)
(* ===================================================================== *)

Lemma streaming_conversation env body st cid sid st1 out1 :
  streaming_phase env body st cid sid st1 out1 ->
  projects st1 = projects st
  /\ exists c, conversations st1 !! cid = Some c
               /\ c_session_id c = sid /\ c_project_id c = project_id body.
Proof.
  intros (response & Hrun & Hbody). revert Hrun.
  unfold invoke_agent, create_error_stream. run_unfold.
  destruct (find_project st _ _) as [p|] eqn:Hp; simpl;
    [|intros; simplify_eq; simpl in *; discriminate].
  destruct (negb (truthy_opt (conversation_id body))); simpl.
  - destruct (conversations st !! generate_uuid env) eqn:Hnew; simpl;
      intros; simplify_eq; simpl in *; simplify_eq.
    split; [done|]. eexists. split; [apply lookup_insert_eq|done].
  - unfold find_conversation.
    destruct (conversations st !! default "" (conversation_id body)) as [conv|] eqn:Hconv;
      simpl;
      [destruct (String.eqb (c_project_id conv) (project_id body)) eqn:Hpid; simpl|];
      intros; simplify_eq; simpl in *; simplify_eq.
    split; [done|]. exists conv. by apply String.eqb_eq in Hpid.
Qed.

Lemma extends_refl s : extends s s.
Proof. split; [done|]. split; [done|]. eauto 6. Qed.

Lemma extends_trans s1 s2 s3 : extends s1 s2 -> extends s2 s3 -> extends s1 s3.
Proof.
  intros (Hp1 & Hm1 & Hc1) (Hp2 & Hm2 & Hc2). split; [congruence|].
  split; [by etrans|]. intros id c Hc.
  destruct (Hc1 _ _ Hc) as (c2 & Hc2' & ? & ? & ?).
  destruct (Hc2 _ _ Hc2') as (c3 & ? & ? & ? & ?).
  exists c3. split; [done|]. split; [congruence|]. split; congruence.
Qed.

Lemma extends_append row s : extends s (append_message row s).
Proof.
  split; [done|]. split; [by apply prefix_app_r|]. simpl. eauto 6.
Qed.

Lemma extends_alter f cid s :
  (forall c, c_id (f c) = c_id c /\ c_project_id (f c) = c_project_id c
             /\ c_title (f c) = c_title c) ->
  extends s (alter_conversation f cid s).
Proof.
  intros Hf. split; [done|]. split; [done|]. simpl. intros id c Hc.
  rewrite lookup_alter. case_decide; subst; rewrite Hc; simpl; [|by eauto 6].
  exists (f c). split; [done|]. apply Hf.
Qed.

Lemma script_extends env body cid acc st :
  extends st (snd (fst (run_script (storage_fault env) (save_tail body cid acc)
                          (script body cid acc) st))).
Proof.
  apply (run_script_preserves _ _ extends).
  - apply extends_refl.
  - apply extends_trans.
  - unfold script.
    destruct (saves_assistant acc), (truthy (new_session_id acc)),
      (truthy_opt (cluster_id body)); simpl;
      repeat (apply Forall_cons_2;
              [intros s; simpl; first [apply extends_append | by apply extends_alter]|]);
      apply Forall_nil_2.
Qed.



Lemma stored_cluster_append row st id :
  stored_cluster (append_message row st) id = stored_cluster st id.
Proof. reflexivity. Qed.

Lemma stored_cluster_session n cid st id :
  stored_cluster (alter_conversation (set_session_id n) cid st) id = stored_cluster st id.
Proof.
  unfold stored_cluster. simpl. rewrite lookup_alter.
  case_decide; [subst|done]. by destruct (conversations st !! id).
Qed.

Lemma stored_cluster_cluster cl cid st c :
  conversations st !! cid = Some c ->
  stored_cluster (alter_conversation (set_cluster_id cl) cid st) cid = Some (Some cl).
Proof.
  intros Hc. unfold stored_cluster. simpl. rewrite lookup_alter.
  rewrite decide_True by done. by rewrite Hc.
Qed.

Lemma truthy_opt_some cl : cl <> "" -> truthy_opt (Some cl) = true.
Proof.
  intros Hne. simpl. apply negb_true_iff.
  destruct (String.eqb cl "") eqn:E; [|done]. by apply String.eqb_eq in E.
Qed.

(** The cluster of a conversation.  In a request that reaches the
    streaming phase: when the request names no cluster (none, or the
    empty string) no cluster update is issued and every stored cluster
    id keeps its value, so a turn without cluster never clears the
    cluster a conversation has; when it names one and no write of the
    persistence step raises, one cluster update is issued and the
    conversation's stored cluster id is the request's. *)
Theorem cluster_id_update env body st cid sid st1 out1 :
  streaming_phase env body st cid sid st1 out1 ->
  (truthy_opt (cluster_id body) = false ->
   List.filter is_update_cluster_id (calls env body st) = []
   /\ forall id, stored_cluster (final_store env body st) id = stored_cluster st1 id)
  /\ (forall cl,
        cluster_id body = Some cl -> cl <> "" ->
        (forall c, is_save_write c = true -> storage_fault env c = None) ->
        List.filter is_update_cluster_id (calls env body st) = [CUpdateClusterId cid cl]
        /\ stored_cluster (final_store env body st) cid = Some (Some cl)).
Proof.
  intros H.
  destruct (streaming_phase_inv _ _ _ _ _ _ _ H) as (Hobs & (c0 & Hc0 & _) & _).
  rewrite (final_store_streaming _ _ _ _ _ _ _ H), (calls_streaming _ _ _ _ _ _ _ H).
  rewrite !List.filter_app.
  rewrite (filter_calls_nil _ _ _ Hobs) by (by intros []).
  rewrite (filter_calls_nil _ _ _ (stream_events_obs env body sid)) by (by intros []).
  cbn [app]. generalize (turn_acc (agent env)). intros acc.
  split.
  - intros Hcl. split.
    + apply (filter_calls_nil _ (fun o => match o with
                                          | Called c => negb (is_update_cluster_id c)
                                          | _ => true
                                          end)).
      * apply run_script_obs; [done|]. unfold script. rewrite Hcl.
        by destruct (saves_assistant acc), (truthy (new_session_id acc)).
      * intros c Hc. by apply negb_true_iff.
    + apply (run_script_preserves _ _
               (fun s s' => forall id, stored_cluster s' id = stored_cluster s id)).
      * done.
      * intros s1 s2 s3 H12 H23 id. by rewrite H23.
      * unfold script. rewrite Hcl.
        destruct (saves_assistant acc), (truthy (new_session_id acc)); simpl;
          repeat (apply Forall_cons_2;
                  [intros s id; simpl;
                   rewrite ?stored_cluster_append, ?stored_cluster_session; reflexivity|]);
          apply Forall_nil_2.
  - intros cl Hcl Hne Hfault.
    rewrite run_script_ok.
    2:{ unfold script.
        destruct (saves_assistant acc), (truthy (new_session_id acc)),
          (truthy_opt (cluster_id body)); simpl;
          repeat (apply Forall_cons_2; [by apply Hfault|]); apply Forall_nil_2. }
    cbn [fst snd]. unfold script. rewrite Hcl, (truthy_opt_some _ Hne). cbn [default].
    destruct (saves_assistant acc), (truthy (new_session_id acc)); simpl; (split; [done|]).
    all: try (eapply stored_cluster_cluster; simpl; rewrite ?lookup_alter, ?decide_True by done;
              by rewrite ?Hc0).
Qed.

(** The resume round trip.  When a turn ends with a token candidate [t]
    (a truthy one) and no write of its persistence step raises, the
    next request on the same conversation (same user, same project, the
    conversation's non-empty id supplied) reaches the streaming phase
    with [t] as the session id read from the store; and when, in that
    request, the collaborators called before the runtime do not raise,
    the runtime is called once, with [t] as resumption token: what
    [update_session_id] stored is what [ClaudeCodeOptions.resume]
    receives. *)
Theorem resume_round_trip env1 body1 st cid sid st1 out1 env2 body2 t :
  streaming_phase env1 body1 st cid sid st1 out1 ->
  candidate_of (delivered (agent env1)) = t ->
  truthy t = true ->
  (forall c, is_save_write c = true -> storage_fault env1 c = None) ->
  get_current_user env2 = get_current_user env1 ->
  project_id body2 = project_id body1 ->
  conversation_id body2 = Some cid ->
  cid <> "" ->
  (exists out2,
     streaming_phase env2 body2 (final_store env1 body1 st) cid t
       (final_store env1 body1 st) out2)
  /\ (preamble_raises (agent env2) = None ->
      exists options,
        List.filter is_query (calls env2 body2 (final_store env1 body1 st))
        = [CQuery (message body2) options]
        /\ resume options = t).
Proof.
  intros H Hcand Ht Hfault Huser Hpid Hcid Hne.
  destruct (streaming_phase_inv _ _ _ _ _ _ _ H) as (_ & _ & _ & [p Hp] & _).
  destruct (streaming_conversation _ _ _ _ _ _ _ H) as (Hproj & c0 & Hc0 & _ & Hc0p).
  assert (stored_token (final_store env1 body1 st) cid = Some t) as Htok.
  { rewrite (final_store_streaming _ _ _ _ _ _ _ H).
    assert (new_session_id (turn_acc (agent env1)) = t) as Hacc by done.
    rewrite <- Hacc in Ht |- *.
    apply (script_stores_token env1 body1 cid _ st1 c0); [done|done|..];
      intros; by apply Hfault. }
  pose proof (script_extends env1 body1 cid (turn_acc (agent env1)) st1) as (Hp2 & _ & Hconv).
  rewrite <- (final_store_streaming _ _ _ _ _ _ _ H) in Hp2, Hconv.
  destruct (Hconv _ _ Hc0) as (c1 & Hc1 & _ & Hc1p & _).
  assert (c_session_id c1 = t) as Hc1t.
  { unfold stored_token in Htok. rewrite Hc1 in Htok. simpl in Htok. congruence. }
  assert (exists out2,
            streaming_phase env2 body2 (final_store env1 body1 st) cid t
              (final_store env1 body1 st) out2) as [out2 H2].
  { unfold streaming_phase, invoke_agent, create_error_stream. run_unfold.
    unfold find_project in *. rewrite Hp2, Hproj, Huser, Hpid.
    destruct (projects st !! project_id body1) as [p0|]; [|discriminate].
    destruct (String.eqb (p_user_email p0) (get_current_user env1)); [|discriminate].
    simpl. rewrite Hcid. rewrite (truthy_opt_some _ Hne). simpl.
    unfold find_conversation. rewrite Hc1, Hc1p, Hc0p, String.eqb_refl. simpl.
    rewrite Hc1t. eauto. }
  split; [eauto|]. intros Hpre.
  apply (streaming_query_call _ _ _ _ _ _ _ H2 Hpre).
Qed.

(** An empty conversation id counts as none.  A request whose
    conversation id is the empty string is served as the same request
    without conversation id: same frames, same calls, same final store
    (a new conversation is created; the id is never looked up). *)
Theorem empty_conversation_id_is_omitted env body st :
  conversation_id body = Some "" ->
  let body' := {| project_id := project_id body; conversation_id := None;
                  message := message body; cluster_id := cluster_id body |} in
  frames env body st = frames env body' st
  /\ calls env body st = calls env body' st
  /\ final_store env body st = final_store env body' st.
Proof.
  destruct body as [pid c msg cl]. simpl. intros ->.
  unfold frames, calls, final_store, trace, serve, invoke_agent, create_error_stream.
  run_unfold. simpl.
  destruct (find_project st _ _); simpl; [|done].
  destruct (conversations st !! generate_uuid env); simpl; [done|].
  unfold run_generator. rewrite !stream_and_store_run.
  change (stream_events env {| project_id := pid; conversation_id := Some "";
                               message := msg; cluster_id := cl |})
    with (stream_events env {| project_id := pid; conversation_id := None;
                               message := msg; cluster_id := cl |}).
  destruct (stream_events _ _ _) as [acc ev].
  change (save_messages env {| project_id := pid; conversation_id := Some "";
                               message := msg; cluster_id := cl |})
    with (save_messages env {| project_id := pid; conversation_id := None;
                               message := msg; cluster_id := cl |}).
  by destruct (save_messages _ _ _ _ _) as [[??]?].
Qed.

(* ===================================================================== *)
(** ** One frame, one line *)
(* ===================================================================== *)

Lemma string_forall_app p s t :
  string_forall p (s +:+ t) = string_forall p s && string_forall p t.
Proof.
  induction s as [|c s IH]; [reflexivity|].
  change (p c && string_forall p (s +:+ t) = p c && string_forall p s && string_forall p t).
  by rewrite IH, andb_assoc.
Qed.

Lemma hex_digit_printable n : ascii_printable (hex_digit n) = true.
Proof.
  destruct n as [|p]; [reflexivity|].
  do 4 (try destruct p as [p|p|]); reflexivity.
Qed.

Lemma json_char_printable c : string_forall ascii_printable (json_char c) = true.
Proof.
  unfold json_char.
  repeat (case_match; [reflexivity|]).
  case_match.
  - simpl. by rewrite andb_true_r.
  - unfold hex2. simpl. by rewrite !hex_digit_printable.
Qed.

Lemma json_str_printable s : string_forall ascii_printable (json_str s) = true.
Proof.
  unfold json_str. change (string_forall ascii_printable (json_chars s +:+ String dquote "") = true).
  rewrite string_forall_app, andb_true_r.
  induction s as [|c s IH]; [reflexivity|].
  simpl. by rewrite string_forall_app, json_char_printable, IH.
Qed.

Lemma pretty_N_char_printable n : ascii_printable (pretty_N_char n) = true.
Proof.
  destruct n as [|p]; [reflexivity|].
  do 4 (try destruct p as [p|p|]); reflexivity.
Qed.

Lemma pretty_N_go_printable x s :
  string_forall ascii_printable s = true ->
  string_forall ascii_printable (pretty_N_go x s) = true.
Proof.
  revert s. induction (N.lt_wf_0 x) as [x _ IH]; intros s Hs.
  assert (x = 0 \/ 0 < x)%N as [->|Hpos] by lia.
  - by rewrite pretty_N_go_0.
  - rewrite pretty_N_go_step by done. apply IH.
    + by apply N.div_lt.
    + simpl. by rewrite pretty_N_char_printable, Hs.
Qed.

Lemma pretty_Z_printable (z : Z) : string_forall ascii_printable (pretty z) = true.
Proof.
  assert (forall p : positive, string_forall ascii_printable (pretty p) = true) as Hp.
  { intros p. unfold pretty, pretty_positive, pretty, pretty_N.
    case_decide; [reflexivity|]. by apply pretty_N_go_printable. }
  destruct z as [|p|p]; [reflexivity|apply Hp|].
  change (string_forall ascii_printable ("-" +:+ pretty p) = true).
  by rewrite string_forall_app, Hp.
Qed.

Lemma join_printable l :
  Forall (fun s => string_forall ascii_printable s = true) l ->
  string_forall ascii_printable (join ", " l) = true.
Proof.
  induction 1 as [|s l Hs Hl IH]; [reflexivity|].
  destruct l as [|s' l']; [done|].
  change (string_forall ascii_printable (s +:+ ", " +:+ join ", " (s' :: l')) = true).
  by rewrite !string_forall_app, Hs, IH.
Qed.

Lemma json_dumps_printable (v : pyval) : string_forall ascii_printable (json_dumps v) = true.
Proof.
  revert v. fix IH 1. intros [|[]|z|s|l|d]; try reflexivity.
  - apply pretty_Z_printable.
  - apply json_str_printable.
  - change (string_forall ascii_printable ("[" +:+ join ", " (map json_dumps l) +:+ "]") = true).
    rewrite !string_forall_app, andb_true_r. simpl.
    apply join_printable. induction l as [|v l IHl]; constructor; [apply IH|apply IHl].
  - change (string_forall ascii_printable
              ("{" +:+ join ", " (map (fun kv => json_str (fst kv) +:+ ": " +:+ json_dumps (snd kv)) d)
                 +:+ "}") = true).
    rewrite !string_forall_app, andb_true_r. simpl.
    apply join_printable. induction d as [|[k v] d IHd]; constructor; [|apply IHd].
    cbn [fst snd]. rewrite !string_forall_app, json_str_printable, IH. reflexivity.
Qed.

(** One frame, one line.  The payload [sse_event] puts between the
    [data: ] prefix and the blank line consists of printable ASCII
    characters only, whatever the event holds (line breaks, control
    characters, quotes, non-ASCII text in any field): no line break can
    occur inside a frame, so the blank line that ends a frame is the
    only one, and a client that splits the stream at blank lines gets
    the frames back. *)
Theorem sse_payload_is_one_line (data : pydict) :
  exists payload,
    sse_event data = "data: " +:+ payload +:+ nl +:+ nl
    /\ string_forall ascii_printable payload = true
    /\ string_mem "010"%char payload = false.
Proof.
  exists (json_dumps (VDict data)). split; [reflexivity|].
  pose proof (json_dumps_printable (VDict data)) as Hp. split; [done|].
  revert Hp. generalize (json_dumps (VDict data)). intros s.
  induction s as [|c s IH]; [done|]. simpl.
  intros [Hc Hs]%andb_prop. rewrite (IH Hs), orb_false_r.
  destruct (Ascii.eqb "010" c) eqn:E; [|done].
  apply Ascii.eqb_eq in E. subst. discriminate.
Qed.

(* ===================================================================== *)
(** ** The rows as dictionaries *)
(* ===================================================================== *)

Lemma opt_str_inj o1 o2 : Db.opt_str o1 = Db.opt_str o2 -> o1 = o2.
Proof. destruct o1, o2; simpl; congruence. Qed.

Lemma message_to_dict_inj m1 m2 :
  Db.Message.to_dict m1 = Db.Message.to_dict m2 -> m1 = m2.
Proof.
  destruct m1, m2. unfold Db.Message.to_dict. simpl.
  intros [= -> -> -> -> Ht ->]. apply opt_str_inj in Ht. by subst.
Qed.

Lemma map_injective {A B} (f : A -> B) :
  (forall x y, f x = f y -> x = y) ->
  forall l1 l2, map f l1 = map f l2 -> l1 = l2.
Proof.
  intros Hf l1. induction l1 as [|x l1 IH]; intros [|y l2] H; try discriminate; [done|].
  simpl in H. injection H as Hx Hl. f_equal; auto.
Qed.

Lemma messages_to_dict_inj ms1 ms2 :
  map (fun m => VDict (Db.Message.to_dict m)) ms1
  = map (fun m => VDict (Db.Message.to_dict m)) ms2 ->
  ms1 = ms2.
Proof.
  apply map_injective. intros m1 m2 H. apply message_to_dict_inj. congruence.
Qed.

(** [Conversation.to_dict] loses nothing.  Two different conversation
    rows never have the same dictionary: every column, and every column
    of every message, can be read back from it. *)
Theorem conversation_to_dict_is_lossless (c1 c2 : Db.Conversation.t) :
  c1 <> c2 -> Db.Conversation.to_dict c1 <> Db.Conversation.to_dict c2.
Proof.
  intros Hne H. apply Hne. clear Hne.
  destruct c1 as [i1 p1 t1 cr1 s1 cl1 ms1], c2 as [i2 p2 t2 cr2 s2 cl2 ms2].
  pose proof (f_equal (fun d => dict_get d "id" VNone) H) as Hi.
  pose proof (f_equal (fun d => dict_get d "project_id" VNone) H) as Hp.
  pose proof (f_equal (fun d => dict_get d "title" VNone) H) as Ht.
  pose proof (f_equal (fun d => dict_get d "created_at" VNone) H) as Hcr.
  pose proof (f_equal (fun d => dict_get d "session_id" VNone) H) as Hs.
  pose proof (f_equal (fun d => dict_get d "cluster_id" VNone) H) as Hcl.
  pose proof (f_equal (fun d => dict_get d "messages" VNone) H) as Hms.
  clear H. simpl in *.
  apply opt_str_inj in Hcr, Hs, Hcl.
  assert (ms1 = ms2) as ->.
  { apply messages_to_dict_inj.
    destruct ms1 as [|m1 ms1], ms2 as [|m2 ms2]; simpl in *; try done; congruence. }
  congruence.
Qed.

(** The summary of a conversation.  [to_dict_summary] agrees with
    [to_dict] on every key other than the three on which they differ by
    design: it has no [session_id] and no [messages] entry, so a list
    view never exposes the session token or the message texts, and its
    [message_count] is the length of the [messages] list of
    [to_dict]. *)
Theorem summary_agrees_with_to_dict (c : Db.Conversation.t) :
  (forall key default,
     key <> "session_id" -> key <> "messages" -> key <> "message_count" ->
     dict_get (Db.Conversation.to_dict_summary c) key default
     = dict_get (Db.Conversation.to_dict c) key default)
  /\ (forall default,
        dict_get (Db.Conversation.to_dict_summary c) "session_id" default = default
        /\ dict_get (Db.Conversation.to_dict_summary c) "messages" default = default)
  /\ Some (dict_get (Db.Conversation.to_dict_summary c) "message_count" VNone)
     = VInt <$> Db.len (dict_get (Db.Conversation.to_dict c) "messages" VNone).
Proof.
  split; [|split].
  - intros key default H1 H2 H3.
    unfold Db.Conversation.to_dict_summary, Db.Conversation.to_dict. cbn [dict_get].
    assert (String.eqb "session_id" key = false) as -> by by apply String.eqb_neq.
    assert (String.eqb "messages" key = false) as -> by by apply String.eqb_neq.
    assert (String.eqb "message_count" key = false) as -> by by apply String.eqb_neq.
    by repeat case_match.
  - intros default. split; reflexivity.
  - unfold Db.Conversation.to_dict_summary, Db.Conversation.to_dict. simpl.
    destruct (Db.Conversation.messages c); simpl; [done|].
    by rewrite length_map.
Qed.

(* ===================================================================== *)
(** ** The file listing and the stateless query *)
(* ===================================================================== *)

(** The file listing is guarded by ownership.  When the project does
    not resolve for the user, [list_project_files] answers 404 without
    touching the project directory (nothing is restored or created for
    it) and leaves the store as it was.  When it answers with a
    listing, the project is one of the user's, the listing names the
    project asked for, and it has one entry per regular file that the
    traversal finds: directories are not listed. *)
Theorem list_project_files_guard env rglob pid st :
  (find_project st (get_current_user env) pid = None ->
   fst (list_project_files env rglob pid st)
   = (inr (inl (HttpError 404 ("Project " +:+ pid +:+ " not found"))), st)
   /\ List.filter is_ensure_project_directory
        (calls_of (snd (list_project_files env rglob pid st))) = [])
  /\ (forall listing st',
        fst (list_project_files env rglob pid st) = (inr (inr listing), st') ->
        is_Some (find_project st (get_current_user env) pid)
        /\ st' = st
        /\ dict_get listing "project_id" VNone = VStr pid
        /\ exists dir,
             ensure_project_directory (agent env) = inr dir
             /\ dict_get listing "files" VNone
                = VList (map file_dict (List.filter is_file (rglob dir)))).
Proof.
  unfold list_project_files, get_project_directory. run_unfold.
  destruct (find_project st (get_current_user env) pid) as [p|]; simpl.
  - split; [discriminate|]. intros listing st'.
    destruct (ensure_project_directory (agent env)) as [e|dir]; simpl; [discriminate|].
    intros [= <- <-]. split; [eauto|]. split; [done|]. split; [done|]. eauto.
  - split; [done|]. intros listing st'. discriminate.
Qed.

(** [simple_query] is stateless.  When the collaborators called before
    the runtime do not raise, it calls the runtime once, never with a
    resumption token, and asks for the system prompt of no cluster:
    nothing of an earlier session or of a selected cluster reaches the
    runtime through it. *)
Theorem simple_query_is_stateless a pid msg :
  preamble_raises a = None ->
  (exists options,
     List.filter is_query (calls_of (snd (simple_query a pid msg tt))) = [CQuery msg options]
     /\ resume options = VNone)
  /\ forall cl, CGetSystemPrompt cl ∈ calls_of (snd (simple_query a pid msg tt)) -> cl = None.
Proof.
  unfold preamble_raises, simple_query.
  destruct (ensure_project_directory a) as [e1|dir] eqn:Hdir; [discriminate|].
  destruct (get_databricks_mcp_config a) as [e2|cfg] eqn:Hcfg; [discriminate|].
  destruct (get_system_prompt a) as [e3|sp] eqn:Hsp; [discriminate|]. intros _.
  rewrite (service_calls a pid msg VNone None dir cfg sp Hdir Hcfg Hsp).
  split.
  - destruct (truthy cfg); eexists; split; reflexivity.
  - intros cl Hin. destruct (truthy cfg); simpl in Hin;
      repeat (apply elem_of_cons in Hin as [Hin|Hin]; [by simplify_eq|]);
      by apply elem_of_nil in Hin.
Qed.

(* ===================================================================== *)
(** ** Errors of the turn and of the storage *)
(* ===================================================================== *)

(** A storage failure is invisible to the client.  The frames of a
    response do not depend on which storage writes raise: when saving
    the messages fails, the failure is logged and the client receives
    the same frames, [stream.completed] with the same flag included, as
    when everything is saved. *)
Theorem frames_ignore_storage_faults env fault body st :
  frames (with_fault env fault) body st = frames env body st.
Proof.
  destruct (invoke_agent env body st) as [[[e|response] st1] out1] eqn:Hinv.
  - unfold frames, trace, serve.
    change ((invoke_agent ?en body ≫= ?k) st) with (eff_bind k (invoke_agent en body) st).
    unfold eff_bind.
    change (invoke_agent (with_fault env fault) body st) with (invoke_agent env body st).
    by rewrite Hinv.
  - destruct (body_iterator response) as [error msg|cid sid] eqn:Hbody.
    + unfold frames, trace, serve.
      change ((invoke_agent ?en body ≫= ?k) st) with (eff_bind k (invoke_agent en body) st).
      unfold eff_bind.
      change (invoke_agent (with_fault env fault) body st) with (invoke_agent env body st).
      by rewrite Hinv, Hbody.
    + assert (streaming_phase env body st cid sid st1 out1) as H by (exists response; auto).
      assert (streaming_phase (with_fault env fault) body st cid sid st1 out1) as H'
        by (exists response; auto).
      rewrite (frames_streaming _ _ _ _ _ _ _ H), (frames_streaming _ _ _ _ _ _ _ H').
      reflexivity.
Qed.

(** Saving comes between the stream and its end.  In a request that
    reaches the streaming phase the trace splits in three: first the
    handler and the loop, in which no message or token is written;
    then the persistence step, in which no frame is sent and nothing of
    the service or the runtime is called; then [stream.completed] and
    the end marker.  A client that sees [stream.completed] knows that
    saving has been attempted, and every content frame reached it
    before the first write. *)
Theorem persistence_follows_streaming env body st cid sid st1 out1 :
  streaming_phase env body st cid sid st1 out1 ->
  exists pre mid,
    trace env body st
    = pre ++ mid ++ [Yield (completed_frame (turn_failed (agent env))); Yield Done]
    /\ List.filter is_save_write (calls_of pre) = []
    /\ frames_of mid = []
    /\ List.filter is_runtime_call (calls_of mid) = [].
Proof.
  intros H.
  destruct (streaming_phase_inv _ _ _ _ _ _ _ H) as (Hobs & _).
  pose proof (serve_streaming_run _ _ _ _ _ _ _ H) as Hrun. cbv zeta in Hrun.
  assert (is_not_none (error_message (turn_acc (agent env))) = turn_failed (agent env)) as Hflag.
  { unfold turn_acc, turn_failed. simpl. by destruct (turn_error (agent env)). }
  rewrite Hflag in Hrun. clear Hflag.
  pose proof (script_obs env body cid (turn_acc (agent env)) st1) as Hso.
  revert Hrun Hso.
  match goal with
  | |- context [run_script ?f ?t ?ws st1] => generalize (run_script f t ws st1)
  end.
  intros [[r st2] so]. cbn [fst snd]. intros Hrun Hso.
  exists (out1 ++ Yield (created_frame cid) :: snd (stream_events env body sid)),
    (so ++ match r with
           | inl e => [Log ERROR ("Failed to save messages: " +:+ str_exn e)]
           | inr _ => []
           end).
  split; [|split; [|split]].
  - unfold trace. rewrite Hrun. cbn [snd]. by rewrite <- !app_assoc.
  - rewrite calls_of_app. change (calls_of (Yield ?f :: ?l)) with (calls_of l).
    rewrite List.filter_app.
    rewrite (filter_calls_nil _ _ _ Hobs) by (by intros []).
    by rewrite (filter_calls_nil _ _ _ (stream_events_obs env body sid)) by (by intros []).
  - rewrite frames_of_app, (frames_of_nil _ _ Hso) by done. by destruct r.
  - rewrite calls_of_app, List.filter_app.
    rewrite (filter_calls_nil _ _ _ Hso) by (by intros []). by destruct r.
Qed.

Lemma on_event_not_error acc event acc' fs :
  not_error_event event = true ->
  on_event acc event = inr (acc', fs) ->
  forallb not_error_frame fs = true.
Proof.
  unfold not_error_event, on_event. intros Hne%negb_true_iff. rewrite Hne. intros H.
  repeat case_match; simplify_eq; reflexivity.
Qed.

Lemma consume_not_error steps acc :
  forallb not_error_event (yields_of steps) = true ->
  forallb not_error_frame (frames_of (snd (fst (consume acc steps)))) = true.
Proof.
  revert acc. induction steps as [|o steps IH]; intros acc; simpl; [done|].
  destruct o as [level msg|c|event]; simpl.
  - intros Hs. specialize (IH acc Hs). by destruct (consume acc steps) as [[??]?].
  - intros Hs. specialize (IH acc Hs). by destruct (consume acc steps) as [[??]?].
  - intros [He Hs]%andb_prop.
    destruct (on_event acc event) as [e|[acc1 fs]] eqn:Hev; [done|].
    specialize (IH acc1 Hs). destruct (consume acc1 steps) as [[??]?]. cbn [fst snd] in *.
    rewrite frames_of_app, forallb_app, IH, andb_true_r.
    apply (on_event_not_error _ _ _ _ He) in Hev. clear -Hev.
    induction fs as [|f fs IHf]; simpl in *; [done|].
    apply andb_prop in Hev as [-> ?]. auto.
Qed.

Lemma message_events_not_error msgs :
  forallb not_error_event (flat_map message_events msgs) = true.
Proof.
  induction msgs as [|m msgs IH]; [done|]. simpl. rewrite forallb_app, IH, andb_true_r.
  destruct m as [content| | | | |]; try reflexivity.
  simpl. induction content as [|b content IHc]; [done|].
  simpl. rewrite forallb_app, IHc, andb_true_r. by destruct b.
Qed.

Lemma consume_app steps1 steps2 acc :
  consume acc (steps1 ++ steps2) =
  let '(a1, o1, r1) := consume acc steps1 in
  match r1 with
  | Some e => (a1, o1, Some e)
  | None => let '(a2, o2, r2) := consume a1 steps2 in (a2, o1 ++ o2, r2)
  end.
Proof.
  revert acc. induction steps1 as [|o steps1 IH]; intros acc; simpl.
  - by destruct (consume acc steps2) as [[??]?].
  - destruct o as [level msg|c|event].
    + rewrite IH. destruct (consume acc steps1) as [[a1 o1] [e|]]; [done|].
      by destruct (consume a1 steps2) as [[??]?].
    + rewrite IH. destruct (consume acc steps1) as [[a1 o1] [e|]]; [done|].
      by destruct (consume a1 steps2) as [[??]?].
    + destruct (on_event acc event) as [e|[acc1 fs]]; [done|].
      rewrite IH. destruct (consume acc1 steps1) as [[a1 o1] [e|]]; [done|].
      destruct (consume a1 steps2) as [[??]?]. by rewrite app_assoc.
Qed.

(** The frames of the loop: those of the delivered messages, none of
    them an error frame, then the error frame of the turn, if any. *)
Lemma stream_events_frames env body sid :
  exists pre,
    frames_of (snd (stream_events env body sid))
    = pre ++ match turn_error (agent env) with
             | Some e => [error_frame e]
             | None => []
             end
    /\ forallb not_error_frame pre = true.
Proof.
  unfold stream_events, turn_error.
  destruct (preamble_raises (agent env)) as [e|] eqn:Hpre.
  - destruct (stream_agent_response_raises (agent env) (project_id body) (message body) sid
                (cluster_id body) e Hpre) as (pre & -> & Hq & _).
    rewrite <- (app_nil_r pre), consume_app_quiet by done. cbn [consume].
    rewrite app_nil_r. exists []. split; [|done]. cbn [snd app].
    rewrite frames_of_app.
    rewrite (frames_of_nil (fun o => match o with Yield _ => false | _ => true end)); [done| |done].
    clear. induction pre as [|[]]; simpl; auto.
  - pose proof (service_steps_consumed (agent env) (project_id body) (message body) sid
                  (cluster_id body)) as Hnone.
    destruct (stream_agent_response_ok (agent env) (project_id body) (message body) sid
                (cluster_id body) Hpre) as (pre & options & Heq & Hq & _).
    rewrite Heq in Hnone |- *. cbn [snd] in Hnone.
    set (steps1 := pre ++ Called (CQuery (message body) options)
                     :: map Yield (flat_map message_events (query_messages (agent env)))).
    assert (pre ++ Called (CQuery (message body) options)
              :: map Yield (flat_map message_events (query_messages (agent env)))
              ++ query_tail (agent env)
            = steps1 ++ query_tail (agent env)) as Hsplit.
    { unfold steps1. by rewrite <- app_assoc. }
    rewrite Hsplit in Hnone |- *.
    assert (forallb not_error_event (yields_of steps1) = true) as Hy.
    { unfold steps1. rewrite yields_of_app, (yields_of_quiet _ Hq). simpl.
      rewrite yields_of_yields. apply message_events_not_error. }
    pose proof (consume_not_error steps1 acc0 Hy) as Hne.
    revert Hnone. rewrite consume_app.
    destruct (consume acc0 steps1) as [[a1 o1] [e|]]; [discriminate|]. cbn [fst snd] in Hne.
    intros _. exists (frames_of o1). split; [|done].
    unfold query_tail. destruct (query_raises (agent env)) as [e|]; simpl.
    + by rewrite frames_of_app.
    + by rewrite !app_nil_r.
Qed.

(** The client is told of a turn error.  In a request that reaches the
    streaming phase: when the turn fails (a collaborator of the service
    raises before the runtime is reached, or the runtime raises), the
    last frame before [stream.completed] is an error frame that carries
    the exception's text, and it is the only error frame; when the turn
    does not fail, no error frame is sent. *)
Theorem turn_error_reaches_client env body st cid sid st1 out1 :
  streaming_phase env body st cid sid st1 out1 ->
  exists pre,
    frames env body st
    = pre ++ match turn_error (agent env) with
             | Some e => [error_frame e]
             | None => []
             end
        ++ [completed_frame (turn_failed (agent env)); Done]
    /\ forallb not_error_frame pre = true.
Proof.
  intros H. rewrite (frames_streaming _ _ _ _ _ _ _ H).
  destruct (stream_events_frames env body sid) as (pre & -> & Hpre).
  exists (created_frame cid :: pre). split.
  - by rewrite <- app_assoc.
  - simpl. by rewrite Hpre.
Qed.

(* ===================================================================== *)
(** ** Further examples *)
(* ===================================================================== *)

(** [query_options] on an agent with an MCP server and one discovered
    tool, resuming a session. *)
Lemma query_options_witness :
  calls_of (snd (stream_agent_response mcp_agent "proj-1" "list my tables"
                   (VStr "sess-old") None tt))
  = [CEnsureProjectDirectory "proj-1"; CGetMcpConfig; CGetMcpTools; CGetSystemPrompt None;
     CQuery "list my tables"
       {| cwd := "/projects/proj-1";
          allowed_tools := ["Read"; "Write"; "Edit"; "Glob"; "Grep"; "Skill";
                            "mcp__databricks__execute_sql"];
          permission_mode := "acceptEdits";
          resume := VStr "sess-old";
          mcp_servers := VDict [("databricks", VDict [("command", VStr "python")])];
          system_prompt := "# Databricks AI Dev Kit" |}]
  /\ forall prompt options,
       CQuery prompt options
       ∈ calls_of (snd (stream_agent_response mcp_agent "proj-1" "list my tables"
                          (VStr "sess-old") None tt)) ->
       "Bash" ∈ allowed_tools options -> "Bash" ∈ get_databricks_mcp_tools mcp_agent.
Proof.
  apply (query_options mcp_agent "proj-1" "list my tables" (VStr "sess-old") None
           "/projects/proj-1" (VDict [("databricks", VDict [("command", VStr "python")])])
           "# Databricks AI Dev Kit"); reflexivity.
Defined.

(** [runtime_resumes_stored_token] on a turn on the stored
    conversation. *)
Lemma runtime_resumes_stored_token_witness :
  exists options,
    List.filter is_query
      (calls (sample_env [hello_message] None no_fault) resume_request sample_store)
    = [CQuery (message resume_request) options]
    /\ stored_token sample_store "conv-1" = Some (resume options)
    /\ (truthy_opt (conversation_id resume_request) = false -> resume options = VNone).
Proof.
  apply (runtime_resumes_stored_token (sample_env [hello_message] None no_fault)
           resume_request sample_store "conv-1" (VStr "sess-old") sample_store resume_prefix).
  - streams.
  - reflexivity.
Defined.

(** [one_frame_per_handled_event] on a text event. *)
Lemma one_frame_per_handled_event_witness :
  if has_type handled_types text_event (VStr "")
  then exists data,
         [Sse text_event] = [Sse data]
         /\ dict_get data "type" VNone = dict_get text_event "type" (VStr "")
  else [Sse text_event] = []
       /\ {| final_text := "hello"; new_session_id := VNone; error_message := VNone |} = acc0.
Proof.
  apply (one_frame_per_handled_event acc0 text_event
           {| final_text := "hello"; new_session_id := VNone; error_message := VNone |}
           [Sse text_event]).
  vm_compute. reflexivity.
Defined.

(** [stored_text_is_streamed_text] on a turn with one text block. *)
Lemma stored_text_is_streamed_text_witness :
  streamed_text
    (frames (sample_env [hello_message; result_message (VStr "sess-new")] None no_fault)
       resume_request sample_store)
  = transcript_of
      (delivered (agent (sample_env [hello_message; result_message (VStr "sess-new")]
                           None no_fault)))
  /\ (storage_fault (sample_env [hello_message; result_message (VStr "sess-new")] None no_fault)
        (CAddMessage "conv-1" "user" (message resume_request) false) = None ->
      streamed_text
        (frames (sample_env [hello_message; result_message (VStr "sess-new")] None no_fault)
           resume_request sample_store) <> "" ->
      List.filter (is_add_message "assistant")
        (calls (sample_env [hello_message; result_message (VStr "sess-new")] None no_fault)
           resume_request sample_store)
      = [CAddMessage "conv-1" "assistant"
           (streamed_text
              (frames (sample_env [hello_message; result_message (VStr "sess-new")]
                         None no_fault) resume_request sample_store))
           (turn_failed (agent (sample_env [hello_message; result_message (VStr "sess-new")]
                                  None no_fault)))]).
Proof.
  apply (stored_text_is_streamed_text
           (sample_env [hello_message; result_message (VStr "sess-new")] None no_fault)
           resume_request sample_store "conv-1" (VStr "sess-old") sample_store resume_prefix).
  streams.
Defined.

(** [cluster_id_update] on a first turn that names a cluster. *)
Lemma cluster_id_update_witness :
  List.filter is_update_cluster_id
    (calls (sample_env [hello_message] None no_fault) fresh_request sample_store)
  = [CUpdateClusterId "conv-2" "0612-abc"]
  /\ stored_cluster
       (final_store (sample_env [hello_message] None no_fault) fresh_request sample_store)
       "conv-2"
     = Some (Some "0612-abc").
Proof.
  apply (proj2 (cluster_id_update (sample_env [hello_message] None no_fault) fresh_request
                  sample_store "conv-2" VNone
                  (fresh_store (sample_env [hello_message] None no_fault))
                  (fresh_prefix (sample_env [hello_message] None no_fault))
                  ltac:(eexists; split; [vm_compute; reflexivity|reflexivity]))
           "0612-abc").
  - reflexivity.
  - discriminate.
  - intros c _. reflexivity.
Defined.

(** [resume_round_trip] on two turns on the stored conversation: the
    first ends with the token of its result message, the second hands
    it to the runtime. *)
Lemma resume_round_trip_witness :
  (exists out2,
     streaming_phase (sample_env [hello_message] None no_fault) resume_request
       (final_store (sample_env [hello_message; result_message (VStr "sess-new")]
                       None no_fault) resume_request sample_store)
       "conv-1" (VStr "sess-new")
       (final_store (sample_env [hello_message; result_message (VStr "sess-new")]
                       None no_fault) resume_request sample_store)
       out2)
  /\ (preamble_raises (agent (sample_env [hello_message] None no_fault)) = None ->
      exists options,
        List.filter is_query
          (calls (sample_env [hello_message] None no_fault) resume_request
             (final_store (sample_env [hello_message; result_message (VStr "sess-new")]
                             None no_fault) resume_request sample_store))
        = [CQuery (message resume_request) options]
        /\ resume options = VStr "sess-new").
Proof.
  apply (resume_round_trip
           (sample_env [hello_message; result_message (VStr "sess-new")] None no_fault)
           resume_request sample_store "conv-1" (VStr "sess-old") sample_store resume_prefix
           (sample_env [hello_message] None no_fault) resume_request (VStr "sess-new")).
  - streams.
  - reflexivity.
  - reflexivity.
  - intros c _. reflexivity.
  - reflexivity.
  - reflexivity.
  - reflexivity.
  - discriminate.
Defined.

(** [empty_conversation_id_is_omitted] on a request whose conversation
    id is the empty string. *)
Lemma empty_conversation_id_is_omitted_witness :
  let body' := {| project_id := project_id blank_request; conversation_id := None;
                  message := message blank_request;
                  cluster_id := cluster_id blank_request |} in
  frames (sample_env [hello_message] None no_fault) blank_request sample_store
  = frames (sample_env [hello_message] None no_fault) body' sample_store
  /\ calls (sample_env [hello_message] None no_fault) blank_request sample_store
     = calls (sample_env [hello_message] None no_fault) body' sample_store
  /\ final_store (sample_env [hello_message] None no_fault) blank_request sample_store
     = final_store (sample_env [hello_message] None no_fault) body' sample_store.
Proof.
  apply (empty_conversation_id_is_omitted (sample_env [hello_message] None no_fault)
           blank_request sample_store).
  reflexivity.
Defined.

(** [conversation_to_dict_is_lossless] on a row and the same row with
    the text of its message edited. *)
Lemma conversation_to_dict_is_lossless_witness :
  Db.Conversation.to_dict Db.sample_row <> Db.Conversation.to_dict Db.edited_row.
Proof.
  apply (conversation_to_dict_is_lossless Db.sample_row Db.edited_row).
  discriminate.
Defined.

(** [simple_query_is_stateless] on an agent with an MCP server. *)
Lemma simple_query_is_stateless_witness :
  (exists options,
     List.filter is_query (calls_of (snd (simple_query mcp_agent "proj-1" "list my tables" tt)))
     = [CQuery "list my tables" options]
     /\ resume options = VNone)
  /\ forall cl,
       CGetSystemPrompt cl ∈ calls_of (snd (simple_query mcp_agent "proj-1" "list my tables" tt))
       -> cl = None.
Proof.
  apply (simple_query_is_stateless mcp_agent "proj-1" "list my tables").
  reflexivity.
Defined.

(** [persistence_follows_streaming] on a turn whose user-message write
    raises. *)
Lemma persistence_follows_streaming_witness :
  exists pre mid,
    trace (sample_env [hello_message] None user_write_fails) resume_request sample_store
    = pre ++ mid
        ++ [Yield (completed_frame
                     (turn_failed (agent (sample_env [hello_message] None user_write_fails))));
            Yield Done]
    /\ List.filter is_save_write (calls_of pre) = []
    /\ frames_of mid = []
    /\ List.filter is_runtime_call (calls_of mid) = [].
Proof.
  apply (persistence_follows_streaming (sample_env [hello_message] None user_write_fails)
           resume_request sample_store "conv-1" (VStr "sess-old") sample_store resume_prefix).
  streams.
Defined.

(** [turn_error_reaches_client] on a turn in which the runtime raises
    after a text block. *)
Lemma turn_error_reaches_client_witness :
  exists pre,
    frames (sample_env [hello_message] (Some (Exception "boom")) no_fault)
      resume_request sample_store
    = pre ++ match turn_error (agent (sample_env [hello_message] (Some (Exception "boom"))
                                        no_fault)) with
             | Some e => [error_frame e]
             | None => []
             end
        ++ [completed_frame
              (turn_failed (agent (sample_env [hello_message] (Some (Exception "boom"))
                                     no_fault)));
            Done]
    /\ forallb not_error_frame pre = true.
Proof.
  apply (turn_error_reaches_client
           (sample_env [hello_message] (Some (Exception "boom")) no_fault)
           resume_request sample_store "conv-1" (VStr "sess-old") sample_store resume_prefix).
  streams.
Defined.
